(** * floki: request normalisation and the LLM configuration schema

    A shallow embedding of

    - [floki/llm/utils/request.py]: [RequestHandler.normalize_chat_messages]
      and [RequestHandler.process_params];
    - [floki/types/llm.py]: the pydantic records for client configurations,
      request parameters and [PromptyModelConfig] with its [sync_model_name]
      pre-validator.

    Python values are an inductive type, dictionaries with string keys are
    insertion-ordered association lists where the order is observable and
    [gmap string _] where it is not, exceptions are the [Raise] branch of a
    result type, and the [while] loop of the normaliser is a step function
    iterated under an explicit iteration budget. *)

From Stdlib Require Import ZArith QArith Lia.
From stdpp Require Import base option list strings gmap.

Set Warnings "-register-all".
Local Open Scope string_scope.

(** ** Python values *)

Module Py.

(** The values a caller can hand to the request handler.  [PList] stands for
    the iterables that are neither [str] nor [dict] (lists are the
    representative); [PMsg] is an instance of [BaseMessage], carried as the
    dictionary its [model_dump()] returns. *)
Inductive pyval : Type :=
| PNone
| PBool (b : bool)
| PInt (z : Z)
| PStr (s : string)
| PList (xs : list pyval)
| PDict (kvs : list (string * pyval))
| PMsg (dump : list (string * pyval)).

Abbreviation pydict := (list (string * pyval)).

(** [type(v)], as it is printed in the f-string of the last [raise]. *)
Inductive pytype : Type :=
| TNoneType | TBool | TInt | TStr | TList | TDict | TBaseMessage.

Definition type_of (v : pyval) : pytype :=
  match v with
  | PNone => TNoneType
  | PBool _ => TBool
  | PInt _ => TInt
  | PStr _ => TStr
  | PList _ => TList
  | PDict _ => TDict
  | PMsg _ => TBaseMessage
  end.

(** Exceptions.  Both [ValueError]s of [normalize_chat_messages] are kept
    apart by their message: the role one carries the offending role, the
    format one the runtime type.  [TypeError_unhashable] is what the set
    membership test raises on an unhashable left operand, and
    [AttributeError] what an attribute read on an object without that
    attribute raises.  A pydantic [ValidationError] lists one
    (field, constraint) pair per offending field; [SchemaError_use_default]
    is pydantic's error for a [PydanticUseDefault] that no default caught. *)
Inductive exn : Type :=
| ValueError_role (role : pyval)
| ValueError_format (ty : pytype)
| TypeError_unhashable (ty : pytype)
| TypeError_multiple_values (kw : string)
| AttributeError (cls attr : string)
| ValidationError (errors : list (string * string))
| SchemaError_use_default (field : string)
| CollaboratorError (msg : string).

Inductive result (A : Type) : Type :=
| Ok (a : A)
| Raise (e : exn).
Arguments Ok {A} a.
Arguments Raise {A} e.

#[global] Instance result_bind : MBind result := fun A B k r =>
  match r with
  | Ok a => k a
  | Raise e => Raise e
  end.

#[global] Instance result_fmap : FMap result := fun A B f r =>
  match r with
  | Ok a => Ok (f a)
  | Raise e => Raise e
  end.

Definition is_ok {A} (r : result A) : bool :=
  match r with Ok _ => true | Raise _ => false end.

(** [d.get(k)]: the value [k] is bound to ([k] is bound at most once in a
    dictionary), [None] without a binding. *)
Fixpoint dict_get (d : pydict) (k : string) : pyval :=
  match d with
  | [] => PNone
  | (k', v) :: d' => if String.eqb k' k then v else dict_get d' k
  end.

(** [k in d] with the value: [Some v] when [k] is bound to [v]. *)
Fixpoint dict_lookup (d : pydict) (k : string) : option pyval :=
  match d with
  | [] => None
  | (k', v) :: d' => if String.eqb k' k then Some v else dict_lookup d' k
  end.

(** [d[k] = v]: a key that is bound keeps its place, a new key goes to the
    end (dictionaries keep insertion order). *)
Fixpoint dict_set (d : pydict) (k : string) (v : pyval) : pydict :=
  match d with
  | [] => [(k, v)]
  | (k', v') :: d' =>
    if String.eqb k' k then (k', v) :: d' else (k', v') :: dict_set d' k v
  end.

(** What [model_dump()] makes of a value held behind an [Any] annotation:
    a model instance becomes the dictionary of its fields, lists and
    dictionaries are dumped element by element, anything else is kept. *)
Fixpoint dump_any (v : pyval) : pyval :=
  match v with
  | PList xs =>
    PList ((fix go (l : list pyval) : list pyval :=
              match l with
              | [] => []
              | x :: l' => dump_any x :: go l'
              end) xs)
  | PDict kvs =>
    PDict ((fix go (l : list (string * pyval)) : list (string * pyval) :=
              match l with
              | [] => []
              | (k, x) :: l' => (k, dump_any x) :: go l'
              end) kvs)
  | PMsg kvs =>
    PDict ((fix go (l : list (string * pyval)) : list (string * pyval) :=
              match l with
              | [] => []
              | (k, x) :: l' => (k, dump_any x) :: go l'
              end) kvs)
  | _ => v
  end.

(** The same on a [Dict[str, Any]]. *)
Definition dump_dict (d : pydict) : pydict :=
  map (fun kv => (kv.1, dump_any kv.2)) d.

(** Whether a value holds no model instance, at any depth. *)
Fixpoint no_model (v : pyval) : bool :=
  match v with
  | PList xs =>
    (fix go (l : list pyval) : bool :=
       match l with
       | [] => true
       | x :: l' => no_model x && go l'
       end) xs
  | PDict kvs =>
    (fix go (l : list (string * pyval)) : bool :=
       match l with
       | [] => true
       | (_, x) :: l' => no_model x && go l'
       end) kvs
  | PMsg _ => false
  | _ => true
  end.

Definition dict_no_model (d : pydict) : bool := no_model (PDict d).

(** Python truthiness, as [if tools:] and [configuration and parameters]
    use it. *)
Definition truthy (v : pyval) : bool :=
  match v with
  | PNone => false
  | PBool b => b
  | PInt z => negb (Z.eqb z 0)
  | PStr s => negb (String.eqb s "")
  | PList xs => match xs with [] => false | _ => true end
  | PDict kvs => match kvs with [] => false | _ => true end
  | PMsg _ => true
  end.

(** Whether [hash(v)] succeeds: lists and dictionaries define no hash, and
    neither does a pydantic model that is not frozen. *)
Definition hashable (v : pyval) : bool :=
  match v with
  | PNone | PBool _ | PInt _ | PStr _ => true
  | PList _ | PDict _ | PMsg _ => false
  end.

End Py.
Export Py.

(** ** [RequestHandler.normalize_chat_messages] *)

Module Normalize.

Definition supported_roles : list string :=
  ["user"; "assistant"; "tool"; "system"].

(** [role in {"user", "assistant", "tool", "system"}]: the set hashes its
    left operand first, then compares. *)
Definition role_in_supported (role : pyval) : result bool :=
  if hashable role then
    match role with
    | PStr s => Ok (bool_decide (s ∈ supported_roles))
    | _ => Ok false
    end
  else Raise (TypeError_unhashable (type_of role)).

(** The loop state: the work queue and the list built so far. *)
Record state : Type := mkState {
  queue : list pyval;
  normalized_messages : list pydict
}.

Inductive outcome : Type :=
| Continue (st : state)
| Return (msgs : list pydict)
| Throw (e : exn).

(** One evaluation of the loop test and, when the queue is not empty, of the
    loop body: [msg = queue.pop(0)] and the [isinstance] cascade. *)
Definition step (st : state) : outcome :=
  match queue st with
  | [] => Return (normalized_messages st)
  | msg :: rest =>
    let out := normalized_messages st in
    match msg with
    | PStr s =>
      Continue (mkState rest (out ++ [[("role", PStr "user"); ("content", PStr s)]]))
    | PMsg dump =>
      Continue (mkState rest (out ++ [dump]))
    | PDict d =>
      match role_in_supported (dict_get d "role") with
      | Raise e => Throw e
      | Ok false => Throw (ValueError_role (dict_get d "role"))
      | Ok true => Continue (mkState rest (out ++ [d]))
      end
    | PList xs =>
      Continue (mkState (rest ++ xs) out)
    | PNone | PBool _ | PInt _ =>
      Throw (ValueError_format (type_of msg))
    end
  end.

(** The [while] loop under a budget of loop tests; [None] is a budget that
    ran out before the loop left. *)
Fixpoint loop (fuel : nat) (st : state) : option (result (list pydict)) :=
  match fuel with
  | O => None
  | S fuel' =>
    match step st with
    | Return msgs => Some (Ok msgs)
    | Throw e => Some (Raise e)
    | Continue st' => loop fuel' st'
    end
  end.

(** Number of values the loop will pop for a given value: the value itself
    and, for an iterable, everything it expands to.  Dictionaries and
    message objects are never expanded. *)
Fixpoint work (v : pyval) : nat :=
  match v with
  | PList xs => S (foldr (fun x n => work x + n) 0 xs)
  | _ => 1
  end.

Definition work_queue (q : list pyval) : nat :=
  foldr (fun x n => work x + n) 0 q.

Definition init (messages : pyval) : state := mkState [messages] [].

(** The function itself: the loop from [queue = [messages]] and an empty
    output list, with a budget of one test per value plus the final one. *)
Definition normalize_chat_messages (messages : pyval)
  : option (result (list pydict)) :=
  loop (S (work messages)) (init messages).

(** The loop with a budget that always suffices for its state. *)
Definition run (st : state) : option (result (list pydict)) :=
  loop (S (work_queue (queue st))) st.

(** *** Reference functions for the order of the output *)

Definition is_leaf (v : pyval) : bool :=
  match v with PList _ => false | _ => true end.

(** What the cascade appends for one value that is not expanded. *)
Definition convert (v : pyval) : result pydict :=
  match v with
  | PStr s => Ok [("role", PStr "user"); ("content", PStr s)]
  | PMsg dump => Ok dump
  | PDict d =>
    match role_in_supported (dict_get d "role") with
    | Raise e => Raise e
    | Ok false => Raise (ValueError_role (dict_get d "role"))
    | Ok true => Ok d
    end
  | _ => Raise (ValueError_format (type_of v))
  end.

(** Left to right, stopping at the first value that raises. *)
Fixpoint convert_all (vs : list pyval) : result (list pydict) :=
  match vs with
  | [] => Ok []
  | v :: vs' =>
    match convert v with
    | Raise e => Raise e
    | Ok m =>
      match convert_all vs' with
      | Raise e => Raise e
      | Ok ms => Ok (m :: ms)
      end
    end
  end.

(** The values of a queue that are not expanded, and the elements of those
    that are, both in queue order. *)
Definition leaves (q : list pyval) : list pyval := filter (fun v => is_leaf v = true) q.

Fixpoint children (q : list pyval) : list pyval :=
  match q with
  | [] => []
  | PList xs :: q' => xs ++ children q'
  | _ :: q' => children q'
  end.

(** Level order: the unexpanded values of the queue, then level order of
    the next level, for [depth] levels. *)
Fixpoint bfs (depth : nat) (q : list pyval) : list pyval :=
  match depth with
  | O => []
  | S depth' => leaves q ++ bfs depth' (children q)
  end.

Definition level_order (messages : pyval) : list pyval :=
  bfs (work messages) [messages].

End Normalize.

(** ** [RequestHandler.process_params] *)

Module Params.

(** The two collaborators, as interfaces: [ToolHelper.format_tool] and
    [StructureHandler.generate_request].  Either may raise.  Parameters are
    dictionaries in insertion order. *)
Class ToolHelper : Type := {
  format_tool : pyval -> string -> result pyval
}.

Class StructureHandler : Type := {
  generate_request : string -> string -> pydict -> result pydict
}.

(** What the function does that a caller can observe besides its result. *)
Inductive event : Type :=
| LogInfo (msg : string)
| CallFormatTool (tool : pyval) (tool_format : string)
| CallGenerateRequest (response_model llm_provider : string).

(** The list comprehension [[format_tool(tool, tool_format=p) for tool in
    tools]]: one call per tool, left to right, stopping at the first call
    that raises. *)
Fixpoint format_tools `{ToolHelper} (tools : list pyval) (llm_provider : string)
  : list event * result (list pyval) :=
  match tools with
  | [] => ([], Ok [])
  | tool :: tools' =>
    match format_tool tool llm_provider with
    | Raise e => ([CallFormatTool tool llm_provider], Raise e)
    | Ok t =>
      let '(evs, r) := format_tools tools' llm_provider in
      (CallFormatTool tool llm_provider :: evs,
       match r with Ok ts => Ok (t :: ts) | Raise e => Raise e end)
    end
  end.

(** [if tools:] on an [Optional[List[...]]]. *)
Definition tools_truthy (tools : option (list pyval)) : bool :=
  match tools with
  | Some (_ :: _) => true
  | _ => false
  end.

(** The keywords the call [generate_request(response_model=...,
    llm_provider=..., **params)] names itself. *)
Definition named_keywords : list string := ["response_model"; "llm_provider"].

(** The first key of [params], in the dictionary's order, that repeats a
    named keyword: the call raises [TypeError] for it before
    [generate_request] is entered. *)
Definition first_clash (params : pydict) : option string :=
  fst <$> find (fun kv => bool_decide (kv.1 ∈ named_keywords)) params.

(** The outcome of a call: the events in order, the caller's [params]
    object as the call leaves it (the item assignment mutates it, the later
    rebinding of the local name does not), and the returned mapping or the
    exception. *)
Record call : Type := mkCall {
  events : list event;
  caller_params : pydict;
  returned : result pydict
}.

Definition process_params `{ToolHelper} `{StructureHandler}
    (params : pydict) (llm_provider : string)
    (tools : option (list pyval)) (response_model : option string) : call :=
  let '(evs1, params1, failed) :=
    if tools_truthy tools then
      let '(evs, r) := format_tools (default [] tools) llm_provider in
      let evs := LogInfo "Tools are available in the request." :: evs in
      match r with
      | Ok ts => (evs, dict_set params "tools" (PList ts), None)
      | Raise e => (evs, params, Some e)
      end
    else ([], params, None) in
  match failed with
  | Some e => mkCall evs1 params1 (Raise e)
  | None =>
    match response_model with
    | Some rm =>
      let log :=
        LogInfo "A response model has been passed to structure the response of the LLM." in
      match first_clash params1 with
      | Some kw =>
        mkCall (evs1 ++ [log]) params1 (Raise (TypeError_multiple_values kw))
      | None =>
        mkCall (evs1 ++ [log; CallGenerateRequest rm llm_provider]) params1
               (generate_request rm llm_provider params1)
      end
    | None => mkCall evs1 params1 (Ok params1)
    end
  end.

(** The [format_tool] calls among the events, and whether
    [generate_request] was called. *)
Definition format_calls (evs : list event) : list (pyval * string) :=
  omap (fun ev => match ev with
                  | CallFormatTool t p => Some (t, p)
                  | _ => None
                  end) evs.

Definition generate_request_calls (evs : list event) : list (string * string) :=
  omap (fun ev => match ev with
                  | CallGenerateRequest rm p => Some (rm, p)
                  | _ => None
                  end) evs.

(** A formatter and a structured-output helper to run the function with. *)
Definition sample_tool_helper : ToolHelper := {|
  format_tool tool tool_format :=
    Ok (PDict [("type", PStr "function"); ("function", tool)])
|}.

(** A tool descriptor and what [sample_tool_helper] makes of it. *)
Definition sample_tool (name : string) : pyval := PDict [("name", PStr name)].

Definition sample_formatted (name : string) : pyval :=
  PDict [("type", PStr "function"); ("function", sample_tool name)].

Definition sample_structure_handler : StructureHandler := {|
  generate_request response_model llm_provider params :=
    Ok (dict_set params "response_format" (PStr response_model))
|}.

End Params.

(** ** The pydantic machinery [floki/types/llm.py] relies on *)

Module Field.

(** What a mapping passed to a record constructor holds for one field: no
    such key, or a value, which may be [None].  Values are taken at the
    field's Python type; floats are the finite ones, as exact rationals. *)
Inductive raw (T : Type) : Type :=
| Missing
| Present (v : option T).
Arguments Missing {T}.
Arguments Present {T} v.

Definition is_missing {T} (r : raw T) : bool :=
  match r with Missing => true | Present _ => false end.

(** The outcome of a [mode="before"] field validator. *)
Inductive before (T : Type) : Type :=
| UseDefault
| Pass (v : T).
Arguments UseDefault {T}.
Arguments Pass {T} v.

(** [none_to_default], the same in every class:
    [if v is None: raise PydanticUseDefault()], else [return v]. *)
Definition none_to_default {T} (v : option T) : before T :=
  match v with
  | None => UseDefault
  | Some x => Pass x
  end.

(** A field of a class that installs [none_to_default] on ["*"].  [default]
    is the declared default ([None] here for a field declared without one).
    A key that is missing takes the default, unvalidated; a value goes
    through [none_to_default] first and then through the validation of the
    annotation. *)
Definition field {T S} (name : string) (default : option S)
    (validate : T -> result S) (r : raw T) : result S :=
  match r with
  | Missing =>
    match default with
    | Some d => Ok d
    | None => Raise (ValidationError [(name, "missing")])
    end
  | Present v =>
    match none_to_default v with
    | UseDefault =>
      match default with
      | Some d => Ok d
      | None => Raise (SchemaError_use_default name)
      end
    | Pass x => validate x
    end
  end.

(** Fields are validated in declaration order; validation errors of several
    fields are collected into one [ValidationError], any other exception
    leaves at once. *)
Definition ap {A B} (rf : result (A -> B)) (ra : result A) : result B :=
  match rf, ra with
  | Ok f, Ok a => Ok (f a)
  | Ok _, Raise e => Raise e
  | Raise (ValidationError l1), Raise (ValidationError l2) =>
    Raise (ValidationError (l1 ++ l2))
  | Raise (ValidationError _), Raise e => Raise e
  | Raise e, _ => Raise e
  end.

Notation "rf <*> ra" := (ap rf ra) (at level 61, left associativity).

Definition invalid {S} (name constraint : string) : result S :=
  Raise (ValidationError [(name, constraint)]).

(** [Optional[T]]: a value that is not [None] is validated as [T]. *)
Definition optional {T S} (validate : T -> result S) (x : T) : result (option S) :=
  match validate x with
  | Ok v => Ok (Some v)
  | Raise e => Raise e
  end.

Definition any {T} (x : T) : result T := Ok x.

(** [str] where the mapping may also hold a [bool]. *)
Definition str_only (name : string) (x : string + bool) : result string :=
  match x with
  | inl s => Ok s
  | inr _ => invalid name "string_type"
  end.

(** [Literal[...]]. *)
Definition literal (name : string) (allowed : list string) (s : string)
  : result string :=
  if bool_decide (s ∈ allowed) then Ok s else invalid name "literal_error".

(** [int] with [ge=] and [le=]. *)
Definition int_range (name : string) (ge le : option Z) (z : Z) : result Z :=
  if from_option (fun hi => Z.ltb hi z) false le then invalid name "less_than_equal"
  else if from_option (fun lo => Z.ltb z lo) false ge then invalid name "greater_than_equal"
  else Ok z.

(** [float] with [ge=] and [le=]. *)
Definition float_range (name : string) (ge le : Q) (q : Q) : result Q :=
  if negb (Qle_bool q le) then invalid name "less_than_equal"
  else if negb (Qle_bool ge q) then invalid name "greater_than_equal"
  else Ok q.

(** [List[...]] with [max_length=]. *)
Definition max_length {T} (name : string) (n : nat) (l : list T)
  : result (list T) :=
  if Nat.ltb n (length l) then invalid name "too_long" else Ok l.

(** [bool] in lax mode, where the mapping may hold an [int]: 0 and 1 are
    accepted. *)
Definition lax_bool (name : string) (x : Z + bool) : result bool :=
  match x with
  | inr b => Ok b
  | inl 0%Z => Ok false
  | inl 1%Z => Ok true
  | inl _ => invalid name "bool_parsing"
  end.

(** [int] in lax mode, where the mapping may hold a [bool]. *)
Definition lax_int (x : Z + bool) : Z :=
  match x with
  | inl z => z
  | inr b => if b then 1%Z else 0%Z
  end.

End Field.
Export Field.

(** ** Client and model configurations *)

(** A configuration mapping, with every key one of the three configuration
    classes reads; a constructor ignores the keys its class does not
    declare. *)
Record raw_config : Type := mkRawConfig {
  r_type : raw string;
  r_name : raw string;
  r_base_url : raw string;
  r_api_key : raw (string + bool);
  r_organization : raw string;
  r_project : raw string;
  r_azure_ad_token : raw string;
  r_api_version : raw string;
  r_azure_endpoint : raw string;
  r_azure_deployment : raw string;
  r_azure_client_id : raw string;
  r_model : raw string;
  r_token : raw (string + bool);
  r_timeout : raw Q;
  r_headers : raw (gmap string string);
  r_cookies : raw (gmap string string);
  r_proxies : raw pyval
}.

(** The mapping without any key. *)
Definition empty_config : raw_config :=
  mkRawConfig Missing Missing Missing Missing Missing Missing Missing Missing
              Missing Missing Missing Missing Missing Missing Missing Missing
              Missing.

(** [bool(d)] of a configuration mapping: whether it has a key. *)
Definition config_truthy (d : raw_config) : bool :=
  negb (is_missing (r_type d) && is_missing (r_name d) && is_missing (r_base_url d)
        && is_missing (r_api_key d) && is_missing (r_organization d)
        && is_missing (r_project d) && is_missing (r_azure_ad_token d)
        && is_missing (r_api_version d) && is_missing (r_azure_endpoint d)
        && is_missing (r_azure_deployment d) && is_missing (r_azure_client_id d)
        && is_missing (r_model d) && is_missing (r_token d)
        && is_missing (r_timeout d) && is_missing (r_headers d)
        && is_missing (r_cookies d) && is_missing (r_proxies d)).

(** [model_dump()] of a stored value. *)
Definition dump_opt {T U} (f : T -> U) (v : option T) : raw U :=
  Present (f <$> v).

Module OpenAIClientConfig.

Record t : Type := mk {
  base_url : option string;
  api_key : option string;
  organization : option string;
  project : option string
}.

Definition default_base_url : string := "https://api.openai.com/v1".

(** [base_url] is declared with [validate_default=True]; its default is a
    string, which [none_to_default] passes and [str] accepts unchanged. *)
Definition make (d : raw_config) : result t :=
  Ok mk
  <*> field "base_url" (Some (Some default_base_url)) (optional any) (r_base_url d)
  <*> field "api_key" (Some None) (optional (str_only "api_key")) (r_api_key d)
  <*> field "organization" (Some None) (optional any) (r_organization d)
  <*> field "project" (Some None) (optional any) (r_project d).

Definition dump (c : t) : raw_config :=
  mkRawConfig Missing Missing
    (dump_opt id (base_url c)) (dump_opt inl (api_key c))
    (dump_opt id (organization c)) (dump_opt id (project c))
    Missing Missing Missing Missing Missing Missing Missing Missing Missing
    Missing Missing.

End OpenAIClientConfig.

Module OpenAIModelConfig.

Record t : Type := mk {
  base_url : option string;
  api_key : option string;
  organization : option string;
  project : option string;
  type : string;
  name : string
}.

Definition make (d : raw_config) : result t :=
  Ok mk
  <*> field "base_url" (Some (Some OpenAIClientConfig.default_base_url))
        (optional any) (r_base_url d)
  <*> field "api_key" (Some None) (optional (str_only "api_key")) (r_api_key d)
  <*> field "organization" (Some None) (optional any) (r_organization d)
  <*> field "project" (Some None) (optional any) (r_project d)
  <*> field "type" (Some "openai") (literal "type" ["openai"]) (r_type d)
  <*> field "name" (Some "gpt-4o") any (r_name d).

Definition dump (c : t) : raw_config :=
  mkRawConfig (Present (Some (type c))) (Present (Some (name c)))
    (dump_opt id (base_url c)) (dump_opt inl (api_key c))
    (dump_opt id (organization c)) (dump_opt id (project c))
    Missing Missing Missing Missing Missing Missing Missing Missing Missing
    Missing Missing.

End OpenAIModelConfig.

Module AzureOpenAIClientConfig.

Record t : Type := mk {
  api_key : option string;
  azure_ad_token : option string;
  organization : option string;
  project : option string;
  api_version : option string;
  azure_endpoint : option string;
  azure_deployment : option string;
  azure_client_id : option string
}.

(** [azure_endpoint] is declared without a default. *)
Definition make (d : raw_config) : result t :=
  Ok mk
  <*> field "api_key" (Some None) (optional (str_only "api_key")) (r_api_key d)
  <*> field "azure_ad_token" (Some None) (optional any) (r_azure_ad_token d)
  <*> field "organization" (Some None) (optional any) (r_organization d)
  <*> field "project" (Some None) (optional any) (r_project d)
  <*> field "api_version" (Some (Some "2024-07-01-preview")) (optional any)
        (r_api_version d)
  <*> field "azure_endpoint" None (optional any) (r_azure_endpoint d)
  <*> field "azure_deployment" (Some (Some "gpt-4o")) (optional any)
        (r_azure_deployment d)
  <*> field "azure_client_id" (Some None) (optional any) (r_azure_client_id d).

Definition dump (c : t) : raw_config :=
  mkRawConfig Missing Missing Missing
    (dump_opt inl (api_key c)) (dump_opt id (organization c))
    (dump_opt id (project c)) (dump_opt id (azure_ad_token c))
    (dump_opt id (api_version c)) (dump_opt id (azure_endpoint c))
    (dump_opt id (azure_deployment c)) (dump_opt id (azure_client_id c))
    Missing Missing Missing Missing Missing Missing.

End AzureOpenAIClientConfig.

Module AzureOpenAIModelConfig.

Record t : Type := mk {
  api_key : option string;
  azure_ad_token : option string;
  organization : option string;
  project : option string;
  api_version : option string;
  azure_endpoint : option string;
  azure_deployment : option string;
  azure_client_id : option string;
  type : string
}.

Definition make (d : raw_config) : result t :=
  Ok mk
  <*> field "api_key" (Some None) (optional (str_only "api_key")) (r_api_key d)
  <*> field "azure_ad_token" (Some None) (optional any) (r_azure_ad_token d)
  <*> field "organization" (Some None) (optional any) (r_organization d)
  <*> field "project" (Some None) (optional any) (r_project d)
  <*> field "api_version" (Some (Some "2024-07-01-preview")) (optional any)
        (r_api_version d)
  <*> field "azure_endpoint" None (optional any) (r_azure_endpoint d)
  <*> field "azure_deployment" (Some (Some "gpt-4o")) (optional any)
        (r_azure_deployment d)
  <*> field "azure_client_id" (Some None) (optional any) (r_azure_client_id d)
  <*> field "type" (Some "azure_openai") (literal "type" ["azure_openai"]) (r_type d).

Definition dump (c : t) : raw_config :=
  mkRawConfig (Present (Some (type c))) Missing Missing
    (dump_opt inl (api_key c)) (dump_opt id (organization c))
    (dump_opt id (project c)) (dump_opt id (azure_ad_token c))
    (dump_opt id (api_version c)) (dump_opt id (azure_endpoint c))
    (dump_opt id (azure_deployment c)) (dump_opt id (azure_client_id c))
    Missing Missing Missing Missing Missing Missing.

End AzureOpenAIModelConfig.

(** [Optional[Any]]: the value [None] is [None] however the mapping holds
    it. *)
Definition raw_any (r : raw pyval) : raw pyval :=
  match r with
  | Present (Some PNone) => Present None
  | _ => r
  end.

Module HFInferenceClientConfig.

Record t : Type := mk {
  model : option string;
  api_key : option (string + bool);
  token : option (string + bool);
  base_url : option string;
  timeout : option Q;
  headers : option (gmap string string);
  cookies : option (gmap string string);
  proxies : option pyval
}.

Definition make (d : raw_config) : result t :=
  Ok mk
  <*> field "model" (Some None) (optional any) (r_model d)
  <*> field "api_key" (Some None) (optional any) (r_api_key d)
  <*> field "token" (Some None) (optional any) (r_token d)
  <*> field "base_url" (Some None) (optional any) (r_base_url d)
  <*> field "timeout" (Some None) (optional any) (r_timeout d)
  <*> field "headers" (Some None) (optional any) (r_headers d)
  <*> field "cookies" (Some None) (optional any) (r_cookies d)
  <*> field "proxies" (Some None) (optional any) (raw_any (r_proxies d)).

Definition dump (c : t) : raw_config :=
  mkRawConfig Missing Missing
    (dump_opt id (base_url c)) (dump_opt id (api_key c))
    Missing Missing Missing Missing Missing Missing Missing
    (dump_opt id (model c)) (dump_opt id (token c)) (dump_opt id (timeout c))
    (dump_opt id (headers c)) (dump_opt id (cookies c))
    (dump_opt dump_any (proxies c)).

(** No model instance is held in [proxies]. *)
Definition no_models (c : t) : bool := from_option no_model true (proxies c).

End HFInferenceClientConfig.

Module HFHubModelConfig.

Record t : Type := mk {
  model : option string;
  api_key : option (string + bool);
  token : option (string + bool);
  base_url : option string;
  timeout : option Q;
  headers : option (gmap string string);
  cookies : option (gmap string string);
  proxies : option pyval;
  type : string
}.

Definition make (d : raw_config) : result t :=
  Ok mk
  <*> field "model" (Some None) (optional any) (r_model d)
  <*> field "api_key" (Some None) (optional any) (r_api_key d)
  <*> field "token" (Some None) (optional any) (r_token d)
  <*> field "base_url" (Some None) (optional any) (r_base_url d)
  <*> field "timeout" (Some None) (optional any) (r_timeout d)
  <*> field "headers" (Some None) (optional any) (r_headers d)
  <*> field "cookies" (Some None) (optional any) (r_cookies d)
  <*> field "proxies" (Some None) (optional any) (raw_any (r_proxies d))
  <*> field "type" (Some "huggingface") (literal "type" ["huggingface"]) (r_type d).

Definition dump (c : t) : raw_config :=
  mkRawConfig (Present (Some (type c))) Missing
    (dump_opt id (base_url c)) (dump_opt id (api_key c))
    Missing Missing Missing Missing Missing Missing Missing
    (dump_opt id (model c)) (dump_opt id (token c)) (dump_opt id (timeout c))
    (dump_opt id (headers c)) (dump_opt id (cookies c))
    (dump_opt dump_any (proxies c)).

(** No model instance is held in [proxies]. *)
Definition no_models (c : t) : bool := from_option no_model true (proxies c).

End HFHubModelConfig.

(** ** Request parameters *)

(** A parameters mapping, with every key the three parameter classes read.
    [logprobs] is an [int] for the text endpoint and a [bool] for the chat
    endpoint, so the mapping may hold either. *)
Record raw_params : Type := mkRawParams {
  r_p_model : raw string;
  r_temperature : raw Q;
  r_max_tokens : raw Z;
  r_top_p : raw Q;
  r_frequency_penalty : raw Q;
  r_presence_penalty : raw Q;
  r_stop : raw (string + list string);
  r_stream : raw bool;
  r_best_of : raw Z;
  r_echo : raw bool;
  r_logprobs : raw (Z + bool);
  r_suffix : raw string;
  r_logit_bias : raw (gmap (string + Z) Q);
  r_top_logprobs : raw Z;
  r_n : raw Z;
  r_response_format : raw (gmap string string);
  r_tools : raw (list pydict);
  r_tool_choice : raw (string + pydict);
  r_function_call : raw (string + pydict);
  r_seed : raw Z;
  r_user : raw string
}.

Definition empty_params : raw_params :=
  mkRawParams Missing Missing Missing Missing Missing Missing Missing Missing
              Missing Missing Missing Missing Missing Missing Missing Missing
              Missing Missing Missing Missing Missing.

(** [bool(d)] of a parameters mapping. *)
Definition params_truthy (d : raw_params) : bool :=
  negb (is_missing (r_p_model d) && is_missing (r_temperature d)
        && is_missing (r_max_tokens d) && is_missing (r_top_p d)
        && is_missing (r_frequency_penalty d) && is_missing (r_presence_penalty d)
        && is_missing (r_stop d) && is_missing (r_stream d)
        && is_missing (r_best_of d) && is_missing (r_echo d)
        && is_missing (r_logprobs d) && is_missing (r_suffix d)
        && is_missing (r_logit_bias d) && is_missing (r_top_logprobs d)
        && is_missing (r_n d) && is_missing (r_response_format d)
        && is_missing (r_tools d) && is_missing (r_tool_choice d)
        && is_missing (r_function_call d) && is_missing (r_seed d)
        && is_missing (r_user d)).

Module OpenAIParamsBase.

Record t : Type := mk {
  model : option string;
  temperature : option Q;
  max_tokens : option Z;
  top_p : option Q;
  frequency_penalty : option Q;
  presence_penalty : option Q;
  stop : option (string + list string);
  stream : option bool
}.

Definition make (d : raw_params) : result t :=
  Ok mk
  <*> field "model" (Some (Some "gpt-4o")) (optional any) (r_p_model d)
  <*> field "temperature" (Some (Some 0%Q))
        (optional (float_range "temperature" 0 2)) (r_temperature d)
  <*> field "max_tokens" (Some None) (optional any) (r_max_tokens d)
  <*> field "top_p" (Some (Some 1%Q)) (optional (float_range "top_p" 0 1)) (r_top_p d)
  <*> field "frequency_penalty" (Some (Some 0%Q))
        (optional (float_range "frequency_penalty" (-2) 2)) (r_frequency_penalty d)
  <*> field "presence_penalty" (Some (Some 0%Q))
        (optional (float_range "presence_penalty" (-2) 2)) (r_presence_penalty d)
  <*> field "stop" (Some None) (optional any) (r_stop d)
  <*> field "stream" (Some (Some false)) (optional any) (r_stream d).

Definition dump (p : t) : raw_params :=
  mkRawParams (dump_opt id (model p)) (dump_opt id (temperature p))
    (dump_opt id (max_tokens p)) (dump_opt id (top_p p))
    (dump_opt id (frequency_penalty p)) (dump_opt id (presence_penalty p))
    (dump_opt id (stop p)) (dump_opt id (stream p))
    Missing Missing Missing Missing Missing Missing Missing Missing Missing
    Missing Missing Missing Missing.

End OpenAIParamsBase.

Module OpenAITextCompletionParams.

Record t : Type := mk {
  model : option string;
  temperature : option Q;
  max_tokens : option Z;
  top_p : option Q;
  frequency_penalty : option Q;
  presence_penalty : option Q;
  stop : option (string + list string);
  stream : option bool;
  best_of : option Z;
  echo : option bool;
  logprobs : option Z;
  suffix : option string
}.

Definition make (d : raw_params) : result t :=
  Ok mk
  <*> field "model" (Some (Some "gpt-4o")) (optional any) (r_p_model d)
  <*> field "temperature" (Some (Some 0%Q))
        (optional (float_range "temperature" 0 2)) (r_temperature d)
  <*> field "max_tokens" (Some None) (optional any) (r_max_tokens d)
  <*> field "top_p" (Some (Some 1%Q)) (optional (float_range "top_p" 0 1)) (r_top_p d)
  <*> field "frequency_penalty" (Some (Some 0%Q))
        (optional (float_range "frequency_penalty" (-2) 2)) (r_frequency_penalty d)
  <*> field "presence_penalty" (Some (Some 0%Q))
        (optional (float_range "presence_penalty" (-2) 2)) (r_presence_penalty d)
  <*> field "stop" (Some None) (optional any) (r_stop d)
  <*> field "stream" (Some (Some false)) (optional any) (r_stream d)
  <*> field "best_of" (Some None) (optional (int_range "best_of" (Some 1%Z) None))
        (r_best_of d)
  <*> field "echo" (Some (Some false)) (optional any) (r_echo d)
  <*> field "logprobs" (Some None)
        (optional (fun x => int_range "logprobs" (Some 0%Z) (Some 5%Z) (lax_int x)))
        (r_logprobs d)
  <*> field "suffix" (Some None) (optional any) (r_suffix d).

Definition dump (p : t) : raw_params :=
  mkRawParams (dump_opt id (model p)) (dump_opt id (temperature p))
    (dump_opt id (max_tokens p)) (dump_opt id (top_p p))
    (dump_opt id (frequency_penalty p)) (dump_opt id (presence_penalty p))
    (dump_opt id (stop p)) (dump_opt id (stream p))
    (dump_opt id (best_of p)) (dump_opt id (echo p))
    (dump_opt inl (logprobs p)) (dump_opt id (suffix p))
    Missing Missing Missing Missing Missing Missing Missing Missing Missing.

Definition set_model (p : t) (m : option string) : t :=
  mk m (temperature p) (max_tokens p) (top_p p) (frequency_penalty p)
     (presence_penalty p) (stop p) (stream p) (best_of p) (echo p)
     (logprobs p) (suffix p).

End OpenAITextCompletionParams.

Module OpenAIChatCompletionParams.

Record t : Type := mk {
  model : option string;
  temperature : option Q;
  max_tokens : option Z;
  top_p : option Q;
  frequency_penalty : option Q;
  presence_penalty : option Q;
  stop : option (string + list string);
  stream : option bool;
  logit_bias : option (gmap (string + Z) Q);
  logprobs : option bool;
  top_logprobs : option Z;
  n : option Z;
  response_format : option (gmap string string);
  tools : option (list pydict);
  tool_choice : option (string + pydict);
  function_call : option (string + pydict);
  seed : option Z;
  user : option string
}.

(** [Dict[Literal["type"], Literal["text", "json_object"]]]. *)
Definition response_format_type (m : gmap string string)
  : result (gmap string string) :=
  if bool_decide (map_Forall (fun k v => k = "type" /\ v ∈ ["text"; "json_object"]) m)
  then Ok m else invalid "response_format" "literal_error".

Definition make (d : raw_params) : result t :=
  Ok mk
  <*> field "model" (Some (Some "gpt-4o")) (optional any) (r_p_model d)
  <*> field "temperature" (Some (Some 0%Q))
        (optional (float_range "temperature" 0 2)) (r_temperature d)
  <*> field "max_tokens" (Some None) (optional any) (r_max_tokens d)
  <*> field "top_p" (Some (Some 1%Q)) (optional (float_range "top_p" 0 1)) (r_top_p d)
  <*> field "frequency_penalty" (Some (Some 0%Q))
        (optional (float_range "frequency_penalty" (-2) 2)) (r_frequency_penalty d)
  <*> field "presence_penalty" (Some (Some 0%Q))
        (optional (float_range "presence_penalty" (-2) 2)) (r_presence_penalty d)
  <*> field "stop" (Some None) (optional any) (r_stop d)
  <*> field "stream" (Some (Some false)) (optional any) (r_stream d)
  <*> field "logit_bias" (Some None) (optional any) (r_logit_bias d)
  <*> field "logprobs" (Some (Some false)) (optional (lax_bool "logprobs"))
        (r_logprobs d)
  <*> field "top_logprobs" (Some None)
        (optional (int_range "top_logprobs" (Some 0%Z) (Some 20%Z))) (r_top_logprobs d)
  <*> field "n" (Some (Some 1%Z)) (optional (int_range "n" (Some 1%Z) (Some 128%Z)))
        (r_n d)
  <*> field "response_format" (Some None) (optional response_format_type)
        (r_response_format d)
  <*> field "tools" (Some None) (optional (max_length "tools" 64)) (r_tools d)
  <*> field "tool_choice" (Some None) (optional any) (r_tool_choice d)
  <*> field "function_call" (Some None) (optional any) (r_function_call d)
  <*> field "seed" (Some None) (optional any) (r_seed d)
  <*> field "user" (Some None) (optional any) (r_user d).

Definition dump (p : t) : raw_params :=
  mkRawParams (dump_opt id (model p)) (dump_opt id (temperature p))
    (dump_opt id (max_tokens p)) (dump_opt id (top_p p))
    (dump_opt id (frequency_penalty p)) (dump_opt id (presence_penalty p))
    (dump_opt id (stop p)) (dump_opt id (stream p))
    Missing Missing (dump_opt inr (logprobs p)) Missing
    (dump_opt id (logit_bias p)) (dump_opt id (top_logprobs p))
    (dump_opt id (n p)) (dump_opt id (response_format p))
    (dump_opt (map dump_dict) (tools p)) (dump_opt (sum_map id dump_dict) (tool_choice p))
    (dump_opt (sum_map id dump_dict) (function_call p))
    (dump_opt id (seed p)) (dump_opt id (user p)).

(** No model instance is held in the values of [tools], [tool_choice] and
    [function_call]. *)
Definition choice_no_model (x : string + pydict) : bool :=
  match x with
  | inl _ => true
  | inr d => dict_no_model d
  end.

Definition no_models (p : t) : bool :=
  from_option (forallb dict_no_model) true (tools p)
  && from_option choice_no_model true (tool_choice p)
  && from_option choice_no_model true (function_call p).

Definition set_model (p : t) (m : option string) : t :=
  mk m (temperature p) (max_tokens p) (top_p p) (frequency_penalty p)
     (presence_penalty p) (stop p) (stream p) (logit_bias p) (logprobs p)
     (top_logprobs p) (n p) (response_format p) (tools p) (tool_choice p)
     (function_call p) (seed p) (user p).

End OpenAIChatCompletionParams.

(** ** [PromptyModelConfig] *)

Module PromptyModelConfig.

(** [Union[OpenAIModelConfig, AzureOpenAIModelConfig, HFHubModelConfig]]. *)
Inductive configuration_t : Type :=
| OpenAI (c : OpenAIModelConfig.t)
| AzureOpenAI (c : AzureOpenAIModelConfig.t)
| HFHub (c : HFHubModelConfig.t).

(** [Union[OpenAITextCompletionParams, OpenAIChatCompletionParams]]. *)
Inductive parameters_t : Type :=
| TextCompletion (p : OpenAITextCompletionParams.t)
| ChatCompletion (p : OpenAIChatCompletionParams.t).

(** What the caller may pass for the two fields: a mapping or an instance
    of one of the classes. *)
Inductive cfg_value : Type :=
| CfgDict (d : raw_config)
| CfgModel (c : configuration_t).

Inductive par_value : Type :=
| ParDict (d : raw_params)
| ParModel (p : parameters_t).

(** The [values] mapping the class is constructed from. *)
Record values : Type := mkValues {
  v_api : raw string;
  v_configuration : raw cfg_value;
  v_parameters : raw par_value;
  v_response : raw string
}.

Record t : Type := mk {
  api : string;
  configuration : configuration_t;
  parameters : parameters_t;
  response : string
}.

(** pydantic's validation of a mapping against a [Union] of classes, which
    is pydantic's own choice among the members; an instance of a member is
    kept as it is. *)
Class PydanticUnion : Type := {
  union_configuration : raw_config -> result configuration_t;
  union_parameters : raw_params -> result parameters_t
}.

(** [values.get(key)]. *)
Definition get {T} (r : raw T) : option T :=
  match r with
  | Missing => None
  | Present v => v
  end.

Definition cfg_truthy (c : option cfg_value) : bool :=
  match c with
  | None => false
  | Some (CfgDict d) => config_truthy d
  | Some (CfgModel _) => true
  end.

Definition par_truthy (p : option par_value) : bool :=
  match p with
  | None => false
  | Some (ParDict d) => params_truthy d
  | Some (ParModel _) => true
  end.

(** Lines 142-148: a configuration mapping becomes the class its ["type"]
    names; any other value, and a mapping with another or no ["type"], is
    left as it is. *)
Definition resolve_configuration (configuration : option cfg_value)
  : result (option cfg_value) :=
  match configuration with
  | Some (CfgDict d) =>
    if bool_decide (get (r_type d) = Some "openai") then
      c ← OpenAIModelConfig.make d; Ok (Some (CfgModel (OpenAI c)))
    else if bool_decide (get (r_type d) = Some "azure_openai") then
      c ← AzureOpenAIModelConfig.make d; Ok (Some (CfgModel (AzureOpenAI c)))
    else if bool_decide (get (r_type d) = Some "huggingface") then
      c ← HFHubModelConfig.make d; Ok (Some (CfgModel (HFHub c)))
    else Ok configuration
  | _ => Ok configuration
  end.

(** Lines 151-155: a parameters mapping becomes
    [OpenAIChatCompletionParams] under an [OpenAIModelConfig] or an
    [AzureOpenAIModelConfig]. *)
Definition resolve_parameters (configuration : option cfg_value)
    (parameters : option par_value) : result (option par_value) :=
  match parameters with
  | Some (ParDict d) =>
    match configuration with
    | Some (CfgModel (OpenAI _)) =>
      p ← OpenAIChatCompletionParams.make d; Ok (Some (ParModel (ChatCompletion p)))
    | Some (CfgModel (AzureOpenAI _)) =>
      p ← OpenAIChatCompletionParams.make d; Ok (Some (ParModel (ChatCompletion p)))
    | _ => Ok parameters
    end
  | _ => Ok parameters
  end.

(** [configuration.name or configuration.azure_deployment], on a
    configuration that is truthy.  Only [OpenAIModelConfig] declares [name],
    and it does not declare [azure_deployment]. *)
Definition name_or_deployment (configuration : cfg_value) : result string :=
  match configuration with
  | CfgModel (OpenAI c) =>
    if bool_decide (OpenAIModelConfig.name c = "")
    then Raise (AttributeError "OpenAIModelConfig" "azure_deployment")
    else Ok (OpenAIModelConfig.name c)
  | CfgModel (AzureOpenAI _) => Raise (AttributeError "AzureOpenAIModelConfig" "name")
  | CfgModel (HFHub _) => Raise (AttributeError "HFHubModelConfig" "name")
  | CfgDict _ => Raise (AttributeError "dict" "name")
  end.

(** [parameters.model = value]. *)
Definition assign_model (parameters : par_value) (value : string)
  : result par_value :=
  match parameters with
  | ParModel (TextCompletion p) =>
    Ok (ParModel (TextCompletion (OpenAITextCompletionParams.set_model p (Some value))))
  | ParModel (ChatCompletion p) =>
    Ok (ParModel (ChatCompletion (OpenAIChatCompletionParams.set_model p (Some value))))
  | ParDict _ => Raise (AttributeError "dict" "model")
  end.

(** The [mode='before'] model validator. *)
Definition sync_model_name (vals : values) : result values :=
  let configuration := get (v_configuration vals) in
  let parameters := get (v_parameters vals) in
  configuration ← resolve_configuration configuration;
  parameters ← resolve_parameters configuration parameters;
  parameters ←
    (if cfg_truthy configuration && par_truthy parameters then
       match configuration, parameters with
       | Some c, Some p =>
         value ← name_or_deployment c;
         p' ← assign_model p value;
         Ok (Some p')
       | _, _ => Ok parameters
       end
     else Ok parameters);
  Ok (mkValues (v_api vals) (Present configuration) (Present parameters)
               (v_response vals)).

Definition validate_configuration `{PydanticUnion} (v : cfg_value)
  : result configuration_t :=
  match v with
  | CfgModel c => Ok c
  | CfgDict d => union_configuration d
  end.

Definition validate_parameters `{PydanticUnion} (v : par_value)
  : result parameters_t :=
  match v with
  | ParModel p => Ok p
  | ParDict d => union_parameters d
  end.

(** Construction: the model validator, then the fields in declaration
    order. *)
Definition make `{PydanticUnion} (vals : values) : result t :=
  vals ← sync_model_name vals;
  Ok mk
  <*> field "api" (Some "chat") (literal "api" ["chat"; "completion"]) (v_api vals)
  <*> field "configuration" None validate_configuration (v_configuration vals)
  <*> field "parameters" None validate_parameters (v_parameters vals)
  <*> field "response" (Some "first") any (v_response vals).

Definition dump_configuration (c : configuration_t) : raw_config :=
  match c with
  | OpenAI c => OpenAIModelConfig.dump c
  | AzureOpenAI c => AzureOpenAIModelConfig.dump c
  | HFHub c => HFHubModelConfig.dump c
  end.

Definition dump_parameters (p : parameters_t) : raw_params :=
  match p with
  | TextCompletion p => OpenAITextCompletionParams.dump p
  | ChatCompletion p => OpenAIChatCompletionParams.dump p
  end.

Definition configuration_no_models (c : configuration_t) : bool :=
  match c with
  | HFHub c => HFHubModelConfig.no_models c
  | _ => true
  end.

Definition parameters_no_models (p : parameters_t) : bool :=
  match p with
  | TextCompletion _ => true
  | ChatCompletion p => OpenAIChatCompletionParams.no_models p
  end.

(** [model_dump()]: nested models are dumped to mappings. *)
Definition dump (r : t) : values :=
  mkValues (Present (Some (api r)))
           (Present (Some (CfgDict (dump_configuration (configuration r)))))
           (Present (Some (ParDict (dump_parameters (parameters r)))))
           (Present (Some (response r))).

(** pydantic's [left_to_right] union mode, the first member that validates:
    one instance of [PydanticUnion] to evaluate with.  pydantic's default
    mode ([smart]) may choose another member; no statement below depends on
    the choice. *)
Definition or_else {A} (r1 r2 : result A) : result A :=
  match r1 with
  | Ok a => Ok a
  | Raise _ => r2
  end.

Definition left_to_right : PydanticUnion := {|
  union_configuration d :=
    or_else (OpenAI <$> OpenAIModelConfig.make d)
      (or_else (AzureOpenAI <$> AzureOpenAIModelConfig.make d)
               (HFHub <$> HFHubModelConfig.make d));
  union_parameters d :=
    or_else (TextCompletion <$> OpenAITextCompletionParams.make d)
            (ChatCompletion <$> OpenAIChatCompletionParams.make d)
|}.

End PromptyModelConfig.

(** ** Predicates and inputs the properties are stated with *)

Import Normalize Params PromptyModelConfig.

(** A result that is a value or a [ValidationError]: what every field of a
    class whose fields all have defaults produces. *)
Definition soft {A} (r : result A) : Prop :=
  match r with
  | Ok _ | Raise (ValidationError _) => True
  | Raise _ => False
  end.

(** The (field, constraint) pairs of a [ValidationError]. *)
Definition errors_of {A} (r : result A) : list (string * string) :=
  match r with
  | Raise (ValidationError l) => l
  | _ => []
  end.

(** A stored [Optional] number that is [None] or within [lo, hi]. *)
Definition in_range_Q (lo hi : Q) (v : option Q) : Prop :=
  match v with
  | Some q => (lo <= q)%Q /\ (q <= hi)%Q
  | None => True
  end.

Definition in_range_Z (lo hi : Z) (v : option Z) : Prop :=
  match v with
  | Some z => (lo <= z <= hi)%Z
  | None => True
  end.

(** A mapping entry that holds a value outside [lo, hi]. *)
Definition outside_Q (lo hi : Q) (r : raw Q) : Prop :=
  exists q, r = Present (Some q) /\ ~ ((lo <= q)%Q /\ (q <= hi)%Q).

Definition outside_Z (lo hi : Z) (r : raw Z) : Prop :=
  exists z, r = Present (Some z) /\ ~ (lo <= z <= hi)%Z.

(** The declared bounds of the parameter classes. *)
Definition base_bounds (temperature top_p frequency_penalty presence_penalty : option Q)
  : Prop :=
  in_range_Q 0 2 temperature /\ in_range_Q 0 1 top_p
  /\ in_range_Q (-2) 2 frequency_penalty /\ in_range_Q (-2) 2 presence_penalty.

Definition chat_bounds (p : OpenAIChatCompletionParams.t) : Prop :=
  base_bounds (OpenAIChatCompletionParams.temperature p)
              (OpenAIChatCompletionParams.top_p p)
              (OpenAIChatCompletionParams.frequency_penalty p)
              (OpenAIChatCompletionParams.presence_penalty p)
  /\ in_range_Z 1 128 (OpenAIChatCompletionParams.n p)
  /\ in_range_Z 0 20 (OpenAIChatCompletionParams.top_logprobs p).

Definition text_bounds (p : OpenAITextCompletionParams.t) : Prop :=
  base_bounds (OpenAITextCompletionParams.temperature p)
              (OpenAITextCompletionParams.top_p p)
              (OpenAITextCompletionParams.frequency_penalty p)
              (OpenAITextCompletionParams.presence_penalty p).

Definition params_base_bounds (p : OpenAIParamsBase.t) : Prop :=
  base_bounds (OpenAIParamsBase.temperature p) (OpenAIParamsBase.top_p p)
              (OpenAIParamsBase.frequency_penalty p)
              (OpenAIParamsBase.presence_penalty p).

(** A mapping that gives some bounded field a value outside its bound. *)
Definition base_violation (d : raw_params) : Prop :=
  outside_Q 0 2 (r_temperature d) \/ outside_Q 0 1 (r_top_p d)
  \/ outside_Q (-2) 2 (r_frequency_penalty d)
  \/ outside_Q (-2) 2 (r_presence_penalty d).

Definition chat_violation (d : raw_params) : Prop :=
  base_violation d \/ outside_Z 1 128 (r_n d) \/ outside_Z 0 20 (r_top_logprobs d).

(** The mapping [{"n": z}]. *)
Definition params_with_n (z : Z) : raw_params :=
  mkRawParams Missing Missing Missing Missing Missing Missing Missing Missing
              Missing Missing Missing Missing Missing Missing (Present (Some z))
              Missing Missing Missing Missing Missing Missing.

(** The mapping without its ["tools"] key, and the mapping [{"tools": ts}]. *)
Definition without_tools (d : raw_params) : raw_params :=
  mkRawParams (r_p_model d) (r_temperature d) (r_max_tokens d) (r_top_p d)
    (r_frequency_penalty d) (r_presence_penalty d) (r_stop d) (r_stream d)
    (r_best_of d) (r_echo d) (r_logprobs d) (r_suffix d) (r_logit_bias d)
    (r_top_logprobs d) (r_n d) (r_response_format d) Missing (r_tool_choice d)
    (r_function_call d) (r_seed d) (r_user d).

Definition params_with_tools (ts : list pydict) : raw_params :=
  mkRawParams Missing Missing Missing Missing Missing Missing Missing Missing
              Missing Missing Missing Missing Missing Missing Missing Missing
              (Present (Some ts)) Missing Missing Missing Missing.

Definition set_tools (p : OpenAIChatCompletionParams.t) (ts : option (list pydict))
  : OpenAIChatCompletionParams.t :=
  let 'OpenAIChatCompletionParams.mk a1 a2 a3 a4 a5 a6 a7 a8 a9 a10 a11 a12 a13 _
         a15 a16 a17 a18 := p in
  OpenAIChatCompletionParams.mk a1 a2 a3 a4 a5 a6 a7 a8 a9 a10 a11 a12 a13 ts
    a15 a16 a17 a18.

(** A field value [None] turned into an absent key. *)
Definition none_as_missing {T} (r : raw T) : raw T :=
  match r with
  | Present None => Missing
  | _ => r
  end.

(** The same on every key of a configuration mapping whose field has a
    declared default in the classes that read it ([azure_endpoint] has
    none), and on every key of a parameters mapping. *)
Definition config_none_as_missing (d : raw_config) : raw_config :=
  mkRawConfig (none_as_missing (r_type d)) (none_as_missing (r_name d))
    (none_as_missing (r_base_url d)) (none_as_missing (r_api_key d))
    (none_as_missing (r_organization d)) (none_as_missing (r_project d))
    (none_as_missing (r_azure_ad_token d)) (none_as_missing (r_api_version d))
    (r_azure_endpoint d) (none_as_missing (r_azure_deployment d))
    (none_as_missing (r_azure_client_id d)) (none_as_missing (r_model d))
    (none_as_missing (r_token d)) (none_as_missing (r_timeout d))
    (none_as_missing (r_headers d)) (none_as_missing (r_cookies d))
    (none_as_missing (r_proxies d)).

Definition params_none_as_missing (d : raw_params) : raw_params :=
  mkRawParams (none_as_missing (r_p_model d)) (none_as_missing (r_temperature d))
    (none_as_missing (r_max_tokens d)) (none_as_missing (r_top_p d))
    (none_as_missing (r_frequency_penalty d)) (none_as_missing (r_presence_penalty d))
    (none_as_missing (r_stop d)) (none_as_missing (r_stream d))
    (none_as_missing (r_best_of d)) (none_as_missing (r_echo d))
    (none_as_missing (r_logprobs d)) (none_as_missing (r_suffix d))
    (none_as_missing (r_logit_bias d)) (none_as_missing (r_top_logprobs d))
    (none_as_missing (r_n d)) (none_as_missing (r_response_format d))
    (none_as_missing (r_tools d)) (none_as_missing (r_tool_choice d))
    (none_as_missing (r_function_call d)) (none_as_missing (r_seed d))
    (none_as_missing (r_user d)).

(** The same on the two keys of a [PromptyModelConfig] mapping whose fields
    have a default. *)
Definition values_none_as_missing (vals : PromptyModelConfig.values)
  : PromptyModelConfig.values :=
  PromptyModelConfig.mkValues
    (none_as_missing (PromptyModelConfig.v_api vals))
    (PromptyModelConfig.v_configuration vals)
    (PromptyModelConfig.v_parameters vals)
    (none_as_missing (PromptyModelConfig.v_response vals)).

(** The mapping [{"type": "openai"}], and the same with ["base_url": None]. *)
Definition only_type_openai : raw_config :=
  mkRawConfig (Present (Some "openai")) Missing Missing Missing Missing Missing
              Missing Missing Missing Missing Missing Missing Missing Missing
              Missing Missing Missing.

Definition type_openai_base_url_None : raw_config :=
  mkRawConfig (Present (Some "openai")) Missing (Present None) Missing Missing
              Missing Missing Missing Missing Missing Missing Missing Missing
              Missing Missing Missing Missing.

(** The mapping [{"type": "azure_openai", "azure_endpoint": ...,
    "azure_deployment": "gpt-4o-mini"}]. *)
Definition azure_mapping : raw_config :=
  mkRawConfig (Present (Some "azure_openai")) Missing Missing Missing Missing
              Missing Missing Missing
              (Present (Some "https://example.openai.azure.com"))
              (Present (Some "gpt-4o-mini")) Missing Missing Missing Missing
              Missing Missing Missing.

(** The mapping [{"type": "openai", "name": "gpt-4o-mini"}]. *)
Definition openai_mapping : raw_config :=
  mkRawConfig (Present (Some "openai")) (Present (Some "gpt-4o-mini")) Missing
              Missing Missing Missing Missing Missing Missing Missing Missing
              Missing Missing Missing Missing Missing Missing.

(** [PromptyModelConfig(configuration=c, parameters={})]. *)
Definition values_of (c : raw_config) : values :=
  mkValues Missing (Present (Some (CfgDict c))) (Present (Some (ParDict empty_params)))
           Missing.

Definition model_of (p : parameters_t) : option string :=
  match p with
  | TextCompletion p => OpenAITextCompletionParams.model p
  | ChatCompletion p => OpenAIChatCompletionParams.model p
  end.

(** The two configuration classes under which [sync_model_name] coerces a
    parameters mapping. *)
Definition openai_or_azure (c : configuration_t) : bool :=
  match c with
  | OpenAI _ | AzureOpenAI _ => true
  | HFHub _ => false
  end.

Definition is_text (p : option par_value) : bool :=
  match p with
  | Some (ParModel (TextCompletion _)) => true
  | _ => false
  end.

(** A validator accepts what it stored, dumped by [f], and stores it again. *)
Definition dumps_back {T S} (validate : T -> result S) (f : S -> T) : Prop :=
  forall x y, validate x = Ok y -> validate (f y) = Ok y.

(** The mapping with its ["model"] key set. *)
Definition with_model (d : raw_params) (m : string) : raw_params :=
  mkRawParams (Present (Some m)) (r_temperature d) (r_max_tokens d) (r_top_p d)
    (r_frequency_penalty d) (r_presence_penalty d) (r_stop d) (r_stream d)
    (r_best_of d) (r_echo d) (r_logprobs d) (r_suffix d) (r_logit_bias d)
    (r_top_logprobs d) (r_n d) (r_response_format d) (r_tools d) (r_tool_choice d)
    (r_function_call d) (r_seed d) (r_user d).

(** [PromptyModelConfig(api="completion", configuration=OpenAIModelConfig(),
    parameters=OpenAITextCompletionParams())]. *)
Definition default_openai : OpenAIModelConfig.t :=
  OpenAIModelConfig.mk (Some "https://api.openai.com/v1") None None None
                       "openai" "gpt-4o".

Definition default_text : OpenAITextCompletionParams.t :=
  OpenAITextCompletionParams.mk (Some "gpt-4o") (Some 0%Q) None (Some 1%Q)
    (Some 0%Q) (Some 0%Q) None (Some false) None (Some false) None None.

Definition completion_values : values :=
  mkValues (Present (Some "completion"))
           (Present (Some (CfgModel (OpenAI default_openai))))
           (Present (Some (ParModel (TextCompletion default_text))))
           Missing.

(** *** Further reference functions for the normaliser *)

(** The values of a nested input that are not sequences, in depth-first,
    left-to-right order: what flattening the nesting gives. *)
Fixpoint flatten (v : pyval) : list pyval :=
  match v with
  | PList xs =>
    (fix go (l : list pyval) : list pyval :=
       match l with
       | [] => []
       | x :: l' => (flatten x ++ go l')%list
       end) xs
  | _ => [v]
  end.

Definition flatten_queue (q : list pyval) : list pyval :=
  foldr (fun x acc => (flatten x ++ acc)%list) [] q.

(** What [convert] yields where it returns; the empty mapping stands in
    where it raises. *)
Definition converted (v : pyval) : pydict :=
  match convert v with
  | Ok m => m
  | Raise _ => []
  end.

Definition is_message (v : pyval) : bool :=
  match v with PMsg _ => true | _ => false end.

(** A mapping whose role is one of the four supported ones. *)
Definition valid_role (d : pydict) : Prop :=
  role_in_supported (dict_get d "role") = Ok true.

(** Sequences in which the values that are not sequences come first and at
    most one sequence follows, at the end, of the same shape. *)
Inductive tail_nested : list pyval -> Prop :=
| tail_nested_flat (xs : list pyval) :
    Forall (fun v => is_leaf v = true) xs -> tail_nested xs
| tail_nested_last (xs ys : list pyval) :
    Forall (fun v => is_leaf v = true) xs -> tail_nested ys ->
    tail_nested (xs ++ [PList ys]).


(** Parameters that repeat both named keywords, ["llm_provider"] first. *)
Definition clashing_params : pydict :=
  [("temperature", PInt 0); ("llm_provider", PStr "azure");
   ("response_model", PStr "N")].

(** A formatter that raises on [None] and formats everything else as
    [sample_tool_helper] does. *)
Definition failing_tool_helper : ToolHelper := {|
  format_tool tool tool_format :=
    match tool with
    | PNone => Raise (CollaboratorError "no tool")
    | _ => Ok (PDict [("type", PStr "function"); ("function", tool)])
    end
|}.


(** *** Further reference functions for the schema *)

(** The discriminator of a configuration class. *)
Definition tag_of (c : configuration_t) : string :=
  match c with
  | OpenAI _ => "openai"
  | AzureOpenAI _ => "azure_openai"
  | HFHub _ => "huggingface"
  end.

(** The fields a class inherits, as a record of the parent class. *)
Definition openai_client_part (c : OpenAIModelConfig.t) : OpenAIClientConfig.t :=
  OpenAIClientConfig.mk (OpenAIModelConfig.base_url c) (OpenAIModelConfig.api_key c)
    (OpenAIModelConfig.organization c) (OpenAIModelConfig.project c).

Definition azure_client_part (c : AzureOpenAIModelConfig.t)
  : AzureOpenAIClientConfig.t :=
  AzureOpenAIClientConfig.mk (AzureOpenAIModelConfig.api_key c)
    (AzureOpenAIModelConfig.azure_ad_token c) (AzureOpenAIModelConfig.organization c)
    (AzureOpenAIModelConfig.project c) (AzureOpenAIModelConfig.api_version c)
    (AzureOpenAIModelConfig.azure_endpoint c)
    (AzureOpenAIModelConfig.azure_deployment c)
    (AzureOpenAIModelConfig.azure_client_id c).

Definition hf_client_part (c : HFHubModelConfig.t) : HFInferenceClientConfig.t :=
  HFInferenceClientConfig.mk (HFHubModelConfig.model c) (HFHubModelConfig.api_key c)
    (HFHubModelConfig.token c) (HFHubModelConfig.base_url c)
    (HFHubModelConfig.timeout c) (HFHubModelConfig.headers c)
    (HFHubModelConfig.cookies c) (HFHubModelConfig.proxies c).

Definition chat_base_part (p : OpenAIChatCompletionParams.t) : OpenAIParamsBase.t :=
  OpenAIParamsBase.mk (OpenAIChatCompletionParams.model p)
    (OpenAIChatCompletionParams.temperature p) (OpenAIChatCompletionParams.max_tokens p)
    (OpenAIChatCompletionParams.top_p p) (OpenAIChatCompletionParams.frequency_penalty p)
    (OpenAIChatCompletionParams.presence_penalty p) (OpenAIChatCompletionParams.stop p)
    (OpenAIChatCompletionParams.stream p).

Definition text_base_part (p : OpenAITextCompletionParams.t) : OpenAIParamsBase.t :=
  OpenAIParamsBase.mk (OpenAITextCompletionParams.model p)
    (OpenAITextCompletionParams.temperature p) (OpenAITextCompletionParams.max_tokens p)
    (OpenAITextCompletionParams.top_p p) (OpenAITextCompletionParams.frequency_penalty p)
    (OpenAITextCompletionParams.presence_penalty p) (OpenAITextCompletionParams.stop p)
    (OpenAITextCompletionParams.stream p).

(** A stored [Optional[int]] that is [None] or at least [lo]. *)
Definition at_least_Z (lo : Z) (v : option Z) : Prop :=
  match v with
  | Some z => (lo <= z)%Z
  | None => True
  end.

(** The mapping entry holds an integer outside [lo, hi], or a boolean whose
    integer value is. *)
Definition outside_lax (lo hi : Z) (r : raw (Z + bool)) : Prop :=
  exists x, r = Present (Some x) /\ ~ (lo <= lax_int x <= hi)%Z.


(** The mapping [{"best_of": z}]. *)
Definition params_with_best_of (z : Z) : raw_params :=
  mkRawParams Missing Missing Missing Missing Missing Missing Missing Missing
              (Present (Some z)) Missing Missing Missing Missing Missing Missing
              Missing Missing Missing Missing Missing Missing.

(** [PromptyModelConfig(configuration={"type": "openai", "name":
    "gpt-4o-mini"}, parameters={"model": m})]. *)
Definition values_with_model (m : string) : values :=
  mkValues Missing (Present (Some (CfgDict openai_mapping)))
           (Present (Some (ParDict (with_model empty_params m)))) Missing.


(** The mapping [{"response_format": m}]. *)
Definition params_with_response_format (m : gmap string string) : raw_params :=
  mkRawParams Missing Missing Missing Missing Missing Missing Missing Missing
              Missing Missing Missing Missing Missing Missing Missing
              (Present (Some m)) Missing Missing Missing Missing Missing.


(** ** [PromptyDefinition] *)

Module PromptyDefinition.

(** What the caller may pass for [model]: a mapping or an instance. *)
Inductive model_value : Type :=
| ModelDict (vals : PromptyModelConfig.values)
| ModelInst (m : PromptyModelConfig.t).

(** The mapping the class is constructed from. *)
Record raw_definition : Type := mkRaw {
  r_d_name : raw string;
  r_d_description : raw string;
  r_d_version : raw string;
  r_d_authors : raw (list string);
  r_d_tags : raw (list string);
  r_d_model : raw model_value;
  r_d_inputs : raw pydict;
  r_d_sample : raw (pydict + string);
  r_d_outputs : raw pydict;
  r_d_content : raw string
}.

Record t : Type := mk {
  name : option string;
  description : option string;
  version : option string;
  authors : option (list string);
  tags : option (list string);
  model : PromptyModelConfig.t;
  inputs : pydict;
  sample : option (pydict + string);
  outputs : option pydict;
  content : string
}.

(** The annotation [PromptyModelConfig]: a mapping is validated by that
    class, model validator included; an instance is kept. *)
Definition validate_model `{PromptyModelConfig.PydanticUnion} (v : model_value)
  : result PromptyModelConfig.t :=
  match v with
  | ModelDict vals => PromptyModelConfig.make vals
  | ModelInst m => Ok m
  end.

(** [model] and [content] are declared with [...]: required. *)
Definition make `{PromptyModelConfig.PydanticUnion} (d : raw_definition) : result t :=
  Ok mk
  <*> field "name" (Some (Some "")) (optional any) (r_d_name d)
  <*> field "description" (Some (Some "")) (optional any) (r_d_description d)
  <*> field "version" (Some (Some "1.0")) (optional any) (r_d_version d)
  <*> field "authors" (Some (Some [])) (optional any) (r_d_authors d)
  <*> field "tags" (Some (Some [])) (optional any) (r_d_tags d)
  <*> field "model" None validate_model (r_d_model d)
  <*> field "inputs" (Some []) any (r_d_inputs d)
  <*> field "sample" (Some None) (optional any) (r_d_sample d)
  <*> field "outputs" (Some (Some [])) (optional any) (r_d_outputs d)
  <*> field "content" None any (r_d_content d).

(** [model_dump()]: the nested model is dumped to a mapping. *)
Definition dump (r : t) : raw_definition :=
  mkRaw (dump_opt id (name r)) (dump_opt id (description r)) (dump_opt id (version r))
        (dump_opt id (authors r)) (dump_opt id (tags r))
        (Present (Some (ModelDict (PromptyModelConfig.dump (model r)))))
        (Present (Some (dump_dict (inputs r))))
        (dump_opt (sum_map dump_dict id) (sample r)) (dump_opt dump_dict (outputs r))
        (Present (Some (content r))).

(** No model instance is held in the values of [inputs], [sample] and
    [outputs]. *)
Definition no_models (r : t) : bool :=
  dict_no_model (inputs r)
  && from_option (fun x => match x with inl d => dict_no_model d | inr _ => true end)
       true (sample r)
  && from_option dict_no_model true (outputs r).

(** The mapping with only [model] and [content]. *)
Definition minimal (vals : PromptyModelConfig.values) (body : string)
  : raw_definition :=
  mkRaw Missing Missing Missing Missing Missing (Present (Some (ModelDict vals)))
        Missing Missing Missing (Present (Some body)).

End PromptyDefinition.

(** ** [RequestHandler.process_prompty_messages] *)

Module Prompty.

(** The four attributes the function reads off its [Prompty] argument:
    [prompty.model.api], [prompty.inputs], [prompty.sample] and
    [prompty.content]. *)
Record t : Type := mk {
  model_api : string;
  inputs : pydict;
  sample : option (pydict + string);
  content : string
}.

(** The attributes as a [PromptyDefinition] holds them. *)
Definition of_definition (d : PromptyDefinition.t) : t :=
  mk (PromptyModelConfig.api (PromptyDefinition.model d))
     (PromptyDefinition.inputs d) (PromptyDefinition.sample d)
     (PromptyDefinition.content d).

(** The collaborator [PromptyHelper]; either function may raise. *)
Class PromptyHelper : Type := {
  prepare_inputs : pydict -> pydict -> option (pydict + string) -> result pydict;
  to_prompt : string -> pydict -> string -> result (list pydict)
}.

Inductive event : Type :=
| CallPrepareInputs (inputs declared : pydict) (sample : option (pydict + string))
| CallToPrompt (content : string) (prepared : pydict) (api_type : string).

(** The function: the calls it makes, in order, and what it returns or
    raises. *)
Definition process_prompty_messages `{PromptyHelper} (prompty : t) (inputs : pydict)
  : list event * result (list pydict) :=
  let api_type := model_api prompty in
  let call1 := CallPrepareInputs inputs (Prompty.inputs prompty) (sample prompty) in
  match prepare_inputs inputs (Prompty.inputs prompty) (sample prompty) with
  | Raise e => ([call1], Raise e)
  | Ok prepared_inputs =>
    ([call1; CallToPrompt (content prompty) prepared_inputs api_type],
     to_prompt (content prompty) prepared_inputs api_type)
  end.

(** A helper to run the function with: the inputs are the declared ones
    overridden by the given ones, a missing ["question"] raises, and the
    prompt is one message with the role the API kind calls for. *)
Definition sample_helper : PromptyHelper := {|
  prepare_inputs inputs declared sample :=
    match dict_get (inputs ++ declared)%list "question" with
    | PNone => Raise (CollaboratorError "missing input")
    | _ => Ok (inputs ++ declared)%list
    end;
  to_prompt content prepared api_type :=
    Ok [[("role", PStr (if String.eqb api_type "chat" then "system" else "user"));
         ("content", PStr content)]]
|}.

End Prompty.


(** The [PromptyModelConfig] mapping with its ["response"] key set, and the
    record with that field set. *)
Definition with_response (vals : values) (s : string) : values :=
  mkValues (v_api vals) (v_configuration vals) (v_parameters vals) (Present (Some s)).

Definition set_response (r : PromptyModelConfig.t) (s : string) : PromptyModelConfig.t :=
  PromptyModelConfig.mk (api r) (configuration r) (parameters r) s.

(** [PromptyModelConfig(api=a, configuration={"type": "openai", ...},
    parameters={})]. *)
Definition values_with_api (a : string) : values :=
  mkValues (Present (Some a)) (Present (Some (CfgDict openai_mapping)))
           (Present (Some (ParDict empty_params))) Missing.


(** A tool descriptor as a mapping with nested values, and configuration
    and [PromptyModelConfig] mappings that carry [Any]-typed values. *)
Definition sample_tool_mapping : pydict :=
  [("type", PStr "function");
   ("function", PDict [("name", PStr "lookup");
                       ("parameters", PDict [("required", PList [PStr "q"])])])].

Definition hf_mapping : raw_config :=
  mkRawConfig (Present (Some "huggingface")) Missing Missing Missing Missing Missing
              Missing Missing Missing Missing Missing
              (Present (Some "meta-llama/Llama-3")) Missing Missing Missing Missing
              (Present (Some (PDict [("https", PStr "http://proxy:3128")]))).

Definition hf_mapping_with_instance : raw_config :=
  mkRawConfig (Present (Some "huggingface")) Missing Missing Missing Missing Missing
              Missing Missing Missing Missing Missing
              (Present (Some "meta-llama/Llama-3")) Missing Missing Missing Missing
              (Present (Some (PMsg [("role", PStr "user"); ("content", PStr "x")]))).

Definition values_with_tools (ts : list pydict) : values :=
  mkValues Missing (Present (Some (CfgDict openai_mapping)))
           (Present (Some (ParDict (params_with_tools ts)))) Missing.

(** The definition mapping with [model], [inputs] and [content]. *)
Definition definition_with_inputs (vals : values) (ins : pydict) (body : string)
  : PromptyDefinition.raw_definition :=
  PromptyDefinition.mkRaw Missing Missing Missing Missing Missing
    (Present (Some (PromptyDefinition.ModelDict vals)))
    (Present (Some ins)) Missing Missing (Present (Some body)).

(** [None] turned into an absent key on every key of a [PromptyDefinition]
    mapping whose field has a declared default ([model] and [content] have
    none). *)
Definition definition_none_as_missing (d : PromptyDefinition.raw_definition)
  : PromptyDefinition.raw_definition :=
  PromptyDefinition.mkRaw
    (none_as_missing (PromptyDefinition.r_d_name d))
    (none_as_missing (PromptyDefinition.r_d_description d))
    (none_as_missing (PromptyDefinition.r_d_version d))
    (none_as_missing (PromptyDefinition.r_d_authors d))
    (none_as_missing (PromptyDefinition.r_d_tags d))
    (PromptyDefinition.r_d_model d)
    (none_as_missing (PromptyDefinition.r_d_inputs d))
    (none_as_missing (PromptyDefinition.r_d_sample d))
    (none_as_missing (PromptyDefinition.r_d_outputs d))
    (PromptyDefinition.r_d_content d).

(** The Azure mapping with [azure_endpoint] given as [None]. *)
Definition azure_mapping_endpoint_None : raw_config :=
  mkRawConfig (Present (Some "azure_openai")) Missing Missing Missing Missing
              Missing Missing Missing (Present None)
              (Present (Some "gpt-4o-mini")) Missing Missing Missing Missing
              Missing Missing Missing.

(** The configuration mapping [{"name": "zzz"}], without ["type"]. *)
Definition untyped_mapping : raw_config :=
  mkRawConfig Missing (Present (Some "zzz")) Missing Missing Missing Missing
              Missing Missing Missing Missing Missing Missing Missing Missing
              Missing Missing Missing.

(** * Properties *)


(** ** The normaliser's loop *)

Lemma work_queue_app (q1 q2 : list pyval) :
  work_queue (q1 ++ q2) = work_queue q1 + work_queue q2.
Proof.
  unfold work_queue. induction q1 as [|x q1 IH]; simpl; [done|]. rewrite IH. lia.
Qed.

Lemma work_queue_cons (v : pyval) (q : list pyval) :
  work_queue (v :: q) = work v + work_queue q.
Proof. reflexivity. Qed.

Lemma work_PList (xs : list pyval) : work (PList xs) = S (work_queue xs).
Proof. reflexivity. Qed.

Lemma work_pos (v : pyval) : 0 < work v.
Proof. destruct v; simpl; lia. Qed.

(** Every pass through the loop body takes exactly one unit of work off the
    queue: the popped value goes, and what is enqueued was counted with it. *)
Lemma step_Continue_work (st st' : state) :
  step st = Continue st' ->
  S (work_queue (queue st')) = work_queue (queue st).
Proof.
  unfold step. destruct st as [[|msg rest] out]; cbn [queue normalized_messages]; [done|].
  destruct msg; try done;
    try (intros [= <-]; cbn [queue]; rewrite work_queue_cons; reflexivity).
  - intros [= <-]. cbn [queue]. rewrite work_queue_app, work_queue_cons, work_PList. lia.
  - destruct (role_in_supported _) as [[]|]; try done.
    intros [= <-]. reflexivity.
Qed.

Lemma loop_enough (fuel : nat) (st : state) :
  work_queue (queue st) < fuel -> is_Some (loop fuel st).
Proof.
  revert st. induction fuel as [|fuel IH]; intros st Hlt; [lia|].
  simpl. destruct (step st) as [st'| |] eqn:Hstep; [|by eexists..].
  apply IH. apply step_Continue_work in Hstep. lia.
Qed.

Lemma loop_mono (fuel fuel' : nat) (st : state) r :
  loop fuel st = Some r -> fuel <= fuel' -> loop fuel' st = Some r.
Proof.
  revert fuel' st. induction fuel as [|fuel IH]; intros fuel' st; [done|].
  intros Hl Hle. destruct fuel' as [|fuel']; [lia|].
  simpl in *. destruct (step st); try done. apply IH; [done|lia].
Qed.

Lemma loop_run (fuel : nat) (st : state) :
  work_queue (queue st) < fuel -> loop fuel st = run st.
Proof.
  intros Hlt. destruct (loop_enough (S (work_queue (queue st))) st) as [r Hr]; [lia|].
  unfold run. rewrite Hr. eapply loop_mono; [exact Hr|lia].
Qed.

(** The loop, unfolded once. *)
Lemma run_step (st : state) :
  run st = match step st with
           | Return msgs => Some (Ok msgs)
           | Throw e => Some (Raise e)
           | Continue st' => run st'
           end.
Proof.
  unfold run at 1. simpl. destruct (step st) as [st'| |] eqn:Hstep; try done.
  apply loop_run. apply step_Continue_work in Hstep. lia.
Qed.

Lemma normalize_run (messages : pyval) :
  normalize_chat_messages messages = run (init messages).
Proof.
  unfold normalize_chat_messages, run, init. simpl. by rewrite Nat.add_0_r.
Qed.

(** C10: [normalize_chat_messages] returns (a list or an exception) on every
    input: every pass through the loop body takes one value off the queue
    and enqueues only the elements of that value, which lowers the work left
    by exactly one, so a budget of one loop test per value of the nested
    input, plus the final test, is enough, and so is any larger one.  The
    nested input is an inductive value, hence finite and acyclic. *)
Theorem normalize_chat_messages_terminates :
  (forall st st', step st = Continue st' ->
                  S (work_queue (queue st')) = work_queue (queue st))
  /\ (forall messages,
        exists r, normalize_chat_messages messages = Some r
                  /\ forall extra,
                       loop (S (work messages) + extra) (init messages) = Some r).
Proof.
  split; [exact step_Continue_work|]. intros messages.
  destruct (loop_enough (S (work messages)) (init messages)) as [r Hr].
  { unfold init. simpl. lia. }
  exists r. split; [exact Hr|].
  intros extra. eapply loop_mono; [exact Hr|lia].
Qed.

Lemma normalize_chat_messages_terminates_witness :
  step (init (PList [PStr "a"; PStr "b"])) = Continue (mkState [PStr "a"; PStr "b"] [])
  /\ S (work_queue [PStr "a"; PStr "b"]) = work_queue [PList [PStr "a"; PStr "b"]].
Proof.
  split; [reflexivity|].
  exact (proj1 normalize_chat_messages_terminates
           (init (PList [PStr "a"; PStr "b"]))
           (mkState [PStr "a"; PStr "b"] []) eq_refl).
Defined.

(** ** Order of the output *)

Lemma leaves_cons_leaf (v : pyval) (q : list pyval) :
  is_leaf v = true -> leaves (v :: q) = v :: leaves q.
Proof. intros Hv. unfold leaves. by rewrite filter_cons_True. Qed.

Lemma leaves_cons_PList (xs q : list pyval) :
  leaves (PList xs :: q) = leaves q.
Proof. unfold leaves. by rewrite filter_cons_False. Qed.

Lemma children_cons_leaf (v : pyval) (q : list pyval) :
  is_leaf v = true -> children (v :: q) = children q.
Proof. by destruct v. Qed.

(** One pass over a value that is not expanded. *)
Lemma step_leaf (v : pyval) (q : list pyval) (out : list pydict) :
  is_leaf v = true ->
  step (mkState (v :: q) out)
  = match convert v with
    | Ok m => Continue (mkState q (out ++ [m]))
    | Raise e => Throw e
    end.
Proof.
  destruct v; try done; intros _; unfold step, convert; cbn [queue normalized_messages].
  by destruct (role_in_supported _) as [[]|].
Qed.

(** Working through a prefix [q] of the queue: its unexpanded values are
    appended in order, and the elements of its sequences end up behind
    everything that was queued after [q]. *)
Lemma run_prefix (q s : list pyval) (out : list pydict) :
  run (mkState (q ++ s) out)
  = match convert_all (leaves q) with
    | Raise e => Some (Raise e)
    | Ok ms => run (mkState (s ++ children q) (out ++ ms))
    end.
Proof.
  revert s out. induction q as [|v q IH]; intros s out.
  - simpl. by rewrite !app_nil_r.
  - destruct (is_leaf v) eqn:Hv.
    + rewrite leaves_cons_leaf, children_cons_leaf by done.
      rewrite run_step. cbn [app]. rewrite step_leaf by done.
      cbn [convert_all]. destruct (convert v) as [m|e]; [|done].
      cbv beta iota. rewrite IH. destruct (convert_all (leaves q)) as [ms|e]; [|done].
      by rewrite <- app_assoc.
    + destruct v; try done. rewrite leaves_cons_PList.
      rewrite run_step. cbn [app step queue normalized_messages children].
      rewrite <- app_assoc, IH. destruct (convert_all (leaves q)) as [ms|e]; [|done].
      by rewrite <- app_assoc.
Qed.

Lemma leaves_idemp (q : list pyval) : leaves (leaves q) = leaves q.
Proof.
  induction q as [|v q IH]; [done|]. destruct (is_leaf v) eqn:Hv.
  - rewrite !leaves_cons_leaf by done. by rewrite IH.
  - destruct v; try done; by rewrite leaves_cons_PList.
Qed.

Lemma children_leaves (q : list pyval) : children (leaves q) = [].
Proof.
  induction q as [|v q IH]; [done|]. destruct (is_leaf v) eqn:Hv.
  - by rewrite leaves_cons_leaf, children_cons_leaf.
  - destruct v; try done; by rewrite leaves_cons_PList.
Qed.

Lemma work_children (q : list pyval) :
  work_queue (children q) + length q <= work_queue q.
Proof.
  induction q as [|v q IH]; [done|].
  destruct v; cbn [children length]; rewrite work_queue_cons; simpl work;
    try lia.
  rewrite work_queue_app. fold (work_queue xs). lia.
Qed.

Lemma bfs_nil (depth : nat) : bfs depth [] = [].
Proof. induction depth as [|depth IH]; [done|]. simpl. exact IH. Qed.

(** The loop on a queue and on its level order agree. *)
Lemma run_bfs (depth : nat) (q : list pyval) (out : list pydict) :
  work_queue q <= depth ->
  run (mkState q out) = run (mkState (bfs depth q) out).
Proof.
  revert q out. induction depth as [|depth IH]; intros q out Hle.
  - destruct q as [|v q]; [done|]. rewrite work_queue_cons in Hle.
    pose proof (work_pos v). lia.
  - cbn [bfs]. rewrite <- (app_nil_r q) at 1.
    rewrite !run_prefix, leaves_idemp, children_leaves, app_nil_r.
    destruct (convert_all (leaves q)) as [ms|e]; [|done].
    cbn [app]. apply IH.
    destruct q as [|v q]; [simpl; lia|].
    pose proof (work_children (v :: q)) as Hc. cbn [length] in Hc. lia.
Qed.

Lemma leaves_all (xs : list pyval) :
  Forall (fun v => is_leaf v = true) xs -> leaves xs = xs.
Proof.
  induction 1 as [|v xs Hv _ IH]; [done|]. by rewrite leaves_cons_leaf, IH.
Qed.

Lemma run_PList (xs : list pyval) :
  normalize_chat_messages (PList xs) = run (mkState xs []).
Proof. rewrite normalize_run, run_step. reflexivity. Qed.

Lemma normalize_level_order_eq (messages : pyval) :
  normalize_chat_messages messages
  = normalize_chat_messages (PList (level_order messages)).
Proof.
  rewrite run_PList, normalize_run. unfold init, level_order.
  apply run_bfs. rewrite work_queue_cons. simpl. lia.
Qed.

Lemma normalize_flat (xs : list pyval) :
  Forall (fun v => is_leaf v = true) xs ->
  normalize_chat_messages (PList xs) = Some (convert_all xs).
Proof.
  intros Hxs. rewrite run_PList.
  rewrite <- (app_nil_r xs) at 1. rewrite run_prefix.
  pose proof (children_leaves xs) as Hc. rewrite (leaves_all xs Hxs) in *.
  rewrite Hc. destruct (convert_all xs) as [ms|e]; [|done].
  rewrite run_step. reflexivity.
Qed.

(** C1, as the code has it: the queue is expanded breadth first, so the
    output on any input is the output on the sequence of its unexpanded
    values in level order (depth by depth, left to right within a depth);
    on a sequence none of whose elements is a sequence that is the
    left-to-right conversion of the elements. *)
Theorem normalize_chat_messages_level_order :
  (forall messages : pyval,
     normalize_chat_messages messages
     = normalize_chat_messages (PList (level_order messages)))
  /\ (forall xs : list pyval,
        Forall (fun v => is_leaf v = true) xs ->
        normalize_chat_messages (PList xs) = Some (convert_all xs)).
Proof. split; [exact normalize_level_order_eq|exact normalize_flat]. Qed.

Lemma normalize_chat_messages_level_order_witness :
  Forall (fun v => is_leaf v = true) [PStr "a"; PStr "b"]
  /\ normalize_chat_messages (PList [PStr "a"; PStr "b"])
     = Some (convert_all [PStr "a"; PStr "b"]).
Proof.
  assert (H : Forall (fun v => is_leaf v = true) [PStr "a"; PStr "b"]).
  { repeat constructor. }
  split; [exact H|].
  exact (proj2 normalize_chat_messages_level_order [PStr "a"; PStr "b"] H).
Defined.

(** C1 as stated fails: a value that follows a nested sequence is emitted
    before the elements of that sequence. *)
Lemma normalize_chat_messages_not_left_to_right :
  normalize_chat_messages
    (PList [PStr "a"; PList [PStr "b"; PStr "c"]; PStr "d"])
  <> normalize_chat_messages (PList [PStr "a"; PStr "b"; PStr "c"; PStr "d"]).
Proof. vm_compute. intros H. discriminate H. Qed.

Example level_order_example :
  level_order (PList [PStr "a"; PList [PStr "b"; PStr "c"]; PStr "d"])
  = [PStr "a"; PStr "d"; PStr "b"; PStr "c"].
Proof. reflexivity. Qed.

Lemma leaves_is_leaf (q : list pyval) :
  Forall (fun v => is_leaf v = true) (leaves q).
Proof.
  apply Forall_forall. intros v Hv. unfold leaves in Hv.
  by apply list_elem_of_filter in Hv as [Hv _].
Qed.

Lemma bfs_is_leaf (depth : nat) (q : list pyval) :
  Forall (fun v => is_leaf v = true) (bfs depth q).
Proof.
  revert q. induction depth as [|depth IH]; intros q; cbn [bfs]; [constructor|].
  apply Forall_app. split; [apply leaves_is_leaf|apply IH].
Qed.

(** The function in closed form: the values that are not sequences, in
    level order, converted from left to right up to the first that raises. *)
Lemma normalize_chat_messages_closed_form (messages : pyval) :
  normalize_chat_messages messages = Some (convert_all (level_order messages)).
Proof.
  rewrite normalize_level_order_eq. apply normalize_flat, bfs_is_leaf.
Qed.

(** ** Exceptions of the normaliser *)

(** A mapping whose role can be hashed and is not a supported one raises the
    [ValueError] that names the role; a mapping without the key has the role
    [None]. *)
Lemma normalize_chat_messages_invalid_role (d : pydict) :
  role_in_supported (dict_get d "role") = Ok false ->
  normalize_chat_messages (PDict d)
  = Some (Raise (ValueError_role (dict_get d "role"))).
Proof.
  intros Hrole. rewrite normalize_run, run_step. unfold init, step.
  cbn [queue normalized_messages]. by rewrite Hrole.
Qed.

Lemma normalize_chat_messages_unsupported (v : pyval) :
  v = PNone \/ (exists b, v = PBool b) \/ (exists z, v = PInt z) ->
  normalize_chat_messages v = Some (Raise (ValueError_format (type_of v))).
Proof. intros [->|[[b ->]|[z ->]]]; reflexivity. Qed.

Example normalize_chat_messages_42 :
  normalize_chat_messages (PInt 42) = Some (Raise (ValueError_format TInt)).
Proof. reflexivity. Qed.

Example normalize_chat_messages_bogus :
  normalize_chat_messages (PDict [("role", PStr "bogus"); ("content", PStr "x")])
  = Some (Raise (ValueError_role (PStr "bogus"))).
Proof. reflexivity. Qed.

Example normalize_chat_messages_no_role :
  normalize_chat_messages (PDict [("content", PStr "x")])
  = Some (Raise (ValueError_role PNone)).
Proof. reflexivity. Qed.

(** C4 at a mapping whose role is a list: the membership test in the set of
    supported roles raises [TypeError] (a list cannot be hashed) before the
    [ValueError] for an unrecognised role is reached. *)
Theorem normalize_chat_messages_unhashable_role :
  normalize_chat_messages
    (PDict [("role", PList [PStr "user"]); ("content", PStr "x")])
  = Some (Raise (TypeError_unhashable TList)).
Proof. reflexivity. Qed.

(** ** [process_params] *)

Lemma format_tools_ok `{ToolHelper} (tools fs : list pyval) (llm_provider : string) :
  Forall2 (fun t f => format_tool t llm_provider = Ok f) tools fs ->
  format_tools tools llm_provider
  = (map (fun t => CallFormatTool t llm_provider) tools, Ok fs).
Proof.
  induction 1 as [|t f tools fs Hf _ IH]; [done|].
  cbn [format_tools]. by rewrite Hf, IH.
Qed.

Lemma dict_lookup_set_eq (d : pydict) (k : string) (v : pyval) :
  dict_lookup (dict_set d k v) k = Some v.
Proof.
  induction d as [|[k' v'] d IH]; cbn [dict_set dict_lookup].
  - by rewrite String.eqb_refl.
  - destruct (String.eqb k' k) eqn:Hk; cbn [dict_lookup]; by rewrite Hk.
Qed.

Lemma dict_lookup_set_ne (d : pydict) (k k' : string) (v : pyval) :
  k <> k' -> dict_lookup (dict_set d k v) k' = dict_lookup d k'.
Proof.
  intros Hne. induction d as [|[k0 v0] d IH]; cbn [dict_set dict_lookup].
  - by rewrite (proj2 (String.eqb_neq k k') Hne).
  - destruct (String.eqb k0 k) eqn:Hk; cbn [dict_lookup]; [|by rewrite IH].
    apply String.eqb_eq in Hk as ->.
    by rewrite (proj2 (String.eqb_neq k k') Hne).
Qed.

Lemma format_calls_app (evs1 evs2 : list event) :
  format_calls (evs1 ++ evs2) = (format_calls evs1 ++ format_calls evs2)%list.
Proof. apply omap_app. Qed.

Lemma format_calls_map (tools : list pyval) (llm_provider : string) :
  format_calls (map (fun t => CallFormatTool t llm_provider) tools)
  = map (fun t => (t, llm_provider)) tools.
Proof. induction tools as [|t tools IH]; [done|]. cbn. by f_equal. Qed.

(** C7: with a non-empty [tools] whose formatting calls all return,
    [params["tools"]] is set on the caller's mapping to the formatted tools
    in the original order (an entry that exists is replaced in place, the
    other entries are untouched), by exactly one [format_tool] call per
    tool in that order, and without a response model that mapping is
    returned; with [tools] empty or [None] the mapping is left as it was
    and no formatting call is made. *)
Theorem process_params_tools `{ToolHelper} `{StructureHandler}
    (params : pydict) (llm_provider : string)
    (response_model : option string) :
  (forall (t : pyval) (ts fs : list pyval),
     Forall2 (fun t f => format_tool t llm_provider = Ok f) (t :: ts) fs ->
     let r := process_params params llm_provider (Some (t :: ts)) response_model in
     caller_params r = dict_set params "tools" (PList fs)
     /\ dict_lookup (caller_params r) "tools" = Some (PList fs)
     /\ (forall k, k <> "tools" ->
                   dict_lookup (caller_params r) k = dict_lookup params k)
     /\ format_calls (events r) = map (fun t => (t, llm_provider)) (t :: ts)
     /\ (response_model = None ->
         returned r = Ok (dict_set params "tools" (PList fs))))
  /\ (forall tools : option (list pyval),
        tools = None \/ tools = Some [] ->
        let r := process_params params llm_provider tools response_model in
        caller_params r = params
        /\ format_calls (events r) = []
        /\ (response_model = None -> returned r = Ok params)).
Proof.
  split.
  - intros t ts fs Hfs r. subst r. unfold process_params.
    cbn [tools_truthy]. change (default [] (Some (t :: ts))) with (t :: ts).
    rewrite (format_tools_ok _ _ _ Hfs).
    assert (Hcalls : forall rest,
               format_calls rest = [] ->
               format_calls
                 ((LogInfo "Tools are available in the request."
                   :: map (fun t0 => CallFormatTool t0 llm_provider) (t :: ts)) ++ rest)
               = map (fun t0 => (t0, llm_provider)) (t :: ts)).
    { intros rest Hrest. rewrite format_calls_app, Hrest, app_nil_r.
      change (format_calls (LogInfo ?m :: ?l)) with (format_calls l).
      apply format_calls_map. }
    destruct response_model as [rm|].
    + destruct (first_clash _); cbn [caller_params events returned];
        (split; [done|]); (split; [apply dict_lookup_set_eq|]);
        (split; [intros k Hk; by apply dict_lookup_set_ne|]);
        (split; [by apply Hcalls|done]).
    + cbn [caller_params events returned].
      split; [done|]. split; [apply dict_lookup_set_eq|].
      split; [intros k Hk; by apply dict_lookup_set_ne|].
      split; [|done]. rewrite <- (app_nil_r (_ :: _)). by apply Hcalls.
  - intros tools [-> | ->] r; subst r; unfold process_params;
      cbn [tools_truthy]; destruct response_model as [rm|];
      try destruct (first_clash params);
      cbn [caller_params events returned]; done.
Qed.

Lemma process_params_tools_witness :
  Forall2 (fun t f => @format_tool sample_tool_helper t "openai" = Ok f)
    [sample_tool "t1"; sample_tool "t2"]
    [sample_formatted "t1"; sample_formatted "t2"]
  /\ dict_lookup
       (caller_params
          (@process_params sample_tool_helper sample_structure_handler
             [] "openai" (Some [sample_tool "t1"; sample_tool "t2"]) None))
       "tools"
     = Some (PList [sample_formatted "t1"; sample_formatted "t2"])
  /\ caller_params
       (@process_params sample_tool_helper sample_structure_handler
          [] "openai" (Some []) None) = [].
Proof.
  assert (Hfs : Forall2 (fun t f => @format_tool sample_tool_helper t "openai" = Ok f)
                  [sample_tool "t1"; sample_tool "t2"]
                  [sample_formatted "t1"; sample_formatted "t2"]).
  { repeat constructor. }
  split; [exact Hfs|]. split.
  - exact (proj1 (proj2 (proj1 (@process_params_tools sample_tool_helper
                                  sample_structure_handler [] "openai" None)
                                _ _ _ Hfs))).
  - exact (proj1 (proj2 (@process_params_tools sample_tool_helper
                           sample_structure_handler [] "openai" None)
                        (Some []) (or_intror eq_refl))).
Defined.

(** ** Field-by-field construction *)

Lemma ap_Ok {A B} (rf : result (A -> B)) (ra : result A) (b : B) :
  rf <*> ra = Ok b -> exists f a, rf = Ok f /\ ra = Ok a /\ b = f a.
Proof.
  destruct rf as [f|[]], ra as [a|[]]; try done. intros [= <-]. by exists f, a.
Qed.

Lemma ap_soft {A B} (rf : result (A -> B)) (ra : result A) :
  soft rf -> soft ra ->
  soft (rf <*> ra) /\ errors_of (rf <*> ra) = (errors_of rf ++ errors_of ra)%list
  /\ is_ok (rf <*> ra) = is_ok rf && is_ok ra.
Proof.
  destruct rf as [f|[]], ra as [a|[]]; try done; simpl; intros _ _.
  by rewrite app_nil_r.
Qed.

Lemma soft_not_ok {A} (r : result A) :
  soft r -> errors_of r <> [] -> exists errs, r = Raise (ValidationError errs) /\ errs <> [].
Proof. destruct r as [a|[]]; try done. intros _ H. by eexists. Qed.

Lemma field_soft {T S} (name : string) (dflt : S) (validate : T -> result S)
    (r : raw T) :
  (forall x, soft (validate x)) -> soft (field name (Some dflt) validate r).
Proof. intros Hv. destruct r as [|[x|]]; simpl; auto. Qed.

Lemma optional_soft {T S} (validate : T -> result S) (x : T) :
  soft (validate x) -> soft (optional validate x).
Proof. unfold optional. by destruct (validate x) as [|[]]. Qed.

Lemma any_soft {T} (x : T) : soft (any x).
Proof. done. Qed.

Lemma float_range_soft name lo hi q : soft (float_range name lo hi q).
Proof. unfold float_range. by repeat case_match. Qed.

Lemma int_range_soft name lo hi z : soft (int_range name lo hi z).
Proof. unfold int_range. by repeat case_match. Qed.

Lemma lax_bool_soft name x : soft (lax_bool name x).
Proof. unfold lax_bool. by repeat case_match. Qed.

Lemma max_length_soft {T} name n (l : list T) : soft (max_length name n l).
Proof. unfold max_length. by case_match. Qed.

Lemma str_only_soft name x : soft (str_only name x).
Proof. by destruct x. Qed.

Lemma literal_soft name allowed s : soft (literal name allowed s).
Proof. unfold literal. by case_match. Qed.

Lemma response_format_type_soft m :
  soft (OpenAIChatCompletionParams.response_format_type m).
Proof. unfold OpenAIChatCompletionParams.response_format_type. by case_match. Qed.

Create HintDb soft discriminated.
#[export] Hint Resolve field_soft optional_soft any_soft float_range_soft
  int_range_soft lax_bool_soft max_length_soft str_only_soft literal_soft
  response_format_type_soft : soft.

(** *** Range validators *)

Lemma float_field_range name lo hi dflt (r : raw Q) (v : option Q) :
  field name (Some (Some dflt)) (optional (float_range name lo hi)) r = Ok v ->
  (lo <= dflt)%Q /\ (dflt <= hi)%Q ->
  in_range_Q lo hi v.
Proof.
  intros Hf Hd. destruct r as [|[q|]]; simpl in Hf; try (injection Hf as <-; exact Hd).
  unfold optional, float_range in Hf.
  destruct (Qle_bool q hi) eqn:Hhi; simpl in Hf; [|done].
  destruct (Qle_bool lo q) eqn:Hlo; simpl in Hf; [|done].
  injection Hf as <-. split; by apply Qle_bool_iff.
Qed.

Lemma int_field_range name lo hi (dflt : option Z) (r : raw Z) (v : option Z) :
  field name (Some dflt) (optional (int_range name (Some lo) (Some hi))) r = Ok v ->
  in_range_Z lo hi dflt ->
  in_range_Z lo hi v.
Proof.
  intros Hf Hd. destruct r as [|[z|]]; simpl in Hf; try (injection Hf as <-; exact Hd).
  unfold optional, int_range in Hf. simpl in Hf.
  destruct (Z.ltb_spec hi z); simpl in Hf; [done|].
  destruct (Z.ltb_spec z lo); simpl in Hf; [done|].
  injection Hf as <-. simpl. lia.
Qed.

Lemma float_field_outside name lo hi dflt (r : raw Q) :
  outside_Q lo hi r ->
  errors_of (field name (Some dflt) (optional (float_range name lo hi)) r) <> [].
Proof.
  intros (q & -> & Hq). simpl. unfold optional, float_range.
  destruct (Qle_bool q hi) eqn:Hhi; simpl; [|done].
  destruct (Qle_bool lo q) eqn:Hlo; simpl; [|done].
  exfalso. apply Hq. split; by apply Qle_bool_iff.
Qed.

Lemma int_field_outside name lo hi dflt (r : raw Z) :
  outside_Z lo hi r ->
  errors_of (field name (Some dflt) (optional (int_range name (Some lo) (Some hi))) r) <> [].
Proof.
  intros (z & -> & Hz). simpl. unfold optional, int_range. simpl.
  destruct (Z.ltb_spec hi z); simpl; [done|].
  destruct (Z.ltb_spec z lo); simpl; [done|]. lia.
Qed.

Lemma errors_ap {A B} (rf : result (A -> B)) (ra : result A) :
  soft rf -> soft ra -> errors_of (rf <*> ra) = (errors_of rf ++ errors_of ra)%list.
Proof. intros H1 H2. by destruct (ap_soft rf ra H1 H2) as (_ & ? & _). Qed.

Lemma soft_ap {A B} (rf : result (A -> B)) (ra : result A) :
  soft rf -> soft ra -> soft (rf <*> ra).
Proof. intros H1 H2. by destruct (ap_soft rf ra H1 H2) as (? & _). Qed.

Lemma soft_Ok {A} (a : A) : soft (Ok a).
Proof. done. Qed.

Ltac soft_chain :=
  repeat (apply soft_ap; [|cbv beta; auto 6 with soft]); apply soft_Ok.

(** From [make d = Ok p] to one equation per field. *)
Ltac invert_make H :=
  repeat (let f := fresh "f" in
          let a := fresh "a" in
          let Ha := fresh "Ha" in
          apply ap_Ok in H as (f & a & H & Ha & ->));
  injection H as <-.

(** From a field with errors to a construction that fails with them. *)
Ltac fail_by Hfield :=
  apply soft_not_ok; [soft_chain|];
  rewrite !errors_ap by (first [soft_chain | cbv beta; auto 6 with soft]);
  let Heq := fresh "Heq" in
  intros Heq; repeat (apply app_eq_nil in Heq as [Heq ?]);
  apply Hfield; assumption.

(** ** Numeric bounds of the parameter sets *)

Ltac default_in_range := split; apply Qle_bool_iff; reflexivity.

Ltac float_bound :=
  eapply float_field_range; [eassumption|default_in_range].

Lemma chat_make_bounds (d : raw_params) (p : OpenAIChatCompletionParams.t) :
  OpenAIChatCompletionParams.make d = Ok p -> chat_bounds p.
Proof.
  unfold OpenAIChatCompletionParams.make. intros H. invert_make H.
  unfold chat_bounds, base_bounds. cbn.
  repeat split; try float_bound;
    (eapply int_field_range; [eassumption|simpl; try lia; done]).
Qed.

Lemma text_make_bounds (d : raw_params) (p : OpenAITextCompletionParams.t) :
  OpenAITextCompletionParams.make d = Ok p -> text_bounds p.
Proof.
  unfold OpenAITextCompletionParams.make. intros H. invert_make H.
  unfold text_bounds, base_bounds. cbn. repeat split; float_bound.
Qed.

Lemma base_make_bounds (d : raw_params) (p : OpenAIParamsBase.t) :
  OpenAIParamsBase.make d = Ok p -> params_base_bounds p.
Proof.
  unfold OpenAIParamsBase.make. intros H. invert_make H.
  unfold params_base_bounds, base_bounds. cbn. repeat split; float_bound.
Qed.

Lemma chat_make_violation (d : raw_params) :
  chat_violation d ->
  exists errs, OpenAIChatCompletionParams.make d = Raise (ValidationError errs)
               /\ errs <> [].
Proof.
  unfold OpenAIChatCompletionParams.make.
  intros [[Hv|[Hv|[Hv|Hv]]]|[Hv|Hv]].
  - fail_by (float_field_outside "temperature" _ _ (Some 0%Q) _ Hv).
  - fail_by (float_field_outside "top_p" _ _ (Some 1%Q) _ Hv).
  - fail_by (float_field_outside "frequency_penalty" _ _ (Some 0%Q) _ Hv).
  - fail_by (float_field_outside "presence_penalty" _ _ (Some 0%Q) _ Hv).
  - fail_by (int_field_outside "n" _ _ (Some 1%Z) _ Hv).
  - fail_by (int_field_outside "top_logprobs" _ _ None _ Hv).
Qed.

Lemma text_make_violation (d : raw_params) :
  base_violation d ->
  exists errs, OpenAITextCompletionParams.make d = Raise (ValidationError errs)
               /\ errs <> [].
Proof.
  unfold OpenAITextCompletionParams.make.
  intros [Hv|[Hv|[Hv|Hv]]].
  - fail_by (float_field_outside "temperature" _ _ (Some 0%Q) _ Hv).
  - fail_by (float_field_outside "top_p" _ _ (Some 1%Q) _ Hv).
  - fail_by (float_field_outside "frequency_penalty" _ _ (Some 0%Q) _ Hv).
  - fail_by (float_field_outside "presence_penalty" _ _ (Some 0%Q) _ Hv).
Qed.

Lemma base_make_violation (d : raw_params) :
  base_violation d ->
  exists errs, OpenAIParamsBase.make d = Raise (ValidationError errs)
               /\ errs <> [].
Proof.
  unfold OpenAIParamsBase.make.
  intros [Hv|[Hv|[Hv|Hv]]].
  - fail_by (float_field_outside "temperature" _ _ (Some 0%Q) _ Hv).
  - fail_by (float_field_outside "top_p" _ _ (Some 1%Q) _ Hv).
  - fail_by (float_field_outside "frequency_penalty" _ _ (Some 0%Q) _ Hv).
  - fail_by (float_field_outside "presence_penalty" _ _ (Some 0%Q) _ Hv).
Qed.

(** C5: a parameter set that was constructed satisfies the declared bounds
    (temperature in [0,2], top_p in [0,1], both penalties in [-2,2], and for
    the chat variant n in [1,128] and top_logprobs in [0,20], each when it
    is not [None]); a mapping with a value outside one of these bounds is
    refused with a [ValidationError]; n=129 is refused and n=1 accepted. *)
Theorem params_numeric_bounds :
  (forall d p, OpenAIChatCompletionParams.make d = Ok p -> chat_bounds p)
  /\ (forall d p, OpenAITextCompletionParams.make d = Ok p -> text_bounds p)
  /\ (forall d p, OpenAIParamsBase.make d = Ok p -> params_base_bounds p)
  /\ (forall d, chat_violation d ->
        exists errs, OpenAIChatCompletionParams.make d = Raise (ValidationError errs)
                     /\ errs <> [])
  /\ (forall d, base_violation d ->
        exists errs, OpenAITextCompletionParams.make d = Raise (ValidationError errs)
                     /\ errs <> [])
  /\ (forall d, base_violation d ->
        exists errs, OpenAIParamsBase.make d = Raise (ValidationError errs)
                     /\ errs <> [])
  /\ OpenAIChatCompletionParams.make (params_with_n 129)
     = Raise (ValidationError [("n", "less_than_equal")])
  /\ OpenAIChatCompletionParams.n
       <$> OpenAIChatCompletionParams.make (params_with_n 1)
     = Ok (Some 1%Z).
Proof.
  split; [exact chat_make_bounds|]. split; [exact text_make_bounds|].
  split; [exact base_make_bounds|]. split; [exact chat_make_violation|].
  split; [exact text_make_violation|]. split; [exact base_make_violation|].
  split; reflexivity.
Qed.

Lemma params_numeric_bounds_witness :
  chat_violation (params_with_n 129)
  /\ (exists errs,
        OpenAIChatCompletionParams.make (params_with_n 129)
        = Raise (ValidationError errs) /\ errs <> [])
  /\ (exists p, OpenAIChatCompletionParams.make (params_with_n 1) = Ok p
                /\ chat_bounds p).
Proof.
  assert (Hv : chat_violation (params_with_n 129)).
  { right. left. exists 129%Z. split; [reflexivity|]. lia. }
  split; [exact Hv|]. split.
  - exact (proj1 (proj2 (proj2 (proj2 params_numeric_bounds))) _ Hv).
  - eexists. split; [reflexivity|].
    apply (proj1 params_numeric_bounds (params_with_n 1)). reflexivity.
Defined.

(** ** The length limit of [tools] *)

Lemma tools_field_too_long (r : raw (list pydict)) (ts : list pydict) :
  r = Present (Some ts) -> 64 < length ts ->
  errors_of (field "tools" (Some None) (optional (max_length "tools" 64)) r) <> [].
Proof.
  intros -> Hlen. simpl. unfold optional, max_length.
  destruct (Nat.ltb_spec 64 (length ts)); [done|lia].
Qed.

Lemma tools_field_accepted (r : raw (list pydict)) (ts : list pydict) :
  r = Present (Some ts) -> length ts <= 64 ->
  field "tools" (Some None) (optional (max_length "tools" 64)) r = Ok (Some ts).
Proof.
  intros -> Hlen. simpl. unfold optional, max_length.
  destruct (Nat.ltb_spec 64 (length ts)); [lia|done].
Qed.

(** C9: a [tools] list of more than 64 entries is refused with a
    [ValidationError]; a list of at most 64 mappings is accepted as it is,
    so that the mapping constructs whenever it does without its [tools]. *)
Theorem chat_tools_max_length (d : raw_params) (ts : list pydict) :
  r_tools d = Present (Some ts) ->
  (64 < length ts ->
   exists errs, OpenAIChatCompletionParams.make d = Raise (ValidationError errs)
                /\ errs <> [])
  /\ (length ts <= 64 ->
      forall p, OpenAIChatCompletionParams.make (without_tools d) = Ok p ->
                OpenAIChatCompletionParams.make d = Ok (set_tools p (Some ts))).
Proof.
  intros Htools. split.
  - intros Hlen. unfold OpenAIChatCompletionParams.make.
    fail_by (tools_field_too_long _ _ Htools Hlen).
  - intros Hlen p H. unfold OpenAIChatCompletionParams.make in *.
    cbn [without_tools r_p_model r_temperature r_max_tokens r_top_p
         r_frequency_penalty r_presence_penalty r_stop r_stream r_best_of r_echo
         r_logprobs r_suffix r_logit_bias r_top_logprobs r_n r_response_format
         r_tools r_tool_choice r_function_call r_seed r_user] in H.
    invert_make H.
    rewrite (tools_field_accepted _ _ Htools Hlen).
    repeat match goal with Hf : _ = Ok _ |- _ => rewrite Hf; clear Hf end.
    reflexivity.
Qed.

Lemma chat_tools_max_length_witness :
  (exists errs,
     OpenAIChatCompletionParams.make (params_with_tools (replicate 65 []))
     = Raise (ValidationError errs) /\ errs <> [])
  /\ OpenAIChatCompletionParams.make (params_with_tools (replicate 64 []))
     = Ok (set_tools
             (OpenAIChatCompletionParams.mk (Some "gpt-4o") (Some 0%Q) None (Some 1%Q)
                (Some 0%Q) (Some 0%Q) None (Some false) None (Some false) None
                (Some 1%Z) None None None None None None)
             (Some (replicate 64 []))).
Proof.
  split.
  - apply (proj1 (chat_tools_max_length (params_with_tools (replicate 65 []))
                    (replicate 65 []) eq_refl)).
    simpl. lia.
  - apply (proj2 (chat_tools_max_length (params_with_tools (replicate 64 []))
                    (replicate 64 []) eq_refl)).
    + simpl. lia.
    + reflexivity.
Defined.

Example chat_tools_65 :
  OpenAIChatCompletionParams.make (params_with_tools (replicate 65 []))
  = Raise (ValidationError [("tools", "too_long")]).
Proof. reflexivity. Qed.

(** ** [None] takes the declared default *)

Lemma field_None {T S} (name : string) (dflt : S) (validate : T -> result S) :
  field name (Some dflt) validate (Present None) = Ok dflt.
Proof. reflexivity. Qed.

Lemma field_none_as_missing {T S} (name : string) (dflt : S)
    (validate : T -> result S) (r : raw T) :
  field name (Some dflt) validate (none_as_missing r)
  = field name (Some dflt) validate r.
Proof. by destruct r as [|[x|]]. Qed.

Lemma raw_any_none_as_missing (r : raw pyval) :
  field "proxies" (Some None) (optional any) (raw_any (none_as_missing r))
  = field "proxies" (Some None) (optional any) (raw_any r).
Proof. by destruct r as [|[[]|]]. Qed.

Ltac none_as_missing_make :=
  intros; cbv delta [OpenAIClientConfig.make OpenAIModelConfig.make
    AzureOpenAIClientConfig.make AzureOpenAIModelConfig.make
    HFInferenceClientConfig.make HFHubModelConfig.make OpenAIParamsBase.make
    OpenAITextCompletionParams.make OpenAIChatCompletionParams.make] beta;
  cbn [config_none_as_missing params_none_as_missing
       r_type r_name r_base_url r_api_key r_organization r_project
       r_azure_ad_token r_api_version r_azure_endpoint r_azure_deployment
       r_azure_client_id r_model r_token r_timeout r_headers r_cookies r_proxies
       r_p_model r_temperature r_max_tokens r_top_p r_frequency_penalty
       r_presence_penalty r_stop r_stream r_best_of r_echo r_logprobs r_suffix
       r_logit_bias r_top_logprobs r_n r_response_format r_tools r_tool_choice
       r_function_call r_seed r_user];
  rewrite ?raw_any_none_as_missing, ?field_none_as_missing; reflexivity.

Lemma PromptyModelConfig_none_as_missing (U : PromptyModelConfig.PydanticUnion)
    (vals : PromptyModelConfig.values) :
  PromptyModelConfig.make (values_none_as_missing vals) = PromptyModelConfig.make vals.
Proof.
  unfold PromptyModelConfig.make, PromptyModelConfig.sync_model_name,
    values_none_as_missing.
  cbn [PromptyModelConfig.v_api PromptyModelConfig.v_configuration
       PromptyModelConfig.v_parameters PromptyModelConfig.v_response].
  destruct (PromptyModelConfig.resolve_configuration _) as [c|e];
    cbn [mbind result_bind]; [|done].
  destruct (PromptyModelConfig.resolve_parameters c _) as [p|e];
    cbn [mbind result_bind]; [|done].
  destruct (if _ : bool then _ else _) as [p'|e]; cbn [mbind result_bind]; [|done].
  cbn [PromptyModelConfig.v_api PromptyModelConfig.v_configuration
       PromptyModelConfig.v_parameters PromptyModelConfig.v_response].
  by rewrite !field_none_as_missing.
Qed.

Lemma openai_base_url_default (d : raw_config) (c : OpenAIClientConfig.t) :
  r_base_url d = Missing \/ r_base_url d = Present None ->
  OpenAIClientConfig.make d = Ok c ->
  OpenAIClientConfig.base_url c = Some OpenAIClientConfig.default_base_url.
Proof.
  intros Hb H. unfold OpenAIClientConfig.make in H. invert_make H. cbn.
  destruct Hb as [Hb|Hb]; rewrite Hb in *; simpl in *; congruence.
Qed.


(** ** [sync_model_name] *)

(** C2 at an Azure configuration: the configuration and the parameters both
    resolve (to [AzureOpenAIModelConfig] and [OpenAIChatCompletionParams]),
    and the construction raises [AttributeError], because
    [configuration.name] is read first and [AzureOpenAIModelConfig] has no
    field [name]; the deployment name is never reached. *)
Theorem sync_model_name_azure_raises (U : PydanticUnion) :
  resolve_configuration (Some (CfgDict azure_mapping))
  = Ok (Some (CfgModel (AzureOpenAI
         (AzureOpenAIModelConfig.mk None None None None (Some "2024-07-01-preview")
            (Some "https://example.openai.azure.com") (Some "gpt-4o-mini") None
            "azure_openai"))))
  /\ is_ok (OpenAIChatCompletionParams.make empty_params) = true
  /\ sync_model_name (values_of azure_mapping)
     = Raise (AttributeError "AzureOpenAIModelConfig" "name")
  /\ PromptyModelConfig.make (values_of azure_mapping)
     = Raise (AttributeError "AzureOpenAIModelConfig" "name").
Proof. repeat split; reflexivity. Qed.

(** The same for every Azure configuration and every parameters value that
    is truthy after resolution. *)
Lemma sync_model_name_azure_always_raises (vals : values)
    (c : AzureOpenAIModelConfig.t) (p : parameters_t) :
  resolve_configuration (get (v_configuration vals))
  = Ok (Some (CfgModel (AzureOpenAI c))) ->
  resolve_parameters (Some (CfgModel (AzureOpenAI c))) (get (v_parameters vals))
  = Ok (Some (ParModel p)) ->
  sync_model_name vals = Raise (AttributeError "AzureOpenAIModelConfig" "name").
Proof. intros Hc Hp. unfold sync_model_name. rewrite Hc. simpl. rewrite Hp. done. Qed.

(** With an OpenAI configuration the name is copied. *)
Example sync_model_name_openai (U : PydanticUnion) :
  model_of <$> (parameters <$> PromptyModelConfig.make (values_of openai_mapping))
  = Ok (Some "gpt-4o-mini").
Proof. reflexivity. Qed.

Lemma sync_model_name_openai_copies (vals vals' : values) (c : OpenAIModelConfig.t) :
  resolve_configuration (get (v_configuration vals))
  = Ok (Some (CfgModel (OpenAI c))) ->
  sync_model_name vals = Ok vals' ->
  get (v_parameters vals') = None
  \/ exists p, get (v_parameters vals') = Some (ParModel p)
               /\ model_of p = Some (OpenAIModelConfig.name c)
               /\ OpenAIModelConfig.name c <> "".
Proof.
  intros Hc. unfold sync_model_name. rewrite Hc. cbn [mbind result_bind].
  destruct (get (v_parameters vals)) as [[d|p]|]; cbn [resolve_parameters].
  - destruct (OpenAIChatCompletionParams.make d) as [q|e]; cbn; [|done].
    case_bool_decide as Hn; cbn; [done|]. intros [= <-]. right.
    eexists. by repeat split.
  - cbn. case_bool_decide as Hn; cbn; [done|].
    destruct p as [q|q]; cbn; intros [= <-]; right; eexists; by repeat split.
  - cbn. intros [= <-]. by left.
Qed.

Lemma resolve_parameters_never_text (configuration : option cfg_value)
    (d : raw_params) (r : option par_value) :
  resolve_parameters configuration (Some (ParDict d)) = Ok r -> is_text r = false.
Proof.
  cbn [resolve_parameters].
  destruct configuration as [[c|[c|c|c]]|]; try (intros [= <-]; reflexivity);
    destruct (OpenAIChatCompletionParams.make d); cbn; try done;
    intros [= <-]; reflexivity.
Qed.

Lemma assign_model_never_text (p p' : par_value) (value : string) :
  is_text (Some p) = false -> assign_model p value = Ok p' -> is_text (Some p') = false.
Proof. destruct p as [d|[q|q]]; try done. intros _ [= <-]. reflexivity. Qed.

Lemma sync_model_name_chat_coercion (vals : values) (cfg : configuration_t)
    (d : raw_params) :
  resolve_configuration (get (v_configuration vals)) = Ok (Some (CfgModel cfg)) ->
  openai_or_azure cfg = true ->
  get (v_parameters vals) = Some (ParDict d) ->
  (forall e, OpenAIChatCompletionParams.make d = Raise e ->
             sync_model_name vals = Raise e)
  /\ (forall vals', sync_model_name vals = Ok vals' ->
                    exists p m,
                      OpenAIChatCompletionParams.make d = Ok p
                      /\ v_configuration vals' = Present (Some (CfgModel cfg))
                      /\ v_parameters vals'
                         = Present (Some (ParModel (ChatCompletion
                             (OpenAIChatCompletionParams.set_model p m))))).
Proof.
  intros Hc Hcfg Hd. unfold sync_model_name. rewrite Hc, Hd.
  cbn [mbind result_bind]. destruct cfg as [c|c|c]; [| |done];
    cbn [resolve_parameters];
    destruct (OpenAIChatCompletionParams.make d) as [p|e0];
    cbn [mbind result_bind cfg_truthy par_truthy andb name_or_deployment];
    (split; [by intros e [= <-]|]); try done.
  case_bool_decide as Hname; cbn [mbind result_bind assign_model]; [done|].
  intros vals' [= <-]. by exists p, (Some (OpenAIModelConfig.name c)).
Qed.

Lemma sync_model_name_mapping_kept (vals vals' : values) (d : raw_params) :
  get (v_parameters vals) = Some (ParDict d) ->
  sync_model_name vals = Ok vals' ->
  (exists cfg, get (v_configuration vals') = Some (CfgModel cfg)
               /\ openai_or_azure cfg = true
               /\ exists p, get (v_parameters vals') = Some (ParModel (ChatCompletion p)))
  \/ get (v_parameters vals') = Some (ParDict d).
Proof.
  intros Hd. unfold sync_model_name. rewrite Hd.
  destruct (resolve_configuration _) as [cfg|e]; cbn [mbind result_bind]; [|done].
  destruct cfg as [[dc|[c|c|c]]|]; cbn [resolve_parameters mbind result_bind].
  - cbn [cfg_truthy par_truthy]. destruct (config_truthy dc && params_truthy d);
      cbn [mbind result_bind name_or_deployment]; [done|].
    intros [= <-]. by right.
  - destruct (OpenAIChatCompletionParams.make d) as [p|e]; cbn [mbind result_bind]; [|done].
    cbn [cfg_truthy par_truthy andb name_or_deployment].
    case_bool_decide; cbn [mbind result_bind assign_model]; [done|].
    intros [= <-]. left. exists (OpenAI c). repeat split. by eexists.
  - destruct (OpenAIChatCompletionParams.make d) as [p|e]; cbn [mbind result_bind]; done.
  - cbn [cfg_truthy par_truthy]. destruct (params_truthy d);
      cbn [andb mbind result_bind name_or_deployment]; [done|].
    intros [= <-]. by right.
  - cbn [cfg_truthy andb mbind result_bind]. intros [= <-]. by right.
Qed.

(** C3: when the configuration resolved to [OpenAIModelConfig] or
    [AzureOpenAIModelConfig], [sync_model_name] passes a parameters mapping
    to [OpenAIChatCompletionParams]: an exception of that constructor is
    the validator's, a validator that returns does so with the chat
    parameters the constructor built (their [model] overwritten), and a
    record that gets constructed holds them.  Whatever the configuration, a
    parameters mapping leaves the pass as chat parameters under an OpenAI
    or Azure configuration or as the same mapping, never as
    [OpenAITextCompletionParams]. *)
Theorem sync_model_name_coerces_to_chat :
  (forall vals cfg d,
     resolve_configuration (get (v_configuration vals)) = Ok (Some (CfgModel cfg)) ->
     openai_or_azure cfg = true ->
     get (v_parameters vals) = Some (ParDict d) ->
     (forall e, OpenAIChatCompletionParams.make d = Raise e ->
                sync_model_name vals = Raise e)
     /\ (forall vals', sync_model_name vals = Ok vals' ->
                       exists p m,
                         OpenAIChatCompletionParams.make d = Ok p
                         /\ v_parameters vals'
                            = Present (Some (ParModel (ChatCompletion
                                (OpenAIChatCompletionParams.set_model p m)))))
     /\ (forall (U : PydanticUnion) r,
           PromptyModelConfig.make vals = Ok r ->
           exists p m,
             OpenAIChatCompletionParams.make d = Ok p
             /\ parameters r
                = ChatCompletion (OpenAIChatCompletionParams.set_model p m)))
  /\ (forall vals vals' d,
        get (v_parameters vals) = Some (ParDict d) ->
        sync_model_name vals = Ok vals' ->
        ((exists cfg, get (v_configuration vals') = Some (CfgModel cfg)
                      /\ openai_or_azure cfg = true
                      /\ exists p, get (v_parameters vals')
                                   = Some (ParModel (ChatCompletion p)))
         \/ get (v_parameters vals') = Some (ParDict d))
        /\ is_text (get (v_parameters vals')) = false).
Proof.
  split.
  - intros vals cfg d Hc Hcfg Hd.
    destruct (sync_model_name_chat_coercion vals cfg d Hc Hcfg Hd) as [Hraise Hok].
    split; [exact Hraise|]. split.
    + intros vals' Hs. destruct (Hok vals' Hs) as (p & m & Hp & _ & Hv). by exists p, m.
    + intros U r. unfold PromptyModelConfig.make.
      destruct (sync_model_name vals) as [vals'|e] eqn:Hs; cbn [mbind result_bind]; [|done].
      destruct (Hok vals' eq_refl) as (p & m & Hp & _ & Hv). rewrite Hv.
      intros H. invert_make H. simpl in Ha0. injection Ha0 as <-.
      by exists p, m.
  - intros vals vals' d Hd Hs.
    pose proof (sync_model_name_mapping_kept vals vals' d Hd Hs) as Hkept.
    split; [exact Hkept|].
    destruct Hkept as [(cfg & _ & _ & p & ->) | ->]; reflexivity.
Qed.

Lemma sync_model_name_coerces_to_chat_witness :
  get (v_parameters (values_with_model "gpt-3.5-turbo"))
  = Some (ParDict (with_model empty_params "gpt-3.5-turbo"))
  /\ exists r p m,
       @PromptyModelConfig.make left_to_right (values_with_model "gpt-3.5-turbo") = Ok r
       /\ OpenAIChatCompletionParams.make (with_model empty_params "gpt-3.5-turbo") = Ok p
       /\ parameters r = ChatCompletion (OpenAIChatCompletionParams.set_model p m).
Proof.
  split; [reflexivity|].
  destruct (@PromptyModelConfig.make left_to_right (values_with_model "gpt-3.5-turbo"))
    as [r|e] eqn:Hr; [|discriminate Hr].
  destruct (proj2 (proj2 (proj1 sync_model_name_coerces_to_chat
                            (values_with_model "gpt-3.5-turbo") _ _
                            eq_refl eq_refl eq_refl))
              left_to_right r Hr) as (p & m & Hp & Hpar).
  by exists r, p, m.
Defined.

(** ** Round trip through [model_dump()] *)

Lemma any_dumps_back {T} : dumps_back (@any T) id.
Proof. by intros x y [= <-]. Qed.

Lemma str_only_dumps_back name : dumps_back (str_only name) inl.
Proof. by intros [s|b] y; [intros [= <-]|]. Qed.

Lemma literal_dumps_back name allowed : dumps_back (literal name allowed) id.
Proof.
  intros x y. unfold literal. case_bool_decide as Hx; [|done].
  intros [= <-]. simpl. by rewrite bool_decide_true.
Qed.

Lemma float_range_dumps_back name lo hi : dumps_back (float_range name lo hi) id.
Proof.
  intros x y. unfold float_range.
  destruct (Qle_bool x hi) eqn:Hhi; simpl; [|done].
  destruct (Qle_bool lo x) eqn:Hlo; simpl; [|done].
  intros [= <-]. simpl. by rewrite Hhi, Hlo.
Qed.

Lemma int_range_dumps_back name lo hi : dumps_back (int_range name lo hi) id.
Proof.
  intros x y. unfold int_range.
  destruct (from_option _ false hi) eqn:Hhi; [done|].
  destruct (from_option _ false lo) eqn:Hlo; [done|].
  intros [= <-]. simpl. by rewrite Hhi, Hlo.
Qed.

Lemma lax_int_range_dumps_back name lo hi :
  dumps_back (fun x => int_range name lo hi (lax_int x)) inl.
Proof.
  intros x y Hx. simpl. pose proof Hx as Hy. revert Hx. unfold int_range.
  destruct (from_option _ false hi); [done|].
  destruct (from_option _ false lo); [done|].
  intros [= Heq]. rewrite Heq in Hy. exact Hy.
Qed.

Lemma lax_bool_dumps_back name : dumps_back (lax_bool name) inr.
Proof.
  intros [z|b] y Hx; simpl.
  - by destruct z as [|[]|]; simplify_eq/=.
  - by simplify_eq/=.
Qed.

Lemma max_length_dumps_back {T} name n : dumps_back (@max_length T name n) id.
Proof.
  intros x y. unfold max_length. destruct (Nat.ltb n (length x)) eqn:Hn; [done|].
  intros [= <-]. simpl. by rewrite Hn.
Qed.

Lemma response_format_type_dumps_back :
  dumps_back OpenAIChatCompletionParams.response_format_type id.
Proof.
  intros x y. unfold OpenAIChatCompletionParams.response_format_type.
  case_bool_decide as Hx; [|done]. intros [= <-]. simpl. by rewrite bool_decide_true.
Qed.

Create HintDb roundtrip discriminated.
#[export] Hint Resolve any_dumps_back str_only_dumps_back literal_dumps_back
  float_range_dumps_back int_range_dumps_back lax_int_range_dumps_back
  lax_bool_dumps_back max_length_dumps_back response_format_type_dumps_back
  : roundtrip.

(** An [Optional] field with a default. *)
Lemma optional_field_round_trip {T S} (name : string) (dflt : option S)
    (validate : T -> result S) (f : S -> T) (r : raw T) (v : option S) :
  field name (Some dflt) (optional validate) r = Ok v ->
  dumps_back validate f ->
  (forall d0, dflt = Some d0 -> validate (f d0) = Ok d0) ->
  field name (Some dflt) (optional validate) (dump_opt f v) = Ok v.
Proof.
  intros Hf Hback Hdflt.
  assert (Hv : forall y, v = Some y -> validate (f y) = Ok y).
  { intros y ->. destruct r as [|[x|]]; simpl in Hf.
    - injection Hf as ->. by apply Hdflt.
    - unfold optional in Hf. destruct (validate x) as [y'|] eqn:Hx; [|done].
      injection Hf as ->. by eapply Hback.
    - injection Hf as ->. by apply Hdflt. }
  destruct v as [y|]; simpl.
  - unfold optional. by rewrite (Hv y eq_refl).
  - destruct r as [|[x|]]; simpl in Hf.
    + by injection Hf as ->.
    + unfold optional in Hf. by destruct (validate x).
    + by injection Hf as ->.
Qed.

(** An [Optional] field without a default. *)
Lemma required_field_round_trip {T} (name : string) (r : raw T) (v : option T) :
  field name None (optional any) r = Ok v ->
  field name None (optional any) (dump_opt id v) = Ok v.
Proof. destruct r as [|[x|]]; simpl; try done. by intros [= <-]. Qed.

(** A field that is not [Optional], with a default. *)
Lemma plain_field_round_trip {T} (name : string) (dflt : T)
    (validate : T -> result T) (r : raw T) (v : T) :
  field name (Some dflt) validate r = Ok v ->
  dumps_back validate id ->
  validate dflt = Ok dflt ->
  field name (Some dflt) validate (Present (Some v)) = Ok v.
Proof.
  intros Hf Hback Hdflt. destruct r as [|[x|]]; simpl in *.
  - by injection Hf as <-.
  - by eapply (Hback x).
  - by injection Hf as <-.
Qed.

(** A value without model instances is its own dump. *)
Lemma dump_any_no_model (v : pyval) : no_model v = true -> dump_any v = v.
Proof.
  revert v. fix IH 1.
  intros [| b | z | s | xs | kvs | kvs]; cbn [no_model dump_any]; try done.
  - intros H. f_equal. induction xs as [|x xs IHxs]; [done|].
    apply andb_true_iff in H as [Hx Hxs]. by rewrite (IH x Hx), (IHxs Hxs).
  - intros H. f_equal. induction kvs as [|[k x] kvs IHk]; [done|].
    apply andb_true_iff in H as [Hx Hk]. by rewrite (IH x Hx), (IHk Hk).
Qed.

Lemma dump_any_PDict (d : pydict) : dump_any (PDict d) = PDict (dump_dict d).
Proof.
  unfold dump_dict. cbn [dump_any]. f_equal.
  induction d as [|[k x] d IH]; [done|]. cbn [map fst snd]. by rewrite IH.
Qed.

Lemma dump_dict_no_model (d : pydict) : dict_no_model d = true -> dump_dict d = d.
Proof.
  intros H. apply dump_any_no_model in H. rewrite dump_any_PDict in H. by injection H.
Qed.

Lemma dump_opt_any_no_model (v : option pyval) :
  from_option no_model true v = true -> dump_opt dump_any v = dump_opt id v.
Proof.
  destruct v as [x|]; [|done]. intros H. unfold dump_opt.
  cbn [fmap option_fmap option_map]. by rewrite (dump_any_no_model x H).
Qed.

Lemma dump_opt_dict_no_model (v : option pydict) :
  from_option dict_no_model true v = true -> dump_opt dump_dict v = dump_opt id v.
Proof.
  destruct v as [x|]; [|done]. intros H. unfold dump_opt.
  cbn [fmap option_fmap option_map]. by rewrite (dump_dict_no_model x H).
Qed.

Lemma dump_opt_tools_no_model (v : option (list pydict)) :
  from_option (forallb dict_no_model) true v = true ->
  dump_opt (map dump_dict) v = dump_opt id v.
Proof.
  destruct v as [l|]; [|done]. intros H. unfold dump_opt.
  cbn [fmap option_fmap option_map from_option id] in *. do 2 f_equal.
  induction l as [|d l IH]; [done|]. cbn [forallb map] in *.
  apply andb_true_iff in H as [Hd Hl]. by rewrite (dump_dict_no_model d Hd), (IH Hl).
Qed.

Lemma dump_opt_choice_no_model (v : option (string + pydict)) :
  from_option OpenAIChatCompletionParams.choice_no_model true v = true ->
  dump_opt (sum_map id dump_dict) v = dump_opt id v.
Proof.
  destruct v as [[x|d]|]; try done. intros H. unfold dump_opt.
  cbn [fmap option_fmap option_map sum_map]. by rewrite (dump_dict_no_model d H).
Qed.

Lemma proxies_round_trip (r : raw pyval) (v : option pyval) :
  field "proxies" (Some None) (optional any) (raw_any r) = Ok v ->
  field "proxies" (Some None) (optional any) (raw_any (dump_opt id v)) = Ok v.
Proof. destruct r as [|[[]|]]; simpl; intros [= <-]; reflexivity. Qed.

Ltac default_valid :=
  let d0 := fresh in let H := fresh in
  intros d0 H; first [discriminate H | injection H as <-; reflexivity].

Ltac round_trip_fields :=
  cbn -[field dump_opt ap raw_any];
  repeat first
    [ erewrite proxies_round_trip by eassumption
    | erewrite required_field_round_trip by eassumption
    | erewrite optional_field_round_trip;
        [ | eassumption | solve [auto with roundtrip] | default_valid ]
    | erewrite plain_field_round_trip;
        [ | eassumption | solve [auto with roundtrip] | reflexivity ] ];
  reflexivity.

Lemma OpenAIClientConfig_round_trip d c :
  OpenAIClientConfig.make d = Ok c ->
  OpenAIClientConfig.make (OpenAIClientConfig.dump c) = Ok c.
Proof.
  unfold OpenAIClientConfig.make. intros H. invert_make H. round_trip_fields.
Qed.

Lemma OpenAIModelConfig_round_trip d c :
  OpenAIModelConfig.make d = Ok c ->
  OpenAIModelConfig.make (OpenAIModelConfig.dump c) = Ok c.
Proof.
  unfold OpenAIModelConfig.make. intros H. invert_make H. round_trip_fields.
Qed.

Lemma AzureOpenAIClientConfig_round_trip d c :
  AzureOpenAIClientConfig.make d = Ok c ->
  AzureOpenAIClientConfig.make (AzureOpenAIClientConfig.dump c) = Ok c.
Proof.
  unfold AzureOpenAIClientConfig.make. intros H. invert_make H. round_trip_fields.
Qed.

Lemma AzureOpenAIModelConfig_round_trip d c :
  AzureOpenAIModelConfig.make d = Ok c ->
  AzureOpenAIModelConfig.make (AzureOpenAIModelConfig.dump c) = Ok c.
Proof.
  unfold AzureOpenAIModelConfig.make. intros H. invert_make H. round_trip_fields.
Qed.

Lemma HFInferenceClientConfig_round_trip d c :
  HFInferenceClientConfig.make d = Ok c ->
  HFInferenceClientConfig.no_models c = true ->
  HFInferenceClientConfig.make (HFInferenceClientConfig.dump c) = Ok c.
Proof.
  unfold HFInferenceClientConfig.make. intros H. invert_make H.
  unfold HFInferenceClientConfig.no_models. cbn -[field dump_opt ap raw_any].
  intros Hno. rewrite (dump_opt_any_no_model _ Hno). round_trip_fields.
Qed.

Lemma HFHubModelConfig_round_trip d c :
  HFHubModelConfig.make d = Ok c ->
  HFHubModelConfig.no_models c = true ->
  HFHubModelConfig.make (HFHubModelConfig.dump c) = Ok c.
Proof.
  unfold HFHubModelConfig.make. intros H. invert_make H.
  unfold HFHubModelConfig.no_models. cbn -[field dump_opt ap raw_any].
  intros Hno. rewrite (dump_opt_any_no_model _ Hno). round_trip_fields.
Qed.

Lemma OpenAIParamsBase_round_trip d p :
  OpenAIParamsBase.make d = Ok p ->
  OpenAIParamsBase.make (OpenAIParamsBase.dump p) = Ok p.
Proof.
  unfold OpenAIParamsBase.make. intros H. invert_make H. round_trip_fields.
Qed.

Lemma OpenAITextCompletionParams_round_trip d p :
  OpenAITextCompletionParams.make d = Ok p ->
  OpenAITextCompletionParams.make (OpenAITextCompletionParams.dump p) = Ok p.
Proof.
  unfold OpenAITextCompletionParams.make. intros H. invert_make H. round_trip_fields.
Qed.

Lemma OpenAIChatCompletionParams_round_trip d p :
  OpenAIChatCompletionParams.make d = Ok p ->
  OpenAIChatCompletionParams.no_models p = true ->
  OpenAIChatCompletionParams.make (OpenAIChatCompletionParams.dump p) = Ok p.
Proof.
  unfold OpenAIChatCompletionParams.make. intros H. invert_make H.
  unfold OpenAIChatCompletionParams.no_models. cbn -[field dump_opt ap raw_any].
  intros Hno. apply andb_true_iff in Hno as [Hno Hfc].
  apply andb_true_iff in Hno as [Htools Htc].
  rewrite (dump_opt_tools_no_model _ Htools), (dump_opt_choice_no_model _ Htc),
    (dump_opt_choice_no_model _ Hfc).
  round_trip_fields.
Qed.

Lemma chat_make_with_model d p m :
  OpenAIChatCompletionParams.make d = Ok p ->
  OpenAIChatCompletionParams.make (with_model d m)
  = Ok (OpenAIChatCompletionParams.set_model p (Some m)).
Proof.
  unfold OpenAIChatCompletionParams.make. intros H. invert_make H.
  cbn -[field ap].
  repeat match goal with Hf : _ = Ok _ |- _ => rewrite ?Hf; clear Hf end.
  reflexivity.
Qed.

Lemma chat_set_model_round_trip d p m :
  OpenAIChatCompletionParams.make d = Ok p ->
  OpenAIChatCompletionParams.no_models p = true ->
  OpenAIChatCompletionParams.make
    (OpenAIChatCompletionParams.dump (OpenAIChatCompletionParams.set_model p (Some m)))
  = Ok (OpenAIChatCompletionParams.set_model p (Some m)).
Proof.
  intros H Hno. eapply OpenAIChatCompletionParams_round_trip.
  - eapply chat_make_with_model, H.
  - by destruct p.
Qed.

Lemma OpenAIModelConfig_type d c :
  OpenAIModelConfig.make d = Ok c -> OpenAIModelConfig.type c = "openai".
Proof.
  unfold OpenAIModelConfig.make. intros H. invert_make H. cbn.
  destruct (r_type d) as [|[x|]]; simpl in *; try congruence.
  unfold literal in *. case_bool_decide as Hx; [|done].
  apply list_elem_of_singleton in Hx. congruence.
Qed.

Lemma chat_set_model_same p :
  OpenAIChatCompletionParams.set_model p (OpenAIChatCompletionParams.model p) = p.
Proof. by destruct p. Qed.

(** A record as [sync_model_name] leaves it under an OpenAI configuration:
    chat parameters whose [model] is the configuration's name. *)
Lemma PromptyModelConfig_round_trip_synced (U : PydanticUnion) (r : t)
    (c : OpenAIModelConfig.t) (p : OpenAIChatCompletionParams.t) :
  configuration r = OpenAI c ->
  parameters r = ChatCompletion p ->
  OpenAIModelConfig.make (OpenAIModelConfig.dump c) = Ok c ->
  OpenAIChatCompletionParams.make (OpenAIChatCompletionParams.dump p) = Ok p ->
  OpenAIModelConfig.name c <> "" ->
  OpenAIChatCompletionParams.model p = Some (OpenAIModelConfig.name c) ->
  api r ∈ ["chat"; "completion"] ->
  PromptyModelConfig.make (dump r) = Ok r.
Proof.
  destruct r as [api0 cfg par resp]. cbn [configuration parameters api].
  intros -> -> Hc Hp Hname Hmodel Hapi.
  pose proof (OpenAIModelConfig_type _ _ Hc) as Htype.
  unfold PromptyModelConfig.make, dump, sync_model_name.
  cbn [get v_configuration v_parameters v_api v_response dump_configuration
       dump_parameters configuration parameters api response resolve_configuration].
  replace (r_type (OpenAIModelConfig.dump c)) with (Present (Some "openai"))
    by (by rewrite <- Htype).
  rewrite bool_decide_true by done. rewrite Hc.
  cbn [mbind result_bind resolve_parameters]. rewrite Hp.
  cbn [mbind result_bind cfg_truthy par_truthy andb name_or_deployment].
  rewrite bool_decide_false by done.
  cbn [mbind result_bind assign_model]. rewrite <- Hmodel, chat_set_model_same.
  cbn [v_api v_configuration v_parameters v_response].
  cbn [field none_to_default validate_configuration validate_parameters any].
  unfold literal. rewrite bool_decide_true by done. reflexivity.
Qed.

Lemma api_field_allowed (r : raw string) (a : string) :
  field "api" (Some "chat") (literal "api" ["chat"; "completion"]) r = Ok a ->
  a ∈ ["chat"; "completion"].
Proof.
  destruct r as [|[x|]]; simpl; try (intros [= <-]; set_solver).
  unfold literal. case_bool_decide as Hx; [|done]. by intros [= <-].
Qed.

(** A record constructed from mappings, the configuration one of type
    ["openai"]. *)
Lemma PromptyModelConfig_round_trip_mappings (U : PydanticUnion) (vals : values)
    (r : t) (dc : raw_config) (dp : raw_params) :
  get (v_configuration vals) = Some (CfgDict dc) ->
  get (r_type dc) = Some "openai" ->
  get (v_parameters vals) = Some (ParDict dp) ->
  PromptyModelConfig.make vals = Ok r ->
  parameters_no_models (parameters r) = true ->
  PromptyModelConfig.make (dump r) = Ok r.
Proof.
  intros Hcfg Htype Hpar. unfold PromptyModelConfig.make at 1, sync_model_name.
  rewrite Hcfg, Hpar. cbn [resolve_configuration].
  rewrite bool_decide_true by done.
  destruct (OpenAIModelConfig.make dc) as [c|e] eqn:Hc; cbn [mbind result_bind]; [|done].
  cbn [resolve_parameters].
  destruct (OpenAIChatCompletionParams.make dp) as [p|e] eqn:Hp;
    cbn [mbind result_bind]; [|done].
  cbn [cfg_truthy par_truthy andb name_or_deployment].
  case_bool_decide as Hname; cbn [mbind result_bind assign_model]; [done|].
  cbn [v_api v_configuration v_parameters v_response].
  intros H. invert_make H. simpl in Ha0, Ha1. injection Ha0 as <-. injection Ha1 as <-.
  cbn [parameters parameters_no_models]. intros Hno.
  apply (PromptyModelConfig_round_trip_synced U _ c
           (OpenAIChatCompletionParams.set_model p (Some (OpenAIModelConfig.name c))));
    cbn [configuration parameters api].
  - reflexivity.
  - reflexivity.
  - eapply OpenAIModelConfig_round_trip, Hc.
  - eapply chat_set_model_round_trip; [exact Hp|by destruct p].
  - exact Hname.
  - by destruct p.
  - eapply api_field_allowed. eassumption.
Qed.

(** C8 as stated fails for [PromptyModelConfig]: text-completion parameters
    come back from their own dump as chat-completion parameters. *)
Lemma PromptyModelConfig_round_trip_fails :
  ~ (forall vals r,
       @PromptyModelConfig.make left_to_right vals = Ok r ->
       @PromptyModelConfig.make left_to_right (dump r) = Ok r).
Proof.
  intros H.
  specialize (H completion_values
                (mk "completion" (OpenAI default_openai)
                    (TextCompletion default_text) "first") eq_refl).
  vm_compute in H. discriminate H.
Qed.

(** C8, as the code has it: every client configuration, model configuration
    and parameter set that was constructed is constructed again, equal, from
    its own dump, provided the values it holds behind an [Any] annotation
    ([proxies]; the values of [tools], [tool_choice], [function_call])
    hold no model instance, which the dump would turn into a dictionary; a
    [PromptyModelConfig] is, under the same proviso, when it was
    constructed from a configuration mapping of type ["openai"] and a
    parameters mapping, and more generally whenever its configuration is a
    valid [OpenAIModelConfig] with a name and its parameters are valid chat
    parameters whose [model] is that name. *)
Theorem model_dump_round_trip :
  (forall d c, OpenAIClientConfig.make d = Ok c ->
               OpenAIClientConfig.make (OpenAIClientConfig.dump c) = Ok c)
  /\ (forall d c, OpenAIModelConfig.make d = Ok c ->
                  OpenAIModelConfig.make (OpenAIModelConfig.dump c) = Ok c)
  /\ (forall d c, AzureOpenAIClientConfig.make d = Ok c ->
                  AzureOpenAIClientConfig.make (AzureOpenAIClientConfig.dump c) = Ok c)
  /\ (forall d c, AzureOpenAIModelConfig.make d = Ok c ->
                  AzureOpenAIModelConfig.make (AzureOpenAIModelConfig.dump c) = Ok c)
  /\ (forall d c, HFInferenceClientConfig.make d = Ok c ->
                  HFInferenceClientConfig.no_models c = true ->
                  HFInferenceClientConfig.make (HFInferenceClientConfig.dump c) = Ok c)
  /\ (forall d c, HFHubModelConfig.make d = Ok c ->
                  HFHubModelConfig.no_models c = true ->
                  HFHubModelConfig.make (HFHubModelConfig.dump c) = Ok c)
  /\ (forall d p, OpenAIParamsBase.make d = Ok p ->
                  OpenAIParamsBase.make (OpenAIParamsBase.dump p) = Ok p)
  /\ (forall d p, OpenAITextCompletionParams.make d = Ok p ->
                  OpenAITextCompletionParams.make (OpenAITextCompletionParams.dump p)
                  = Ok p)
  /\ (forall d p, OpenAIChatCompletionParams.make d = Ok p ->
                  OpenAIChatCompletionParams.no_models p = true ->
                  OpenAIChatCompletionParams.make (OpenAIChatCompletionParams.dump p)
                  = Ok p)
  /\ (forall (U : PydanticUnion) vals r dc dp,
        get (v_configuration vals) = Some (CfgDict dc) ->
        get (r_type dc) = Some "openai" ->
        get (v_parameters vals) = Some (ParDict dp) ->
        PromptyModelConfig.make vals = Ok r ->
        parameters_no_models (parameters r) = true ->
        PromptyModelConfig.make (dump r) = Ok r)
  /\ (forall (U : PydanticUnion) r c p,
        configuration r = OpenAI c ->
        parameters r = ChatCompletion p ->
        OpenAIModelConfig.make (OpenAIModelConfig.dump c) = Ok c ->
        OpenAIChatCompletionParams.make (OpenAIChatCompletionParams.dump p) = Ok p ->
        OpenAIModelConfig.name c <> "" ->
        OpenAIChatCompletionParams.model p = Some (OpenAIModelConfig.name c) ->
        api r ∈ ["chat"; "completion"] ->
        PromptyModelConfig.make (dump r) = Ok r).
Proof.
  split; [exact OpenAIClientConfig_round_trip|].
  split; [exact OpenAIModelConfig_round_trip|].
  split; [exact AzureOpenAIClientConfig_round_trip|].
  split; [exact AzureOpenAIModelConfig_round_trip|].
  split; [exact HFInferenceClientConfig_round_trip|].
  split; [exact HFHubModelConfig_round_trip|].
  split; [exact OpenAIParamsBase_round_trip|].
  split; [exact OpenAITextCompletionParams_round_trip|].
  split; [exact OpenAIChatCompletionParams_round_trip|].
  split; [exact PromptyModelConfig_round_trip_mappings|].
  exact PromptyModelConfig_round_trip_synced.
Qed.

Lemma model_dump_round_trip_witness :
  (exists p,
     OpenAIChatCompletionParams.make (params_with_tools [sample_tool_mapping]) = Ok p
     /\ OpenAIChatCompletionParams.no_models p = true
     /\ OpenAIChatCompletionParams.make (OpenAIChatCompletionParams.dump p) = Ok p)
  /\ (exists c,
        HFHubModelConfig.make hf_mapping = Ok c
        /\ HFHubModelConfig.no_models c = true
        /\ HFHubModelConfig.make (HFHubModelConfig.dump c) = Ok c)
  /\ (exists r,
        @PromptyModelConfig.make left_to_right (values_with_tools [sample_tool_mapping])
        = Ok r
        /\ parameters_no_models (parameters r) = true
        /\ @PromptyModelConfig.make left_to_right (dump r) = Ok r).
Proof.
  split; [|split].
  - eexists. split; [reflexivity|]. split; [reflexivity|].
    apply (proj1 (proj2 (proj2 (proj2 (proj2 (proj2 (proj2 (proj2 (proj2
             model_dump_round_trip))))))))
             (params_with_tools [sample_tool_mapping])); reflexivity.
  - eexists. split; [reflexivity|]. split; [reflexivity|].
    apply (proj1 (proj2 (proj2 (proj2 (proj2 (proj2 model_dump_round_trip)))))
             hf_mapping); reflexivity.
  - eexists. split; [reflexivity|]. split; [reflexivity|].
    apply (proj1 (proj2 (proj2 (proj2 (proj2 (proj2 (proj2 (proj2 (proj2 (proj2
             model_dump_round_trip)))))))))
             left_to_right (values_with_tools [sample_tool_mapping]) _
             openai_mapping (params_with_tools [sample_tool_mapping]));
      reflexivity.
Defined.

(** Why the proviso: a model instance held in [proxies] comes back from the
    dump as a dictionary, so the second record differs from the first. *)
Example HFHubModelConfig_round_trip_model_instance :
  exists c,
    HFHubModelConfig.make hf_mapping_with_instance = Ok c
    /\ HFHubModelConfig.no_models c = false
    /\ HFHubModelConfig.make (HFHubModelConfig.dump c) <> Ok c.
Proof.
  eexists. split; [reflexivity|]. split; [reflexivity|].
  vm_compute. intros H. discriminate H.
Qed.

(** ** Further properties of the normaliser *)

Lemma flatten_PList (xs : list pyval) : flatten (PList xs) = flatten_queue xs.
Proof.
  unfold flatten_queue. simpl. induction xs as [|x xs IH]; [done|].
  simpl. by rewrite IH.
Qed.

Lemma flatten_leaf (v : pyval) : is_leaf v = true -> flatten v = [v].
Proof. by destruct v. Qed.

Lemma flatten_queue_cons (v : pyval) (q : list pyval) :
  flatten_queue (v :: q) = (flatten v ++ flatten_queue q)%list.
Proof. reflexivity. Qed.

Lemma flatten_queue_app (q1 q2 : list pyval) :
  flatten_queue (q1 ++ q2) = (flatten_queue q1 ++ flatten_queue q2)%list.
Proof.
  induction q1 as [|v q1 IH]; [done|].
  cbn [app]. rewrite !flatten_queue_cons, IH. by rewrite app_assoc.
Qed.

Lemma flatten_queue_leaves (q : list pyval) :
  Forall (fun v => is_leaf v = true) q -> flatten_queue q = q.
Proof.
  induction 1 as [|v q Hv _ IH]; [done|].
  by rewrite flatten_queue_cons, flatten_leaf, IH.
Qed.

(** One level of the queue against the depth-first order. *)
Lemma flatten_queue_level (q : list pyval) :
  flatten_queue q ≡ₚ (leaves q ++ flatten_queue (children q))%list.
Proof.
  induction q as [|v q IH]; [done|]. destruct (is_leaf v) eqn:Hv.
  - rewrite leaves_cons_leaf, children_cons_leaf, flatten_queue_cons by done.
    rewrite flatten_leaf by done. cbn [app]. by rewrite IH.
  - destruct v; try done. rewrite leaves_cons_PList. cbn [children].
    rewrite flatten_queue_cons, flatten_PList, flatten_queue_app, IH.
    rewrite !app_assoc. f_equiv. apply Permutation_app_comm.
Qed.

Lemma bfs_flatten (depth : nat) (q : list pyval) :
  work_queue q <= depth -> bfs depth q ≡ₚ flatten_queue q.
Proof.
  revert q. induction depth as [|depth IH]; intros q Hle.
  - destruct q as [|v q]; [done|]. rewrite work_queue_cons in Hle.
    pose proof (work_pos v). lia.
  - cbn [bfs]. rewrite flatten_queue_level. f_equiv. apply IH.
    destruct q as [|v q]; [simpl; lia|].
    pose proof (work_children (v :: q)) as Hc. cbn [length] in Hc. lia.
Qed.

Lemma level_order_flatten (messages : pyval) :
  level_order messages ≡ₚ flatten messages.
Proof.
  unfold level_order. rewrite bfs_flatten.
  - rewrite flatten_queue_cons. simpl. by rewrite app_nil_r.
  - rewrite work_queue_cons. simpl. lia.
Qed.

(** [convert_all] returns exactly when every value converts, and then it
    returns the conversions in order. *)
Lemma convert_all_Ok (vs : list pyval) (out : list pydict) :
  convert_all vs = Ok out
  <-> Forall (fun v => is_ok (convert v) = true) vs /\ out = map converted vs.
Proof.
  revert out. induction vs as [|v vs IH]; intros out; cbn [convert_all map].
  - split; [intros [= <-]; by split|intros [_ ->]; done].
  - unfold converted at 1. destruct (convert v) as [m|e] eqn:Hv.
    + destruct (convert_all vs) as [ms|e] eqn:Hvs.
      * destruct (proj1 (IH ms) eq_refl) as [Hall ->].
        split.
        -- intros Heq. injection Heq as <-. split; [|done].
           constructor; [by rewrite Hv|done].
        -- intros [_ Heq]. by rewrite Heq.
      * split; [intros Heq; discriminate Heq|].
        intros [Hall _]. inversion Hall as [|? ? _ Hall']; subst.
        pose proof (proj2 (IH (map converted vs)) (conj Hall' eq_refl)) as Heq.
        discriminate Heq.
    + split; [intros Heq; discriminate Heq|].
      intros [Hall _]. inversion Hall as [|? ? Hv' _]; subst.
      rewrite Hv in Hv'. discriminate Hv'.
Qed.

Lemma convert_all_app_Ok (xs ys : list pyval) (a b : list pydict) :
  convert_all xs = Ok a -> convert_all ys = Ok b ->
  convert_all (xs ++ ys) = Ok (a ++ b)%list.
Proof.
  rewrite !convert_all_Ok. intros [Hx ->] [Hy ->]. split.
  - by apply Forall_app.
  - by rewrite map_app.
Qed.

Lemma convert_all_app (xs ys : list pyval) :
  convert_all (xs ++ ys)
  = match convert_all xs with
    | Raise e => Raise e
    | Ok a =>
      match convert_all ys with
      | Raise e => Raise e
      | Ok b => Ok (a ++ b)%list
      end
    end.
Proof.
  induction xs as [|v xs IH]; cbn [app convert_all].
  - by destruct (convert_all ys).
  - destruct (convert v) as [m|e]; [|done]. rewrite IH.
    destruct (convert_all xs) as [a|e]; [|done].
    by destruct (convert_all ys).
Qed.

Lemma convert_all_first_error (pre post : list pyval) (v : pyval) (e : exn) :
  Forall (fun v => is_ok (convert v) = true) pre ->
  convert v = Raise e ->
  convert_all (pre ++ v :: post) = Raise e.
Proof.
  intros Hpre Hv. rewrite convert_all_app.
  rewrite (proj2 (convert_all_Ok pre _) (conj Hpre eq_refl)).
  cbn [convert_all]. by rewrite Hv.
Qed.

(** When several values of the input are unacceptable, the exception is that
    of the first unacceptable value in level order: the values before it
    have been accepted, and nothing is returned. *)
Theorem normalize_chat_messages_first_error (messages : pyval)
    (pre post : list pyval) (v : pyval) (e : exn) :
  level_order messages = (pre ++ v :: post)%list ->
  Forall (fun v => is_ok (convert v) = true) pre ->
  convert v = Raise e ->
  normalize_chat_messages messages = Some (Raise e).
Proof.
  intros Hlo Hpre Hv. rewrite normalize_chat_messages_closed_form, Hlo.
  by rewrite (convert_all_first_error pre post v e).
Qed.

Lemma normalize_chat_messages_first_error_witness :
  level_order (PList [PStr "a"; PList [PInt 1]; PDict [("role", PStr "bogus")]])
  = ([PStr "a"] ++ PDict [("role", PStr "bogus")] :: [PInt 1])%list
  /\ normalize_chat_messages
       (PList [PStr "a"; PList [PInt 1]; PDict [("role", PStr "bogus")]])
     = Some (Raise (ValueError_role (PStr "bogus"))).
Proof.
  split; [reflexivity|].
  apply (normalize_chat_messages_first_error _ [PStr "a"] [PInt 1]
           (PDict [("role", PStr "bogus")])).
  - reflexivity.
  - repeat constructor.
  - reflexivity.
Defined.

(** The function returns a list exactly when every value of the nested
    input that is not a sequence is acceptable, wherever it is nested. *)
Theorem normalize_chat_messages_returns_iff (messages : pyval) :
  (exists out, normalize_chat_messages messages = Some (Ok out))
  <-> Forall (fun v => is_ok (convert v) = true) (flatten messages).
Proof.
  rewrite normalize_chat_messages_closed_form. split.
  - intros [out [= Hout]]. apply convert_all_Ok in Hout as [Hall _].
    eapply Permutation_Forall; [apply level_order_flatten|exact Hall].
  - intros Hall. exists (map converted (level_order messages)). f_equal.
    apply convert_all_Ok. split; [|done].
    eapply Permutation_Forall; [symmetry; apply level_order_flatten|exact Hall].
Qed.

(** A returned list holds one message per value of the nested input that is
    not a sequence: it is a rearrangement of the left-to-right flattening,
    with nothing dropped and nothing repeated. *)
Theorem normalize_chat_messages_permutation (messages : pyval) (out : list pydict) :
  normalize_chat_messages messages = Some (Ok out) ->
  out ≡ₚ map converted (flatten messages)
  /\ length out = length (flatten messages).
Proof.
  rewrite normalize_chat_messages_closed_form. intros [= Hout].
  apply convert_all_Ok in Hout as [_ ->].
  assert (Hp : map converted (level_order messages)
               ≡ₚ map converted (flatten messages)).
  { apply Permutation_map, level_order_flatten. }
  split; [exact Hp|].
  rewrite (Permutation_length Hp). apply length_map.
Qed.

Lemma normalize_chat_messages_permutation_witness :
  normalize_chat_messages (PList [PStr "a"; PList [PStr "b"]; PStr "c"])
  = Some (Ok [converted (PStr "a"); converted (PStr "c"); converted (PStr "b")])
  /\ [converted (PStr "a"); converted (PStr "c"); converted (PStr "b")]
     ≡ₚ map converted (flatten (PList [PStr "a"; PList [PStr "b"]; PStr "c"])).
Proof.
  split; [reflexivity|].
  apply (normalize_chat_messages_permutation
           (PList [PStr "a"; PList [PStr "b"]; PStr "c"])).
  reflexivity.
Defined.

Lemma run_tail_nested (xs : list pyval) (out : list pydict) :
  tail_nested xs ->
  run (mkState xs out)
  = Some (match convert_all (flatten_queue xs) with
          | Ok ms => Ok (out ++ ms)%list
          | Raise e => Raise e
          end).
Proof.
  intros Hxs. revert out. induction Hxs as [xs Hxs|xs ys Hxs _ IH]; intros out.
  - rewrite flatten_queue_leaves by done.
    rewrite <- (app_nil_r xs) at 1. rewrite run_prefix.
    pose proof (children_leaves xs) as Hc. rewrite (leaves_all xs Hxs) in *.
    rewrite Hc. destruct (convert_all xs) as [ms|e]; [|done].
    rewrite run_step. reflexivity.
  - rewrite flatten_queue_app, flatten_queue_cons, flatten_PList.
    rewrite (flatten_queue_leaves xs) by done. cbn [flatten_queue foldr].
    rewrite app_nil_r, convert_all_app, run_prefix.
    pose proof (children_leaves xs) as Hc. rewrite (leaves_all xs Hxs) in *.
    rewrite Hc. destruct (convert_all xs) as [ms|e]; [|done].
    rewrite app_nil_r, run_step. cbn [step queue normalized_messages app].
    rewrite IH. destruct (convert_all (flatten_queue ys)) as [ms'|e]; [|done].
    by rewrite app_assoc.
Qed.

(** The order of the flattened input is kept when nesting occurs only at the
    end: in a sequence whose values that are not sequences come first,
    followed by at most one sequence of the same shape, the output is the
    left-to-right conversion of the flattened input. *)
Theorem normalize_chat_messages_tail_nested (xs : list pyval) :
  tail_nested xs ->
  normalize_chat_messages (PList xs) = Some (convert_all (flatten (PList xs))).
Proof.
  intros Hxs. rewrite run_PList, flatten_PList, (run_tail_nested xs [] Hxs).
  by destruct (convert_all (flatten_queue xs)).
Qed.

Lemma normalize_chat_messages_tail_nested_witness :
  tail_nested [PStr "a"; PList [PStr "b"; PList [PStr "c"]]]
  /\ normalize_chat_messages (PList [PStr "a"; PList [PStr "b"; PList [PStr "c"]]])
     = Some (convert_all [PStr "a"; PStr "b"; PStr "c"]).
Proof.
  assert (H : tail_nested [PStr "a"; PList [PStr "b"; PList [PStr "c"]]]).
  { apply (tail_nested_last [PStr "a"]); [repeat constructor|].
    apply (tail_nested_last [PStr "b"]); [repeat constructor|].
    apply tail_nested_flat. repeat constructor. }
  split; [exact H|].
  exact (normalize_chat_messages_tail_nested _ H).
Defined.

Lemma normalize_chat_messages_returns_iff_witness :
  Forall (fun v => is_ok (convert v) = true)
    (flatten (PList [PStr "a"; PList [PDict [("role", PStr "tool")]]]))
  /\ exists out,
       normalize_chat_messages (PList [PStr "a"; PList [PDict [("role", PStr "tool")]]])
       = Some (Ok out).
Proof.
  assert (H : Forall (fun v => is_ok (convert v) = true)
                (flatten (PList [PStr "a"; PList [PDict [("role", PStr "tool")]]]))).
  { repeat constructor. }
  split; [exact H|].
  exact (proj2 (normalize_chat_messages_returns_iff _) H).
Defined.

Lemma converted_valid_role (v : pyval) :
  is_leaf v = true -> is_message v = false -> is_ok (convert v) = true ->
  valid_role (converted v).
Proof.
  unfold valid_role, converted. destruct v as [| | |s|xs|d|d]; try done.
  cbn [convert]. intros _ _.
  destruct (role_in_supported (dict_get d "role")) as [[]|] eqn:Hr; done.
Qed.

Lemma convert_all_valid (ds : list pydict) :
  Forall valid_role ds -> convert_all (map PDict ds) = Ok ds.
Proof.
  induction 1 as [|d ds Hd _ IH]; [done|].
  cbn [map convert_all convert]. unfold valid_role in Hd. by rewrite Hd, IH.
Qed.

Lemma map_PDict_is_leaf (ds : list pydict) :
  Forall (fun v => is_leaf v = true) (map PDict ds).
Proof. induction ds; by constructor. Qed.

(** A sequence of mappings whose roles are all supported is returned as it
    is: same mappings, same order, no field added or removed. *)
Theorem normalize_chat_messages_verbatim (ds : list pydict) :
  Forall valid_role ds ->
  normalize_chat_messages (PList (map PDict ds)) = Some (Ok ds).
Proof.
  intros Hds. rewrite normalize_flat by apply map_PDict_is_leaf.
  by rewrite convert_all_valid.
Qed.

Lemma normalize_chat_messages_verbatim_witness :
  Forall valid_role [[("role", PStr "system"); ("content", PStr "x")];
                     [("role", PStr "tool"); ("tool_call_id", PInt 7)]]
  /\ normalize_chat_messages
       (PList [PDict [("role", PStr "system"); ("content", PStr "x")];
               PDict [("role", PStr "tool"); ("tool_call_id", PInt 7)]])
     = Some (Ok [[("role", PStr "system"); ("content", PStr "x")];
                 [("role", PStr "tool"); ("tool_call_id", PInt 7)]]).
Proof.
  assert (H : Forall valid_role
                [[("role", PStr "system"); ("content", PStr "x")];
                 [("role", PStr "tool"); ("tool_call_id", PInt 7)]]).
  { repeat constructor. }
  split; [exact H|].
  exact (normalize_chat_messages_verbatim _ H).
Defined.

Lemma normalize_output_valid_roles (messages : pyval) (out : list pydict) :
  normalize_chat_messages messages = Some (Ok out) ->
  Forall (fun v => is_message v = false) (flatten messages) ->
  Forall valid_role out.
Proof.
  rewrite normalize_chat_messages_closed_form. intros [= Hout] Hmsg.
  apply convert_all_Ok in Hout as [Hok ->].
  assert (Hmsg' : Forall (fun v => is_message v = false) (level_order messages)).
  { eapply Permutation_Forall; [symmetry; apply level_order_flatten|exact Hmsg]. }
  pose proof (bfs_is_leaf (work messages) [messages]) as Hleaf.
  fold (level_order messages) in Hleaf.
  induction (level_order messages) as [|v l IH]; [constructor|].
  inversion Hok; inversion Hmsg'; inversion Hleaf; subst.
  cbn [map]. constructor; [by apply converted_valid_role|by apply IH].
Qed.

(** On an input without message objects every returned message has one of
    the four supported roles, and the returned list is a fixed point:
    normalising it again returns it unchanged. *)
Theorem normalize_chat_messages_idempotent (messages : pyval) (out : list pydict) :
  normalize_chat_messages messages = Some (Ok out) ->
  Forall (fun v => is_message v = false) (flatten messages) ->
  Forall valid_role out
  /\ normalize_chat_messages (PList (map PDict out)) = Some (Ok out).
Proof.
  intros Hout Hmsg.
  pose proof (normalize_output_valid_roles _ _ Hout Hmsg) as Hvalid.
  split; [exact Hvalid|].
  rewrite normalize_flat by apply map_PDict_is_leaf.
  by rewrite convert_all_valid.
Qed.

Lemma normalize_chat_messages_idempotent_witness :
  normalize_chat_messages (PList [PStr "hi"; PList [PDict [("role", PStr "assistant")]]])
  = Some (Ok [[("role", PStr "user"); ("content", PStr "hi")];
              [("role", PStr "assistant")]])
  /\ normalize_chat_messages
       (PList (map PDict [[("role", PStr "user"); ("content", PStr "hi")];
                          [("role", PStr "assistant")]]))
     = Some (Ok [[("role", PStr "user"); ("content", PStr "hi")];
                 [("role", PStr "assistant")]]).
Proof.
  split; [reflexivity|].
  apply (normalize_chat_messages_idempotent
           (PList [PStr "hi"; PList [PDict [("role", PStr "assistant")]]])).
  - reflexivity.
  - repeat constructor.
Defined.

(** Wrapping the input in a one-element sequence changes nothing, whatever
    the input is and whether it is accepted or not. *)
Theorem normalize_chat_messages_singleton (messages : pyval) :
  normalize_chat_messages (PList [messages]) = normalize_chat_messages messages.
Proof. by rewrite run_PList, normalize_run. Qed.

(** ** Further properties of [process_params] *)

Local Open Scope list_scope.

Lemma format_tools_raises `{ToolHelper} (pre post fs : list pyval) (t : pyval)
    (llm_provider : string) (e : exn) :
  Forall2 (fun t f => format_tool t llm_provider = Ok f) pre fs ->
  format_tool t llm_provider = Raise e ->
  format_tools (pre ++ t :: post) llm_provider
  = (map (fun t => CallFormatTool t llm_provider) (pre ++ [t]), Raise e).
Proof.
  intros Hpre Ht. induction Hpre as [|t0 f pre fs Hf _ IH]; cbn [app format_tools map].
  - by rewrite Ht.
  - by rewrite Hf, IH.
Qed.

(** When formatting a tool raises, the exception leaves [process_params],
    the caller's mapping is as it was (no ["tools"] entry is written, not
    even for the tools already formatted), the tools after the failing one
    are never formatted and the structured-output helper is never called. *)
Theorem process_params_format_failure `{ToolHelper} `{StructureHandler}
    (params : pydict) (llm_provider : string)
    (response_model : option string)
    (pre post fs : list pyval) (t : pyval) (e : exn) :
  Forall2 (fun t f => format_tool t llm_provider = Ok f) pre fs ->
  format_tool t llm_provider = Raise e ->
  let r := process_params params llm_provider (Some (pre ++ t :: post)) response_model in
  returned r = Raise e
  /\ caller_params r = params
  /\ events r = LogInfo "Tools are available in the request."
                :: map (fun t => CallFormatTool t llm_provider) (pre ++ [t]).
Proof.
  intros Hpre Ht r. subst r. unfold process_params.
  assert (Htruthy : tools_truthy (Some (pre ++ t :: post)) = true) by by destruct pre.
  rewrite Htruthy. change (default [] (Some (pre ++ t :: post))) with (pre ++ t :: post).
  rewrite (format_tools_raises pre post fs t llm_provider e Hpre Ht). done.
Qed.

Lemma process_params_format_failure_witness :
  let r := @process_params failing_tool_helper sample_structure_handler
             [] "openai" (Some [sample_tool "t1"; PNone; sample_tool "t3"]) (Some "M") in
  @format_tool failing_tool_helper PNone "openai" = Raise (CollaboratorError "no tool")
  /\ returned r = Raise (CollaboratorError "no tool")
  /\ caller_params r = [].
Proof.
  intros r.
  assert (Hpre : Forall2 (fun t f => @format_tool failing_tool_helper t "openai" = Ok f)
                   [sample_tool "t1"] [sample_formatted "t1"]).
  { repeat constructor. }
  destruct (@process_params_format_failure failing_tool_helper sample_structure_handler
              [] "openai" (Some "M") [sample_tool "t1"] [sample_tool "t3"]
              [sample_formatted "t1"] PNone (CollaboratorError "no tool") Hpre eq_refl)
    as (Hr & Hp & _).
  split; [reflexivity|]. split; [exact Hr|exact Hp].
Defined.

Lemma first_clash_None (d : pydict) :
  first_clash d = None
  <-> dict_lookup d "response_model" = None /\ dict_lookup d "llm_provider" = None.
Proof.
  unfold first_clash. induction d as [|[k v] d IH]; cbn [find fmap option_fmap option_map
                                                          dict_lookup fst]; [done|].
  case_bool_decide as Hk.
  - split; [done|]. intros [H1 H2]. exfalso.
    apply elem_of_cons in Hk as [->|Hk].
    + by rewrite String.eqb_refl in H1.
    + apply list_elem_of_singleton in Hk as ->. by rewrite String.eqb_refl in H2.
  - assert (String.eqb k "response_model" = false) as ->.
    { apply String.eqb_neq. intros ->. apply Hk. apply elem_of_cons. by left. }
    assert (String.eqb k "llm_provider" = false) as ->.
    { apply String.eqb_neq. intros ->. apply Hk. apply elem_of_cons. right.
      by apply list_elem_of_singleton. }
    exact IH.
Qed.

Lemma first_clash_set_tools (d : pydict) (v : pyval) :
  first_clash (dict_set d "tools" v) = first_clash d.
Proof.
  unfold first_clash. induction d as [|[k w] d IH]; cbn [dict_set find]; [done|].
  destruct (String.eqb k "tools") eqn:Hk; cbn [find fst].
  - apply String.eqb_eq in Hk as ->.
    assert (bool_decide ("tools" ∈ named_keywords) = false) as -> by reflexivity.
    reflexivity.
  - case_bool_decide; [done|]. exact IH.
Qed.

(** The first clashing key with what precedes it: no key before it in the
    dictionary repeats a named keyword. *)
Lemma first_clash_Some (d : pydict) (kw : string) :
  first_clash d = Some kw <->
  exists pre v post,
    d = (pre ++ (kw, v) :: post)%list /\ kw ∈ named_keywords
    /\ Forall (fun kv => kv.1 ∉ named_keywords) pre.
Proof.
  unfold first_clash. induction d as [|[k w] d IH]; cbn [find].
  - split; [done|]. intros (pre & v & post & Hd & _). by destruct pre.
  - case_bool_decide as Hk; cbn [fmap option_fmap option_map fst].
    + split.
      * intros [= <-]. exists [], w, d. by repeat split.
      * intros (pre & v & post & Hd & Hin & Hpre). destruct pre as [|[k0 w0] pre].
        -- by injection Hd as -> _ _.
        -- injection Hd as -> -> ->. by inversion Hpre.
    + rewrite IH. split.
      * intros (pre & v & post & -> & Hin & Hpre).
        exists ((k, w) :: pre), v, post. repeat split; [done|]. by constructor.
      * intros (pre & v & post & Hd & Hin & Hpre). destruct pre as [|[k0 w0] pre].
        -- injection Hd as -> _ _. done.
        -- injection Hd as -> -> ->. inversion Hpre; subst.
           exists pre, v, post. by repeat split.
Qed.

(** With a response model, the mapping returned is whatever the
    structured-output helper returns for the parameters with the formatted
    tools (a full replacement, and the helper's exception if it raises),
    while the caller's own mapping gets the ["tools"] entry and nothing
    else. *)
Theorem process_params_response_model `{ToolHelper} `{StructureHandler}
    (params : pydict) (llm_provider rm : string)
    (tools : option (list pyval)) (fs : list pyval) :
  Forall2 (fun t f => format_tool t llm_provider = Ok f) (default [] tools) fs ->
  dict_lookup params "response_model" = None ->
  dict_lookup params "llm_provider" = None ->
  let sent := if tools_truthy tools then dict_set params "tools" (PList fs) else params in
  let r := process_params params llm_provider tools (Some rm) in
  returned r = generate_request rm llm_provider sent
  /\ caller_params r = sent.
Proof.
  intros Hfs Hrm Hlp sent r. subst sent r. unfold process_params.
  assert (Hclash : first_clash params = None) by by apply first_clash_None.
  destruct (tools_truthy tools) eqn:Htools.
  - rewrite (format_tools_ok _ _ _ Hfs). by rewrite first_clash_set_tools, Hclash.
  - by rewrite Hclash.
Qed.

Lemma process_params_response_model_witness :
  let r := @process_params sample_tool_helper sample_structure_handler
             [] "openai" (Some [sample_tool "t1"]) (Some "M") in
  returned r
  = Ok [("tools", PList [sample_formatted "t1"]); ("response_format", PStr "M")]
  /\ caller_params r = [("tools", PList [sample_formatted "t1"])].
Proof.
  intros r.
  assert (Hfs : Forall2 (fun t f => @format_tool sample_tool_helper t "openai" = Ok f)
                  (default [] (Some [sample_tool "t1"])) [sample_formatted "t1"]).
  { repeat constructor. }
  exact (@process_params_response_model sample_tool_helper sample_structure_handler
           [] "openai" "M" (Some [sample_tool "t1"]) [sample_formatted "t1"]
           Hfs eq_refl eq_refl).
Defined.

Lemma generate_request_calls_format (tools : list pyval) (llm_provider : string) :
  generate_request_calls (map (fun t => CallFormatTool t llm_provider) tools) = [].
Proof. induction tools as [|t tools IH]; [done|]. exact IH. Qed.

(** Parameters that hold a key ["response_model"] or ["llm_provider"]
    cannot be combined with a response model, with or without tools: the
    keyword call raises [TypeError] for the first such key in the
    dictionary's order, [generate_request] is never called, and the
    caller's mapping is left with the ["tools"] entry the call wrote. *)
Theorem process_params_reserved_keyword `{ToolHelper} `{StructureHandler}
    (params : pydict) (llm_provider rm : string)
    (tools : option (list pyval)) (fs : list pyval) :
  Forall2 (fun t f => format_tool t llm_provider = Ok f) (default [] tools) fs ->
  is_Some (dict_lookup params "response_model")
  \/ is_Some (dict_lookup params "llm_provider") ->
  let r := process_params params llm_provider tools (Some rm) in
  exists kw pre v post,
    returned r = Raise (TypeError_multiple_values kw)
    /\ params = (pre ++ (kw, v) :: post)%list
    /\ kw ∈ named_keywords
    /\ Forall (fun kv => kv.1 ∉ named_keywords) pre
    /\ generate_request_calls (events r) = []
    /\ caller_params r
       = if tools_truthy tools then dict_set params "tools" (PList fs) else params.
Proof.
  intros Hfs Hkw r. subst r.
  destruct (first_clash params) as [kw|] eqn:Hclash.
  2:{ apply first_clash_None in Hclash as [H1 H2]. rewrite H1, H2 in Hkw.
      destruct Hkw as [[? ?]|[? ?]]; done. }
  destruct (proj1 (first_clash_Some params kw) Hclash) as (pre & v & post & Hd & Hin & Hpre).
  exists kw, pre, v, post. unfold process_params.
  destruct (tools_truthy tools) eqn:Htools.
  - rewrite (format_tools_ok _ _ _ Hfs). rewrite first_clash_set_tools, Hclash.
    cbn [returned events caller_params]. repeat split; try done.
    unfold generate_request_calls. rewrite omap_app. cbn [omap list_omap].
    rewrite app_nil_r. apply generate_request_calls_format.
  - rewrite Hclash. cbn [returned events caller_params]. by repeat split.
Qed.

Lemma process_params_reserved_keyword_witness :
  is_Some (dict_lookup clashing_params "llm_provider")
  /\ exists kw pre v post,
       returned (@process_params sample_tool_helper sample_structure_handler
                   clashing_params "openai" (Some [sample_tool "t1"]) (Some "M"))
       = Raise (TypeError_multiple_values kw)
       /\ clashing_params = (pre ++ (kw, v) :: post)%list.
Proof.
  assert (H : is_Some (dict_lookup clashing_params "llm_provider")) by by eexists.
  split; [exact H|].
  assert (Hfs : Forall2 (fun t f => @format_tool sample_tool_helper t "openai" = Ok f)
                  (default [] (Some [sample_tool "t1"])) [sample_formatted "t1"]).
  { repeat constructor. }
  destruct (@process_params_reserved_keyword sample_tool_helper sample_structure_handler
              clashing_params "openai" "M" (Some [sample_tool "t1"])
              [sample_formatted "t1"] Hfs (or_intror H))
    as (kw & pre & v & post & Hr & Hd & _).
  by exists kw, pre, v, post.
Defined.

Example process_params_clash_order :
  returned (@process_params sample_tool_helper sample_structure_handler
              clashing_params "openai" (Some [sample_tool "t1"]) (Some "M"))
  = Raise (TypeError_multiple_values "llm_provider").
Proof. reflexivity. Qed.

(** ** Further properties of the configuration classes *)

Lemma literal_Ok (name : string) (allowed : list string) (s v : string) :
  literal name allowed s = Ok v -> v = s /\ s ∈ allowed.
Proof. unfold literal. case_bool_decide; [|done]. by intros [= <-]. Qed.

Lemma type_field_value (tag : string) (r : raw string) (v : string) :
  field "type" (Some tag) (literal "type" [tag]) r = Ok v ->
  v = tag /\ (get r = None \/ get r = Some tag).
Proof.
  destruct r as [|[s|]]; cbn [field none_to_default get].
  - intros [= <-]. auto.
  - intros Hl. apply literal_Ok in Hl as [-> Hin].
    apply list_elem_of_singleton in Hin as ->. auto.
  - intros [= <-]. auto.
Qed.

Lemma AzureOpenAIModelConfig_type d c :
  AzureOpenAIModelConfig.make d = Ok c -> AzureOpenAIModelConfig.type c = "azure_openai".
Proof.
  unfold AzureOpenAIModelConfig.make. intros H. invert_make H.
  cbn [AzureOpenAIModelConfig.type]. eapply type_field_value. eassumption.
Qed.

Lemma HFHubModelConfig_type d c :
  HFHubModelConfig.make d = Ok c -> HFHubModelConfig.type c = "huggingface".
Proof.
  unfold HFHubModelConfig.make. intros H. invert_make H.
  cbn [HFHubModelConfig.type]. eapply type_field_value. eassumption.
Qed.

(** The discriminator decides the class: a configuration mapping that
    [sync_model_name] turns into an instance had the ["type"] of that
    instance's class, and the instance stores it; a mapping it leaves as a
    mapping has none of the three known types. *)
Theorem resolve_configuration_by_type (d : raw_config) (r : option cfg_value) :
  resolve_configuration (Some (CfgDict d)) = Ok r ->
  (exists c, r = Some (CfgModel c) /\ get (r_type d) = Some (tag_of c)
             /\ match c with
                | OpenAI c => OpenAIModelConfig.type c
                | AzureOpenAI c => AzureOpenAIModelConfig.type c
                | HFHub c => HFHubModelConfig.type c
                end = tag_of c)
  \/ (r = Some (CfgDict d)
      /\ get (r_type d) <> Some "openai" /\ get (r_type d) <> Some "azure_openai"
      /\ get (r_type d) <> Some "huggingface").
Proof.
  cbn [resolve_configuration].
  case_bool_decide as H1.
  { destruct (OpenAIModelConfig.make d) as [c|e] eqn:Hc; cbn; [|done].
    intros [= <-]. left. exists (OpenAI c). repeat split; [done|].
    eapply OpenAIModelConfig_type, Hc. }
  case_bool_decide as H2.
  { destruct (AzureOpenAIModelConfig.make d) as [c|e] eqn:Hc; cbn; [|done].
    intros [= <-]. left. exists (AzureOpenAI c). repeat split; [done|].
    eapply AzureOpenAIModelConfig_type, Hc. }
  case_bool_decide as H3.
  { destruct (HFHubModelConfig.make d) as [c|e] eqn:Hc; cbn; [|done].
    intros [= <-]. left. exists (HFHub c). repeat split; [done|].
    eapply HFHubModelConfig_type, Hc. }
  intros [= <-]. right. done.
Qed.

Lemma resolve_configuration_by_type_witness :
  resolve_configuration (Some (CfgDict openai_mapping))
  = Ok (Some (CfgModel (OpenAI (OpenAIModelConfig.mk (Some "https://api.openai.com/v1")
                                  None None None "openai" "gpt-4o-mini"))))
  /\ get (r_type openai_mapping) = Some "openai".
Proof.
  split; [reflexivity|].
  destruct (resolve_configuration_by_type openai_mapping _ eq_refl)
    as [(c & Hc & Ht & _)|(Hd & _)].
  - injection Hc as <-. exact Ht.
  - discriminate Hd.
Defined.

Ltac same_fields :=
  cbn -[field ap raw_any];
  repeat match goal with Hf : _ = Ok _ |- _ => rewrite Hf; clear Hf end;
  reflexivity.

(** A class and its parent agree on the inherited fields: whatever mapping
    constructs a model configuration also constructs the client
    configuration it extends, with the same field values. *)
Theorem model_config_extends_client :
  (forall d c, OpenAIModelConfig.make d = Ok c ->
               OpenAIClientConfig.make d = Ok (openai_client_part c))
  /\ (forall d c, AzureOpenAIModelConfig.make d = Ok c ->
                  AzureOpenAIClientConfig.make d = Ok (azure_client_part c))
  /\ (forall d c, HFHubModelConfig.make d = Ok c ->
                  HFInferenceClientConfig.make d = Ok (hf_client_part c)).
Proof.
  repeat split; intros d c H.
  - unfold OpenAIModelConfig.make in H. invert_make H.
    unfold OpenAIClientConfig.make. same_fields.
  - unfold AzureOpenAIModelConfig.make in H. invert_make H.
    unfold AzureOpenAIClientConfig.make. same_fields.
  - unfold HFHubModelConfig.make in H. invert_make H.
    unfold HFInferenceClientConfig.make. same_fields.
Qed.

Lemma model_config_extends_client_witness :
  OpenAIModelConfig.make openai_mapping
  = Ok (OpenAIModelConfig.mk (Some "https://api.openai.com/v1") None None None
          "openai" "gpt-4o-mini")
  /\ OpenAIClientConfig.make openai_mapping
     = Ok (OpenAIClientConfig.mk (Some "https://api.openai.com/v1") None None None).
Proof.
  split; [reflexivity|].
  exact (proj1 model_config_extends_client openai_mapping _ eq_refl).
Defined.

(** The same for the parameter classes: a mapping accepted by the chat or
    the text class is accepted by [OpenAIParamsBase], with the same values
    in the shared fields. *)
Theorem params_extend_base :
  (forall d p, OpenAIChatCompletionParams.make d = Ok p ->
               OpenAIParamsBase.make d = Ok (chat_base_part p))
  /\ (forall d p, OpenAITextCompletionParams.make d = Ok p ->
                  OpenAIParamsBase.make d = Ok (text_base_part p)).
Proof.
  split; intros d p H.
  - unfold OpenAIChatCompletionParams.make in H. invert_make H.
    unfold OpenAIParamsBase.make. same_fields.
  - unfold OpenAITextCompletionParams.make in H. invert_make H.
    unfold OpenAIParamsBase.make. same_fields.
Qed.

Lemma params_extend_base_witness :
  is_ok (OpenAIChatCompletionParams.make (params_with_n 3)) = true
  /\ is_ok (OpenAIParamsBase.make (params_with_n 3)) = true.
Proof.
  split; [reflexivity|].
  destruct (OpenAIChatCompletionParams.make (params_with_n 3)) as [p|e] eqn:Hp.
  - by rewrite (proj1 params_extend_base _ _ Hp).
  - discriminate Hp.
Defined.

Lemma best_of_field_range (r : raw Z) (v : option Z) :
  field "best_of" (Some None) (optional (int_range "best_of" (Some 1%Z) None)) r = Ok v ->
  at_least_Z 1 v.
Proof.
  destruct r as [|[z|]]; simpl; try (intros [= <-]; done).
  unfold optional, int_range. simpl.
  destruct (Z.ltb_spec z 1); simpl; [done|]. intros [= <-]. simpl. lia.
Qed.

Lemma logprobs_field_range (r : raw (Z + bool)) (v : option Z) :
  field "logprobs" (Some None)
    (optional (fun x => int_range "logprobs" (Some 0%Z) (Some 5%Z) (lax_int x))) r = Ok v ->
  in_range_Z 0 5 v.
Proof.
  destruct r as [|[x|]]; simpl; try (intros [= <-]; done).
  unfold optional, int_range. simpl.
  destruct (Z.ltb_spec 5 (lax_int x)); simpl; [done|].
  destruct (Z.ltb_spec (lax_int x) 0); simpl; [done|]. intros [= <-]. simpl. lia.
Qed.

Lemma best_of_field_outside (r : raw Z) (z : Z) :
  r = Present (Some z) -> (z < 1)%Z ->
  errors_of (field "best_of" (Some None)
               (optional (int_range "best_of" (Some 1%Z) None)) r) <> [].
Proof.
  intros -> Hz. simpl. unfold optional, int_range. simpl.
  destruct (Z.ltb_spec z 1); simpl; [done|lia].
Qed.

Lemma logprobs_field_outside (r : raw (Z + bool)) :
  outside_lax 0 5 r ->
  errors_of (field "logprobs" (Some None)
               (optional (fun x => int_range "logprobs" (Some 0%Z) (Some 5%Z) (lax_int x)))
               r) <> [].
Proof.
  intros (x & -> & Hx). simpl. unfold optional, int_range. simpl.
  destruct (Z.ltb_spec 5 (lax_int x)); simpl; [done|].
  destruct (Z.ltb_spec (lax_int x) 0); simpl; [done|lia].
Qed.

(** The text-completion class keeps its own two bounds: a constructed
    record has [best_of] at least 1 and [logprobs] within [0, 5] (each when
    not [None]), and a mapping that breaks either bound is refused with a
    [ValidationError]. *)
Theorem text_params_bounds (d : raw_params) :
  (forall p, OpenAITextCompletionParams.make d = Ok p ->
             at_least_Z 1 (OpenAITextCompletionParams.best_of p)
             /\ in_range_Z 0 5 (OpenAITextCompletionParams.logprobs p))
  /\ ((exists z, r_best_of d = Present (Some z) /\ (z < 1)%Z)
      \/ outside_lax 0 5 (r_logprobs d) ->
      exists errs, OpenAITextCompletionParams.make d = Raise (ValidationError errs)
                   /\ errs <> []).
Proof.
  split.
  - intros p H. unfold OpenAITextCompletionParams.make in H. invert_make H.
    cbn [OpenAITextCompletionParams.best_of OpenAITextCompletionParams.logprobs].
    split; [eapply best_of_field_range|eapply logprobs_field_range]; eassumption.
  - unfold OpenAITextCompletionParams.make. intros [(z & Hz & Hlt)|Hv].
    + fail_by (best_of_field_outside _ _ Hz Hlt).
    + fail_by (logprobs_field_outside _ Hv).
Qed.

Lemma text_params_bounds_witness :
  (exists z, r_best_of (params_with_best_of 0) = Present (Some z) /\ (z < 1)%Z)
  /\ (exists errs,
        OpenAITextCompletionParams.make (params_with_best_of 0)
        = Raise (ValidationError errs) /\ errs <> [])
  /\ (exists p, OpenAITextCompletionParams.make (params_with_best_of 2) = Ok p
                /\ at_least_Z 1 (OpenAITextCompletionParams.best_of p)).
Proof.
  assert (H : exists z, r_best_of (params_with_best_of 0) = Present (Some z) /\ (z < 1)%Z).
  { exists 0%Z. split; [reflexivity|lia]. }
  split; [exact H|]. split.
  - exact (proj2 (text_params_bounds (params_with_best_of 0)) (or_introl H)).
  - eexists. split; [reflexivity|].
    exact (proj1 (proj1 (text_params_bounds (params_with_best_of 2)) _ eq_refl)).
Defined.

Lemma azure_endpoint_field (r : raw string) (v : option string) :
  field "azure_endpoint" None (optional any) r = Ok v ->
  exists e, v = Some e /\ r = Present (Some e).
Proof. destruct r as [|[e|]]; simpl; try done. intros [= <-]. by exists e. Qed.

(** [azure_endpoint] is annotated [Optional] but declared without a default,
    so it is required and cannot be [None]: every Azure configuration that
    was constructed stores the endpoint the mapping gave, and a mapping
    without the key, or with [None] for it, constructs nothing. *)
Theorem azure_endpoint_required (d : raw_config) :
  (forall c, AzureOpenAIClientConfig.make d = Ok c ->
             exists e, AzureOpenAIClientConfig.azure_endpoint c = Some e
                       /\ r_azure_endpoint d = Present (Some e))
  /\ (forall c, AzureOpenAIModelConfig.make d = Ok c ->
                exists e, AzureOpenAIModelConfig.azure_endpoint c = Some e
                          /\ r_azure_endpoint d = Present (Some e))
  /\ (get (r_azure_endpoint d) = None ->
      is_ok (AzureOpenAIClientConfig.make d) = false
      /\ is_ok (AzureOpenAIModelConfig.make d) = false).
Proof.
  assert (H1 : forall c, AzureOpenAIClientConfig.make d = Ok c ->
                 exists e, AzureOpenAIClientConfig.azure_endpoint c = Some e
                           /\ r_azure_endpoint d = Present (Some e)).
  { intros c H. unfold AzureOpenAIClientConfig.make in H. invert_make H.
    cbn [AzureOpenAIClientConfig.azure_endpoint].
    eapply azure_endpoint_field. eassumption. }
  assert (H2 : forall c, AzureOpenAIModelConfig.make d = Ok c ->
                 exists e, AzureOpenAIModelConfig.azure_endpoint c = Some e
                           /\ r_azure_endpoint d = Present (Some e)).
  { intros c H. unfold AzureOpenAIModelConfig.make in H. invert_make H.
    cbn [AzureOpenAIModelConfig.azure_endpoint].
    eapply azure_endpoint_field. eassumption. }
  split; [exact H1|]. split; [exact H2|].
  intros Hnone. split.
  - destruct (AzureOpenAIClientConfig.make d) as [c|e] eqn:Hc; [|done].
    destruct (H1 c eq_refl) as (e & _ & He). rewrite He in Hnone. done.
  - destruct (AzureOpenAIModelConfig.make d) as [c|e] eqn:Hc; [|done].
    destruct (H2 c eq_refl) as (e & _ & He). rewrite He in Hnone. done.
Qed.

Lemma azure_endpoint_required_witness :
  get (r_azure_endpoint only_type_openai) = None
  /\ is_ok (AzureOpenAIClientConfig.make only_type_openai) = false
  /\ (exists e, r_azure_endpoint azure_mapping = Present (Some e)).
Proof.
  split; [reflexivity|]. split.
  - exact (proj1 (proj2 (proj2 (azure_endpoint_required only_type_openai)) eq_refl)).
  - destruct (AzureOpenAIModelConfig.make azure_mapping) as [c|e] eqn:Hc.
    + destruct (proj1 (proj2 (azure_endpoint_required azure_mapping)) c Hc)
        as (e & _ & He).
      by exists e.
    + discriminate Hc.
Defined.

Lemma resolve_parameters_openai_model (c : OpenAIModelConfig.t)
    (x : option par_value) (p : par_value) :
  resolve_parameters (Some (CfgModel (OpenAI c))) x = Ok (Some p) ->
  exists q, p = ParModel q.
Proof.
  destruct x as [[d|q]|]; cbn [resolve_parameters].
  - destruct (OpenAIChatCompletionParams.make d) as [q|e]; cbn; [|done].
    intros [= <-]. by eexists.
  - intros [= <-]. by eexists.
  - done.
Qed.

(** Once the configuration and the parameters are both present and truthy,
    [sync_model_name] returns only for an [OpenAIModelConfig] with a
    non-empty name; for an Azure or Hugging Face configuration, for a
    mapping with an unknown ["type"] and for an empty name it raises
    [AttributeError]. *)
Theorem sync_model_name_returns_only_for_openai (vals : values)
    (cfg : cfg_value) (p : par_value) :
  resolve_configuration (get (v_configuration vals)) = Ok (Some cfg) ->
  resolve_parameters (Some cfg) (get (v_parameters vals)) = Ok (Some p) ->
  cfg_truthy (Some cfg) = true ->
  par_truthy (Some p) = true ->
  (exists c vals', cfg = CfgModel (OpenAI c) /\ OpenAIModelConfig.name c <> ""
                   /\ sync_model_name vals = Ok vals')
  \/ ((forall c, cfg = CfgModel (OpenAI c) -> OpenAIModelConfig.name c = "")
      /\ exists cls attr, sync_model_name vals = Raise (AttributeError cls attr)).
Proof.
  intros Hc Hp Htc Htp. unfold sync_model_name. rewrite Hc. cbn [mbind result_bind].
  rewrite Hp. cbn [mbind result_bind]. rewrite Htc, Htp. cbn [andb].
  destruct cfg as [d|[c|c|c]]; cbn [name_or_deployment mbind result_bind];
    try (right; split; [intros ? [=]|by do 2 eexists]).
  case_bool_decide as Hname; cbn [mbind result_bind].
  - right. split; [by intros ? [= <-]|by do 2 eexists].
  - left. destruct (resolve_parameters_openai_model _ _ _ Hp) as [q ->].
    exists c. destruct q; cbn; eexists; by repeat split.
Qed.

Lemma sync_model_name_returns_only_for_openai_witness :
  resolve_configuration (get (v_configuration (values_of azure_mapping)))
  = Ok (Some (CfgModel (AzureOpenAI
           (AzureOpenAIModelConfig.mk None None None None (Some "2024-07-01-preview")
              (Some "https://example.openai.azure.com") (Some "gpt-4o-mini") None
              "azure_openai"))))
  /\ exists cls attr,
       sync_model_name (values_of azure_mapping) = Raise (AttributeError cls attr).
Proof.
  split; [reflexivity|].
  destruct (sync_model_name_returns_only_for_openai (values_of azure_mapping) _ _
              eq_refl eq_refl eq_refl eq_refl) as [(c & vals' & Hc & _)|[_ H]].
  - discriminate Hc.
  - exact H.
Defined.

(** Where [sync_model_name] itself resolves the configuration to an
    [OpenAIModelConfig] (the caller passed an instance, or a mapping whose
    ["type"] is ["openai"]), the configuration is the source of truth for
    the model name: the constructed record stores that configuration, and
    its parameters carry the configuration's name as [model], whatever
    [model] the caller's parameters held.  A configuration mapping without
    ["type"] is not resolved by the validator and is not covered: see
    [PromptyModelConfig_untyped_mapping_not_synced]. *)
Theorem PromptyModelConfig_model_is_name (U : PydanticUnion) (vals : values)
    (r : t) (c : OpenAIModelConfig.t) :
  resolve_configuration (get (v_configuration vals)) = Ok (Some (CfgModel (OpenAI c))) ->
  PromptyModelConfig.make vals = Ok r ->
  configuration r = OpenAI c
  /\ model_of (parameters r) = Some (OpenAIModelConfig.name c)
  /\ OpenAIModelConfig.name c <> "".
Proof.
  intros Hc. unfold PromptyModelConfig.make, sync_model_name.
  rewrite Hc. cbn [mbind result_bind].
  destruct (get (v_parameters vals)) as [[d|p]|]; cbn [resolve_parameters].
  - destruct (OpenAIChatCompletionParams.make d) as [q|e]; cbn [mbind result_bind]; [|done].
    cbn [cfg_truthy par_truthy andb name_or_deployment].
    case_bool_decide as Hname; cbn [mbind result_bind assign_model]; [done|].
    cbn [v_api v_configuration v_parameters v_response].
    intros H. invert_make H. simpl in Ha0, Ha1. injection Ha0 as <-. injection Ha1 as <-.
    by repeat split.
  - cbn [mbind result_bind cfg_truthy par_truthy andb name_or_deployment].
    case_bool_decide as Hname; cbn [mbind result_bind]; [done|].
    destruct p as [q|q]; cbn [assign_model mbind result_bind];
      cbn [v_api v_configuration v_parameters v_response];
      intros H; invert_make H; simpl in Ha0, Ha1;
      injection Ha0 as <-; injection Ha1 as <-; by repeat split.
  - cbn [mbind result_bind cfg_truthy par_truthy andb].
    cbn [v_api v_configuration v_parameters v_response].
    intros H. invert_make H. simpl in Ha0. discriminate Ha0.
Qed.

Lemma PromptyModelConfig_model_is_name_witness :
  model_of <$> (parameters <$> @PromptyModelConfig.make left_to_right
                                 (values_with_model "gpt-3.5-turbo"))
  = Ok (Some "gpt-4o-mini").
Proof.
  destruct (@PromptyModelConfig.make left_to_right (values_with_model "gpt-3.5-turbo"))
    as [r|e] eqn:Hr.
  - destruct (PromptyModelConfig_model_is_name left_to_right
                (values_with_model "gpt-3.5-turbo") r _ eq_refl Hr) as (_ & Hm & _).
    cbn. by rewrite Hm.
  - discriminate Hr.
Defined.

(** A configuration mapping without ["type"] with empty parameters: the
    validator changes nothing, the union makes an [OpenAIModelConfig] named
    ["zzz"] of the mapping, and the parameters keep the default model. *)
Example PromptyModelConfig_untyped_mapping_not_synced :
  exists r c,
    @PromptyModelConfig.make left_to_right (values_of untyped_mapping) = Ok r
    /\ configuration r = OpenAI c
    /\ OpenAIModelConfig.name c = "zzz"
    /\ model_of (parameters r) = Some "gpt-4o".
Proof. do 2 eexists. repeat split; reflexivity. Qed.

Lemma only_type_key (m : gmap string string) :
  map_Forall (fun k v => k = "type" /\ v ∈ ["text"; "json_object"]) m ->
  m = ∅ \/ m = {["type" := "text"]} \/ m = {["type" := "json_object"]}.
Proof.
  intros Hall. destruct (m !! "type") as [v|] eqn:Hv.
  - right. assert (Hm : m = {["type" := v]}).
    { apply map_eq. intros k. destruct (decide (k = "type")) as [->|Hk].
      - by rewrite lookup_singleton_eq.
      - rewrite lookup_singleton_ne by done.
        destruct (m !! k) as [w|] eqn:Hw; [|done].
        by destruct (Hall k w Hw). }
    destruct (Hall _ _ Hv) as [_ Hin].
    apply elem_of_cons in Hin as [->|Hin]; [by left|].
    apply list_elem_of_singleton in Hin as ->. by right.
  - left. apply map_eq. intros k. rewrite lookup_empty.
    destruct (m !! k) as [w|] eqn:Hw; [|done].
    destruct (Hall k w Hw) as [-> _]. congruence.
Qed.

(** The [response_format] of a constructed chat parameter set is [None],
    the empty mapping, [{"type": "text"}] or [{"type": "json_object"}]:
    no other key and no other value gets through. *)
Theorem chat_response_format_values (d : raw_params) (p : OpenAIChatCompletionParams.t) :
  OpenAIChatCompletionParams.make d = Ok p ->
  OpenAIChatCompletionParams.response_format p = None
  \/ OpenAIChatCompletionParams.response_format p = Some ∅
  \/ OpenAIChatCompletionParams.response_format p = Some {["type" := "text"]}
  \/ OpenAIChatCompletionParams.response_format p = Some {["type" := "json_object"]}.
Proof.
  unfold OpenAIChatCompletionParams.make. intros H. invert_make H.
  cbn [OpenAIChatCompletionParams.response_format].
  destruct (r_response_format d) as [|[m|]]; simpl in Ha4;
    try (injection Ha4 as <-; by left).
  unfold optional, OpenAIChatCompletionParams.response_format_type in Ha4.
  case_bool_decide as Hm; [|done]. injection Ha4 as <-.
  right. destruct (only_type_key m Hm) as [-> | [-> | ->]]; auto.
Qed.

Lemma chat_response_format_values_witness :
  exists p,
    OpenAIChatCompletionParams.make (params_with_response_format {["type" := "text"]})
    = Ok p
    /\ (OpenAIChatCompletionParams.response_format p = None
        \/ OpenAIChatCompletionParams.response_format p = Some ∅
        \/ OpenAIChatCompletionParams.response_format p = Some {["type" := "text"]}
        \/ OpenAIChatCompletionParams.response_format p
           = Some {["type" := "json_object"]}).
Proof.
  eexists. split; [reflexivity|].
  apply (chat_response_format_values
           (params_with_response_format {["type" := "text"]})).
  reflexivity.
Defined.

Example chat_response_format_xml :
  OpenAIChatCompletionParams.make (params_with_response_format {["type" := "xml"]})
  = Raise (ValidationError [("response_format", "literal_error")]).
Proof. reflexivity. Qed.

(** ** [PromptyDefinition] and [process_prompty_messages] *)

Lemma model_field_fatal (U : PydanticUnion) (vals : values) (cls attr : string) :
  PromptyModelConfig.make vals = Raise (AttributeError cls attr) ->
  field "model" None PromptyDefinition.validate_model
    (Present (Some (PromptyDefinition.ModelDict vals)))
  = Raise (AttributeError cls attr).
Proof. intros H. cbn [field none_to_default PromptyDefinition.validate_model]. exact H. Qed.

Lemma optional_any_field_Ok {T} (name : string) (dflt : option T) (r : raw T) :
  exists v, field name (Some dflt) (optional any) r = Ok v.
Proof. destruct r as [|[x|]]; simpl; by eexists. Qed.

(** A Prompty definition whose model pairs an ["azure_openai"] configuration
    mapping that [AzureOpenAIModelConfig] accepts with a parameters mapping
    that [OpenAIChatCompletionParams] accepts cannot be constructed: the
    constructor raises the [AttributeError] of [sync_model_name], whatever
    the other fields hold. *)
Theorem PromptyDefinition_azure_raises (U : PydanticUnion)
    (d : PromptyDefinition.raw_definition) (vals : values)
    (dc : raw_config) (dp : raw_params) :
  PromptyDefinition.r_d_model d = Present (Some (PromptyDefinition.ModelDict vals)) ->
  get (v_configuration vals) = Some (CfgDict dc) ->
  get (r_type dc) = Some "azure_openai" ->
  is_ok (AzureOpenAIModelConfig.make dc) = true ->
  get (v_parameters vals) = Some (ParDict dp) ->
  is_ok (OpenAIChatCompletionParams.make dp) = true ->
  PromptyDefinition.make d = Raise (AttributeError "AzureOpenAIModelConfig" "name").
Proof.
  intros Hm Hcfg Htype Hc Hpar Hp.
  assert (Hmake : PromptyModelConfig.make vals
                  = Raise (AttributeError "AzureOpenAIModelConfig" "name")).
  { unfold PromptyModelConfig.make, sync_model_name. rewrite Hcfg, Hpar.
    cbn [resolve_configuration].
    rewrite bool_decide_false by (rewrite Htype; done).
    rewrite bool_decide_true by done.
    destruct (AzureOpenAIModelConfig.make dc) as [c|e]; [|done].
    cbn [mbind result_bind resolve_parameters].
    destruct (OpenAIChatCompletionParams.make dp) as [p|e]; [|done].
    reflexivity. }
  unfold PromptyDefinition.make. rewrite Hm, (model_field_fatal U vals _ _ Hmake).
  destruct (optional_any_field_Ok "name" (Some "") (PromptyDefinition.r_d_name d)) as [? ->].
  destruct (optional_any_field_Ok "description" (Some "")
              (PromptyDefinition.r_d_description d)) as [? ->].
  destruct (optional_any_field_Ok "version" (Some "1.0")
              (PromptyDefinition.r_d_version d)) as [? ->].
  destruct (optional_any_field_Ok "authors" (Some [])
              (PromptyDefinition.r_d_authors d)) as [? ->].
  destruct (optional_any_field_Ok "tags" (Some [])
              (PromptyDefinition.r_d_tags d)) as [? ->].
  reflexivity.
Qed.

Lemma PromptyDefinition_azure_raises_witness :
  is_ok (AzureOpenAIModelConfig.make azure_mapping) = true
  /\ @PromptyDefinition.make left_to_right
       (PromptyDefinition.minimal (values_of azure_mapping) "system: hello")
     = Raise (AttributeError "AzureOpenAIModelConfig" "name").
Proof.
  split; [reflexivity|].
  apply (PromptyDefinition_azure_raises left_to_right _ (values_of azure_mapping)
           azure_mapping empty_params); reflexivity.
Defined.

Lemma required_any_field {T} (name : string) (r : raw T) (v : T) :
  field name None any r = Ok v -> r = Present (Some v).
Proof. destruct r as [|[x|]]; simpl; try done. by intros [= <-]. Qed.

Lemma model_field_given (U : PydanticUnion) (r : raw PromptyDefinition.model_value)
    (m : t) :
  field "model" None PromptyDefinition.validate_model r = Ok m ->
  exists v, r = Present (Some v) /\ PromptyDefinition.validate_model v = Ok m.
Proof. destruct r as [|[v|]]; simpl; try done. intros Hv. by exists v. Qed.

Lemma defaulted_field {T} (name : string) (dflt : option T) (r : raw T) (v : option T) :
  field name (Some dflt) (optional any) r = Ok v ->
  get r = None -> v = dflt.
Proof. destruct r as [|[x|]]; simpl; try done; by intros [= <-]. Qed.

Lemma PromptyDefinition_make_inv (U : PydanticUnion)
    (d : PromptyDefinition.raw_definition) (r : PromptyDefinition.t) :
  PromptyDefinition.make d = Ok r ->
  PromptyDefinition.r_d_content d = Present (Some (PromptyDefinition.content r))
  /\ (exists v, PromptyDefinition.r_d_model d = Present (Some v)
                /\ PromptyDefinition.validate_model v = Ok (PromptyDefinition.model r)
                /\ ((exists vals, v = PromptyDefinition.ModelDict vals) ->
                    api (PromptyDefinition.model r) ∈ ["chat"; "completion"]))
  /\ (get (PromptyDefinition.r_d_version d) = None ->
      PromptyDefinition.version r = Some "1.0")
  /\ (get (PromptyDefinition.r_d_authors d) = None ->
      PromptyDefinition.authors r = Some []).
Proof.
  unfold PromptyDefinition.make. intros H. invert_make H.
  cbn [PromptyDefinition.content PromptyDefinition.model PromptyDefinition.version
       PromptyDefinition.authors].
  split; [by eapply required_any_field|]. split.
  - destruct (model_field_given U _ _ Ha3) as (v & Hv & Hm).
    exists v. repeat split; [done..|]. intros [vals ->].
    cbn [PromptyDefinition.validate_model] in Hm.
    unfold PromptyModelConfig.make in Hm.
    destruct (sync_model_name vals) as [vals'|e]; cbn [mbind result_bind] in Hm; [|done].
    invert_make Hm. cbn [api]. eapply api_field_allowed. eassumption.
  - split; intros Hnone; eapply defaulted_field; eassumption.
Qed.

(** [model] and [content] are required and cannot be [None]: a constructed
    definition stores the content the mapping gave and the model its
    [model] entry validates to, with an API kind of ["chat"] or
    ["completion"] when that entry is a mapping; a [version] that is absent
    or [None] is ["1.0"] and absent authors are the empty list. *)
Theorem PromptyDefinition_required (U : PydanticUnion)
    (d : PromptyDefinition.raw_definition) (r : PromptyDefinition.t) :
  PromptyDefinition.make d = Ok r ->
  PromptyDefinition.r_d_content d = Present (Some (PromptyDefinition.content r))
  /\ (exists v, PromptyDefinition.r_d_model d = Present (Some v)
                /\ PromptyDefinition.validate_model v = Ok (PromptyDefinition.model r)
                /\ ((exists vals, v = PromptyDefinition.ModelDict vals) ->
                    api (PromptyDefinition.model r) ∈ ["chat"; "completion"]))
  /\ (get (PromptyDefinition.r_d_version d) = None ->
      PromptyDefinition.version r = Some "1.0")
  /\ (get (PromptyDefinition.r_d_authors d) = None ->
      PromptyDefinition.authors r = Some []).
Proof. exact (PromptyDefinition_make_inv U d r). Qed.

Lemma PromptyDefinition_required_witness :
  exists r,
    @PromptyDefinition.make left_to_right
      (PromptyDefinition.minimal (values_of openai_mapping) "system: hello") = Ok r
    /\ PromptyDefinition.content r = "system: hello"
    /\ PromptyDefinition.version r = Some "1.0".
Proof.
  eexists. split; [reflexivity|].
  destruct (PromptyDefinition_required left_to_right
              (PromptyDefinition.minimal (values_of openai_mapping) "system: hello")
              _ eq_refl) as (Hc & _ & Hv & _).
  split; [reflexivity|exact (Hv eq_refl)].
Defined.

(** A Prompty definition constructed from a model mapping with an
    ["openai"] configuration mapping and a parameters mapping is
    constructed again, equal, from its own dump, provided the values of its
    [inputs], [sample] and [outputs] and of its parameters' [tools],
    [tool_choice] and [function_call] hold no model instance (the dump turns
    one into a dictionary). *)
Theorem PromptyDefinition_round_trip (U : PydanticUnion)
    (d : PromptyDefinition.raw_definition) (r : PromptyDefinition.t)
    (vals : values) (dc : raw_config) (dp : raw_params) :
  PromptyDefinition.r_d_model d = Present (Some (PromptyDefinition.ModelDict vals)) ->
  get (v_configuration vals) = Some (CfgDict dc) ->
  get (r_type dc) = Some "openai" ->
  get (v_parameters vals) = Some (ParDict dp) ->
  PromptyDefinition.make d = Ok r ->
  PromptyDefinition.no_models r = true ->
  parameters_no_models (parameters (PromptyDefinition.model r)) = true ->
  PromptyDefinition.make (PromptyDefinition.dump r) = Ok r.
Proof.
  intros Hm Hcfg Htype Hpar. unfold PromptyDefinition.make at 1. rewrite Hm.
  intros H. invert_make H.
  cbn [field none_to_default PromptyDefinition.validate_model] in Ha3.
  unfold PromptyDefinition.no_models.
  cbn [PromptyDefinition.inputs PromptyDefinition.sample PromptyDefinition.outputs
       PromptyDefinition.model].
  intros Hno Hpno.
  apply andb_true_iff in Hno as [Hno Hout]. apply andb_true_iff in Hno as [Hin Hsample].
  pose proof (PromptyModelConfig_round_trip_mappings U vals _ dc dp
                Hcfg Htype Hpar Ha3 Hpno) as Hmodel.
  apply required_any_field in Ha.
  unfold PromptyDefinition.make, PromptyDefinition.dump.
  cbn [PromptyDefinition.r_d_name PromptyDefinition.r_d_description
       PromptyDefinition.r_d_version PromptyDefinition.r_d_authors
       PromptyDefinition.r_d_tags PromptyDefinition.r_d_model
       PromptyDefinition.r_d_inputs PromptyDefinition.r_d_sample
       PromptyDefinition.r_d_outputs PromptyDefinition.r_d_content
       PromptyDefinition.name PromptyDefinition.description PromptyDefinition.version
       PromptyDefinition.authors PromptyDefinition.tags PromptyDefinition.model
       PromptyDefinition.inputs PromptyDefinition.sample PromptyDefinition.outputs
       PromptyDefinition.content].
  replace (field "model" None PromptyDefinition.validate_model
             (Present (Some (PromptyDefinition.ModelDict (dump a3)))))
    with (Ok a3 : result t)
    by (cbn [field none_to_default PromptyDefinition.validate_model]; by rewrite Hmodel).
  rewrite (dump_dict_no_model _ Hin), (dump_opt_dict_no_model _ Hout).
  replace (dump_opt (sum_map dump_dict id) a1) with (dump_opt id a1).
  2:{ destruct a1 as [[x|x]|]; try done. unfold dump_opt.
      cbn [fmap option_fmap option_map sum_map from_option] in *.
      by rewrite (dump_dict_no_model x Hsample). }
  repeat first
    [ erewrite optional_field_round_trip;
        [ | eassumption | solve [auto with roundtrip] | default_valid ]
    | erewrite plain_field_round_trip;
        [ | eassumption | solve [auto with roundtrip] | reflexivity ] ].
  reflexivity.
Qed.

Lemma PromptyDefinition_round_trip_witness :
  exists r,
    @PromptyDefinition.make left_to_right
      (definition_with_inputs (values_with_tools [sample_tool_mapping])
         [("question", PDict [("type", PStr "string")])] "system: hello")
    = Ok r
    /\ PromptyDefinition.no_models r = true
    /\ @PromptyDefinition.make left_to_right (PromptyDefinition.dump r) = Ok r.
Proof.
  eexists. split; [reflexivity|]. split; [reflexivity|].
  apply (PromptyDefinition_round_trip left_to_right
           (definition_with_inputs (values_with_tools [sample_tool_mapping])
              [("question", PDict [("type", PStr "string")])] "system: hello")
           _ (values_with_tools [sample_tool_mapping]) openai_mapping
           (params_with_tools [sample_tool_mapping]));
    reflexivity.
Defined.

(** For a Prompty that holds what a definition constructed from a model
    mapping holds.  When preparing the inputs returns, the function makes
    exactly two calls, [prepare_inputs] and then the renderer, the renderer
    gets the prepared inputs, the content the definition was given and an
    API kind that is ["chat"] or ["completion"], and the renderer's result
    or exception is the function's.  When preparing the inputs raises, that
    exception is the function's and [prepare_inputs] is the only call. *)
Theorem process_prompty_messages_of_definition (U : PydanticUnion)
    (H : Prompty.PromptyHelper) (d : PromptyDefinition.raw_definition)
    (r : PromptyDefinition.t) (vals : values) (inputs : pydict) :
  PromptyDefinition.r_d_model d = Present (Some (PromptyDefinition.ModelDict vals)) ->
  PromptyDefinition.make d = Ok r ->
  let run := Prompty.process_prompty_messages (Prompty.of_definition r) inputs in
  let prepared := Prompty.prepare_inputs inputs (PromptyDefinition.inputs r)
                    (PromptyDefinition.sample r) in
  let first_call := Prompty.CallPrepareInputs inputs (PromptyDefinition.inputs r)
                      (PromptyDefinition.sample r) in
  (forall p,
     prepared = Ok p ->
     exists c a,
       run.1 = [first_call; Prompty.CallToPrompt c p a]
       /\ run.2 = Prompty.to_prompt c p a
       /\ a ∈ ["chat"; "completion"]
       /\ a = api (PromptyDefinition.model r)
       /\ PromptyDefinition.r_d_content d = Present (Some c))
  /\ (forall e, prepared = Raise e -> run.1 = [first_call] /\ run.2 = Raise e).
Proof.
  intros Hm Hr run prepared first_call. subst run prepared first_call.
  destruct (PromptyDefinition_make_inv U d r Hr) as (Hc & (v & Hv & _ & Hapi) & _).
  rewrite Hm in Hv. injection Hv as <-. specialize (Hapi (ex_intro _ vals eq_refl)).
  unfold Prompty.process_prompty_messages.
  cbn [Prompty.of_definition Prompty.model_api Prompty.inputs Prompty.sample
       Prompty.content].
  destruct (Prompty.prepare_inputs inputs (PromptyDefinition.inputs r)
              (PromptyDefinition.sample r)) as [p0|e0]; cbn [fst snd]; split.
  - intros p [= <-]. exists (PromptyDefinition.content r), (api (PromptyDefinition.model r)).
    by repeat split.
  - done.
  - done.
  - by intros e [= <-].
Qed.

Lemma process_prompty_messages_of_definition_witness :
  exists r,
    @PromptyDefinition.make left_to_right
      (PromptyDefinition.minimal (values_of openai_mapping) "system: hello") = Ok r
    /\ (@Prompty.process_prompty_messages Prompty.sample_helper
          (Prompty.of_definition r) []).2
       = Raise (CollaboratorError "missing input")
    /\ exists c a,
         (@Prompty.process_prompty_messages Prompty.sample_helper
            (Prompty.of_definition r) [("question", PStr "why?")]).2
         = @Prompty.to_prompt Prompty.sample_helper c [("question", PStr "why?")] a
         /\ a ∈ ["chat"; "completion"].
Proof.
  eexists. split; [reflexivity|]. split.
  - refine (proj2 (proj2 (process_prompty_messages_of_definition left_to_right
                            Prompty.sample_helper
                            (PromptyDefinition.minimal (values_of openai_mapping)
                               "system: hello")
                            _ (values_of openai_mapping) [] eq_refl eq_refl)
                         (CollaboratorError "missing input") eq_refl)).
  - destruct (proj1 (process_prompty_messages_of_definition left_to_right
                       Prompty.sample_helper
                       (PromptyDefinition.minimal (values_of openai_mapping)
                          "system: hello")
                       _ (values_of openai_mapping) [("question", PStr "why?")]
                       eq_refl eq_refl)
                [("question", PStr "why?")] eq_refl)
      as (c & a & _ & Hres & Ha & _).
    by exists c, a.
Defined.

Example process_prompty_messages_runs :
  forall r,
    @PromptyDefinition.make left_to_right
      (PromptyDefinition.minimal (values_of openai_mapping) "system: hello") = Ok r ->
    @Prompty.process_prompty_messages Prompty.sample_helper
      (Prompty.of_definition r) [("question", PStr "why?")]
    = ([Prompty.CallPrepareInputs [("question", PStr "why?")] [] None;
        Prompty.CallToPrompt "system: hello" [("question", PStr "why?")] "chat"],
       Ok [[("role", PStr "system"); ("content", PStr "system: hello")]]).
Proof. intros r [= <-]. reflexivity. Qed.

(** [api] is checked against its two literals, [response] is not checked
    against the two values its declaration lists: a constructed record has
    the API kind ["chat"] or ["completion"], the one the mapping gave if it
    gave one, and a mapping that constructs still does with any string
    whatever as ["response"]. *)
Theorem PromptyModelConfig_api_checked_response_not (U : PydanticUnion)
    (vals : values) (r : t) :
  PromptyModelConfig.make vals = Ok r ->
  api r ∈ ["chat"; "completion"]
  /\ (forall a, get (v_api vals) = Some a -> api r = a)
  /\ (forall s, PromptyModelConfig.make (with_response vals s) = Ok (set_response r s)).
Proof.
  unfold PromptyModelConfig.make, sync_model_name, with_response.
  cbn [v_api v_configuration v_parameters v_response].
  destruct (resolve_configuration _) as [c|e]; cbn [mbind result_bind]; [|done].
  destruct (resolve_parameters c _) as [p|e]; cbn [mbind result_bind]; [|done].
  destruct (if _ : bool then _ else _) as [p'|e]; cbn [mbind result_bind]; [|done].
  cbn [v_api v_configuration v_parameters v_response].
  intros H. invert_make H. cbn [api]. split; [|split].
  - eapply api_field_allowed. eassumption.
  - intros given Hgiven. destruct (v_api vals) as [|[x|]]; simpl in *; try done.
    injection Hgiven as ->. apply literal_Ok in Ha2 as [-> _]. done.
  - intros s. unfold set_response. cbn [api configuration parameters].
    rewrite Ha2, Ha1, Ha0. reflexivity.
Qed.

Lemma PromptyModelConfig_api_checked_response_not_witness :
  exists r,
    @PromptyModelConfig.make left_to_right (values_with_api "completion") = Ok r
    /\ api r = "completion"
    /\ @PromptyModelConfig.make left_to_right
         (with_response (values_with_api "completion") "neither first nor full")
       = Ok (set_response r "neither first nor full").
Proof.
  eexists. split; [reflexivity|].
  destruct (PromptyModelConfig_api_checked_response_not left_to_right
              (values_with_api "completion") _ eq_refl) as (_ & Ha & Hr).
  split; [exact (Ha "completion" eq_refl)|exact (Hr _)].
Defined.

Example PromptyModelConfig_api_embeddings :
  @PromptyModelConfig.make left_to_right (values_with_api "embeddings")
  = Raise (ValidationError [("api", "literal_error")]).
Proof. reflexivity. Qed.

(** ** [None] and the declared defaults, in every class *)

Lemma PromptyDefinition_none_as_missing (U : PydanticUnion)
    (d : PromptyDefinition.raw_definition) :
  PromptyDefinition.make (definition_none_as_missing d) = PromptyDefinition.make d.
Proof.
  unfold PromptyDefinition.make, definition_none_as_missing.
  cbn [PromptyDefinition.r_d_name PromptyDefinition.r_d_description
       PromptyDefinition.r_d_version PromptyDefinition.r_d_authors
       PromptyDefinition.r_d_tags PromptyDefinition.r_d_model
       PromptyDefinition.r_d_inputs PromptyDefinition.r_d_sample
       PromptyDefinition.r_d_outputs PromptyDefinition.r_d_content].
  by rewrite !field_none_as_missing.
Qed.

Lemma field_without_default_None {T S} (name : string) (validate : T -> result S)
    (v : S) :
  field name None validate (Present None) = Ok v -> False.
Proof. done. Qed.

Ltac no_default name Hnone :=
  match goal with
  | Hf : field name _ _ _ = Ok _ |- _ =>
    rewrite Hnone in Hf; by apply field_without_default_None in Hf
  end.

Lemma azure_endpoint_None (d : raw_config) :
  r_azure_endpoint d = Present None ->
  is_ok (AzureOpenAIClientConfig.make d) = false
  /\ is_ok (AzureOpenAIModelConfig.make d) = false.
Proof.
  intros Hnone. split.
  - destruct (AzureOpenAIClientConfig.make d) as [c|e] eqn:H; [|done].
    unfold AzureOpenAIClientConfig.make in H. invert_make H.
    no_default "azure_endpoint" Hnone.
  - destruct (AzureOpenAIModelConfig.make d) as [c|e] eqn:H; [|done].
    unfold AzureOpenAIModelConfig.make in H. invert_make H.
    no_default "azure_endpoint" Hnone.
Qed.

Lemma PromptyModelConfig_None (U : PydanticUnion) (vals : values) :
  v_configuration vals = Present None \/ v_parameters vals = Present None ->
  is_ok (PromptyModelConfig.make vals) = false.
Proof.
  intros Hnone. destruct (PromptyModelConfig.make vals) as [r|e] eqn:H; [|done].
  exfalso. revert H. unfold PromptyModelConfig.make, sync_model_name.
  destruct Hnone as [Hnone|Hnone]; rewrite Hnone; cbn [get resolve_configuration].
  - cbn [mbind result_bind].
    destruct (get (v_parameters vals)) as [[dp|p]|];
      cbn [resolve_parameters mbind result_bind cfg_truthy andb
           v_api v_configuration v_parameters v_response];
      intros H; invert_make H;
      match goal with
      | Hf : field "configuration" _ _ _ = Ok _ |- _ =>
        by apply field_without_default_None in Hf
      end.
  - destruct (resolve_configuration _) as [cfg|e]; cbn [mbind result_bind]; [|done].
    cbn [resolve_parameters mbind result_bind par_truthy].
    rewrite andb_false_r.
    cbn [mbind result_bind v_api v_configuration v_parameters v_response].
    intros H. invert_make H.
    match goal with
    | Hf : field "parameters" _ _ _ = Ok _ |- _ =>
      by apply field_without_default_None in Hf
    end.
Qed.

Lemma PromptyDefinition_None (U : PydanticUnion) (d : PromptyDefinition.raw_definition) :
  PromptyDefinition.r_d_model d = Present None
  \/ PromptyDefinition.r_d_content d = Present None ->
  is_ok (PromptyDefinition.make d) = false.
Proof.
  intros Hnone. destruct (PromptyDefinition.make d) as [r|e] eqn:H; [|done].
  exfalso. unfold PromptyDefinition.make in H. invert_make H.
  destruct Hnone as [Hnone|Hnone].
  - no_default "model" Hnone.
  - no_default "content" Hnone.
Qed.

(** C6, as the code has it: in every class a field with a declared default
    takes that default when the mapping holds [None] for it, exactly as
    when the key is absent (the constructors cannot tell the two mappings
    apart); in particular an [OpenAIClientConfig] built from a mapping
    without [base_url], or with [base_url] [None], has the base URL
    ["https://api.openai.com/v1"].  A field declared without a default
    ([azure_endpoint]; [configuration] and [parameters] of
    [PromptyModelConfig]; [model] and [content] of [PromptyDefinition]) has
    nothing to take: [None] for it makes the construction fail. *)
Theorem none_takes_declared_default :
  (forall T S name (dflt : S) (validate : T -> result S),
     field name (Some dflt) validate (Present None) = Ok dflt
     /\ field name (Some dflt) validate Missing = Ok dflt)
  /\ (forall d,
        OpenAIClientConfig.make (config_none_as_missing d) = OpenAIClientConfig.make d
        /\ OpenAIModelConfig.make (config_none_as_missing d) = OpenAIModelConfig.make d
        /\ AzureOpenAIClientConfig.make (config_none_as_missing d)
           = AzureOpenAIClientConfig.make d
        /\ AzureOpenAIModelConfig.make (config_none_as_missing d)
           = AzureOpenAIModelConfig.make d
        /\ HFInferenceClientConfig.make (config_none_as_missing d)
           = HFInferenceClientConfig.make d
        /\ HFHubModelConfig.make (config_none_as_missing d) = HFHubModelConfig.make d)
  /\ (forall d,
        OpenAIParamsBase.make (params_none_as_missing d) = OpenAIParamsBase.make d
        /\ OpenAITextCompletionParams.make (params_none_as_missing d)
           = OpenAITextCompletionParams.make d
        /\ OpenAIChatCompletionParams.make (params_none_as_missing d)
           = OpenAIChatCompletionParams.make d)
  /\ (forall (U : PydanticUnion) vals,
        PromptyModelConfig.make (values_none_as_missing vals)
        = PromptyModelConfig.make vals)
  /\ (forall (U : PydanticUnion) d,
        PromptyDefinition.make (definition_none_as_missing d)
        = PromptyDefinition.make d)
  /\ (forall d c,
        r_base_url d = Missing \/ r_base_url d = Present None ->
        OpenAIClientConfig.make d = Ok c ->
        OpenAIClientConfig.base_url c = Some "https://api.openai.com/v1")
  /\ OpenAIClientConfig.make only_type_openai
     = Ok (OpenAIClientConfig.mk (Some "https://api.openai.com/v1") None None None)
  /\ OpenAIClientConfig.make type_openai_base_url_None
     = Ok (OpenAIClientConfig.mk (Some "https://api.openai.com/v1") None None None)
  /\ (forall d, r_azure_endpoint d = Present None ->
                is_ok (AzureOpenAIClientConfig.make d) = false
                /\ is_ok (AzureOpenAIModelConfig.make d) = false)
  /\ (forall (U : PydanticUnion) vals,
        v_configuration vals = Present None \/ v_parameters vals = Present None ->
        is_ok (PromptyModelConfig.make vals) = false)
  /\ (forall (U : PydanticUnion) d,
        PromptyDefinition.r_d_model d = Present None
        \/ PromptyDefinition.r_d_content d = Present None ->
        is_ok (PromptyDefinition.make d) = false).
Proof.
  split; [done|].
  split; [intros d; repeat split; none_as_missing_make|].
  split; [intros d; repeat split; none_as_missing_make|].
  split; [exact PromptyModelConfig_none_as_missing|].
  split; [exact PromptyDefinition_none_as_missing|].
  split; [exact openai_base_url_default|].
  split; [reflexivity|]. split; [reflexivity|].
  split; [exact azure_endpoint_None|].
  split; [exact PromptyModelConfig_None|exact PromptyDefinition_None].
Qed.

Lemma none_takes_declared_default_witness :
  r_base_url type_openai_base_url_None = Present None
  /\ OpenAIClientConfig.base_url
       (OpenAIClientConfig.mk (Some "https://api.openai.com/v1") None None None)
     = Some "https://api.openai.com/v1"
  /\ r_azure_endpoint azure_mapping_endpoint_None = Present None
  /\ is_ok (AzureOpenAIModelConfig.make azure_mapping_endpoint_None) = false.
Proof.
  split; [reflexivity|]. split; [|split; [reflexivity|]].
  - apply (proj1 (proj2 (proj2 (proj2 (proj2 (proj2 none_takes_declared_default)))))
             type_openai_base_url_None).
    + right. reflexivity.
    + reflexivity.
  - exact (proj2 (proj1 (proj2 (proj2 (proj2 (proj2 (proj2 (proj2 (proj2 (proj2
             none_takes_declared_default)))))))) azure_mapping_endpoint_None eq_refl)).
Defined.

(** C6 as stated fails where no default is declared: [None] for
    [azure_endpoint] is neither stored nor replaced, the construction
    raises. *)
Lemma None_without_default_raises :
  r_azure_endpoint azure_mapping_endpoint_None = Present None
  /\ AzureOpenAIClientConfig.make azure_mapping_endpoint_None
     = Raise (SchemaError_use_default "azure_endpoint")
  /\ ~ exists c, AzureOpenAIClientConfig.make azure_mapping_endpoint_None = Ok c.
Proof.
  split; [reflexivity|]. split; [reflexivity|]. intros [c Hc]. discriminate Hc.
Qed.
